(** * Campus BookSwap: the conversation and notification engine

    A shallow embedding of [js/notifications.js], [js/messaging.js] and
    [js/book-messaging.js], of [js/transaction-manager.js], which reports
    sales and purchases to the notification system, and of the part of
    [js/features.js] that constructs the notification systems of a page,
    and the properties of the conversation and notification engine checked
    against it.

    Conventions of the embedding.
    - A JavaScript object with a fixed shape is a record; an array is a list;
      [Array.prototype.find] is stdpp's [list_find], which returns the index
      together with the element, so that a mutation of the found object is an
      update of the array at that index.
    - [localStorage] is a record with one typed field per key the engine uses;
      [JSON.stringify] followed by [JSON.parse] is the identity on these typed
      values, and an absent key (or one holding an empty string or [null])
      is [None].
    - An ISO timestamp ([new Date().toISOString()]) is the number of
      milliseconds it denotes; [new Date(s)] applied to it gives that number
      back.  Within one synchronous call the wall clock is read once.
    - Closures handed to [setTimeout], [setInterval] and [addEventListener]
      are defunctionalised: a timer holds a [Callback] constructor, an event
      is a function on the state.
    - A method whose result or failure matters returns a [Completion] next to
      the state.
    - One tab is modelled: nothing but the modelled code writes the three
      storage keys.  [Notifications.State] is one [NotificationSystem] with
      the page it runs in, and [Notifications.run] the life of an instance
      that has its page to itself, as [window.notificationSystem] has on
      every page but the notifications page; [Features.Window] is a page
      with the instances [js/features.js] constructs on it, two on the
      notifications page. *)

From Stdlib Require Import ZArith QArith Qround.
From stdpp Require Import base list strings pretty numbers.

Open Scope Z_scope.

(** ** Host primitives *)

(** What the browser supplies to one synchronous call: the wall clock, the
    successive results of [Math.random()], and the radix-36 rendering of a
    number (left abstract). *)
Record Host := {
  Date_now : Z;
  Math_random : nat -> Q;
  toString36 : Q -> string
}.

(** The host as seen after [k] calls of [Math.random()]. *)
Definition after_draws (k : nat) (h : Host) : Host :=
  {| Date_now := Date_now h;
     Math_random := fun i => Math_random h (k + i)%nat;
     toString36 := toString36 h |}.

(** [Math.random().toString(36).substr(2, 9)] for the [k]-th draw. *)
Definition random_suffix (h : Host) (k : nat) : string :=
  String.substring 2 9 (toString36 h (Math_random h k)).

(** [Math.floor(Math.random() * len)] for the [k]-th draw. *)
Definition random_index (h : Host) (k : nat) (len : nat) : nat :=
  Z.to_nat (Qfloor (Math_random h k * inject_Z (Z.of_nat len))).

(** [arr[i]] on an array of strings, rendered in a template: an index out of
    range reads [undefined]. *)
Definition at_index (arr : list string) (i : nat) : string :=
  default "undefined" (arr !! i).

(** [String.prototype.trim].  A character is a code unit below 256; the
    white space and line terminators in that range are the six ASCII ones and
    the no-break space. *)
Definition is_whitespace (a : Ascii.ascii) : bool :=
  bool_decide (Ascii.nat_of_ascii a ∈ [9; 10; 11; 12; 13; 32; 160]%nat).

Fixpoint trimStart_chars (l : list Ascii.ascii) : list Ascii.ascii :=
  match l with
  | a :: l' => if is_whitespace a then trimStart_chars l' else l
  | [] => []
  end.

Definition trim (s : string) : string :=
  String.string_of_list_ascii
    (rev (trimStart_chars (rev (trimStart_chars (String.list_ascii_of_string s))))).

(** [s.includes(sub)]. *)
Definition includes (sub s : string) : bool :=
  bool_decide (is_Some (String.index 0 sub s)).

(** ** Data model *)

Record User := {
  u_id : string;
  u_name : string
}.

Record Notification := {
  n_id : string;
  n_type : string;
  n_message : string;
  n_timestamp : Z;
  n_read : bool;
  n_seen : bool;
  n_data : list (string * string);
  n_link : option string
}.

Record Participant := {
  p_id : string;
  p_name : string;
  p_whatsappNumber : option string
}.

Record Message := {
  m_id : string;
  m_senderId : string;
  m_text : string;
  m_timestamp : Z;
  m_read : bool
}.

Record Conversation := {
  c_id : string;
  c_participants : list Participant;
  c_bookId : string;
  c_bookTitle : string;
  c_messages : list Message
}.

(** The values the modelled methods hand back to their callers. *)
Inductive Value :=
| VUndefined
| VBool (b : bool)
| VString (s : string)
| VNotification (n : Notification)
| VMessage (m : Message).

(** How a synchronous call ends: it returns a value or throws. *)
Inductive Completion :=
| Return (v : Value)
| Throw (e : string).

(** The three [localStorage] keys the engine reads and writes. *)
Record Storage := {
  ls_currentUser : option User;
  ls_bookswap_notifications : option (list Notification);
  ls_bookswap_conversations : option (list Conversation)
}.

Definition setItem_notifications (ns : list Notification) (ls : Storage) : Storage :=
  {| ls_currentUser := ls_currentUser ls;
     ls_bookswap_notifications := Some ns;
     ls_bookswap_conversations := ls_bookswap_conversations ls |}.

Definition setItem_conversations (cs : list Conversation) (ls : Storage) : Storage :=
  {| ls_currentUser := ls_currentUser ls;
     ls_bookswap_notifications := ls_bookswap_notifications ls;
     ls_bookswap_conversations := Some cs |}.

(** [localStorage.removeItem('currentUser')], the storage effect of every
    logout handler of the application. *)
Definition removeItem_currentUser (ls : Storage) : Storage :=
  {| ls_currentUser := None;
     ls_bookswap_notifications := ls_bookswap_notifications ls;
     ls_bookswap_conversations := ls_bookswap_conversations ls |}.

#[global] Instance User_eq_dec : EqDecision User.
Proof. solve_decision. Defined.
#[global] Instance Notification_eq_dec : EqDecision Notification.
Proof. solve_decision. Defined.
#[global] Instance Participant_eq_dec : EqDecision Participant.
Proof. solve_decision. Defined.
#[global] Instance Message_eq_dec : EqDecision Message.
Proof. solve_decision. Defined.
#[global] Instance Conversation_eq_dec : EqDecision Conversation.
Proof. solve_decision. Defined.
#[global] Instance Value_eq_dec : EqDecision Value.
Proof. solve_decision. Defined.
#[global] Instance Completion_eq_dec : EqDecision Completion.
Proof. solve_decision. Defined.

(** ** Array.prototype.sort *)

(** [arr.sort(cmp)] is a stable sort: [a] is placed before [b] when
    [cmp a b < 0], and elements that compare equal keep their order.  The
    stable sort of a list is unique, so a stable insertion sort gives what the
    engine's sort gives. *)
Section ArraySort.
Context {A : Type} (cmp : A -> A -> Z).

Fixpoint sort_insert (x : A) (l : list A) : list A :=
  match l with
  | [] => [x]
  | y :: l' => if decide (0 < cmp x y) then y :: sort_insert x l' else x :: l
  end.

Definition Array_sort (l : list A) : list A := foldr sort_insert [] l.

End ArraySort.

(** [arr.slice(0, n)]. *)
Definition slice0 {A : Type} (n : nat) (l : list A) : list A := take n l.

(** ** js/notifications.js *)

Module Notifications.

(** *** The page around a [NotificationSystem] *)

(** [.notification-badge]: its text and [style.display]. *)
Record Badge := {
  textContent : string;
  display : string
}.

(** The content of [.notification-list]: the placeholder, or the rendered
    items.  An item is the notification it was rendered from (its [n_read]
    at rendering time decides the [unread] class). *)
Inductive ListView :=
| EmptyNotification
| Items (l : list Notification).

(** The markup [createNotificationElements] builds (or finds already in the
    page): badge, dropdown menu with its [show] class, and list. *)
Record Widget := {
  badge : Badge;
  menu_show : bool;
  notification_list : ListView
}.

(** A toast element, with the notification its listeners close over and its
    [toast-hiding] / [toast-visible] classes. *)
Record Toast := {
  toast_notification : Notification;
  toast_hiding : bool;
  toast_visible : bool
}.

(** The closures the module hands to [setInterval] and [setTimeout];
    [t] names a toast element by its index in [toasts]. *)
Inductive Callback :=
| PollTick
| ToastShow (t : nat)
| ToastAutoHide (t : nat)
| ToastRemoveIfContained (t : nat)
| ToastRemove (t : nat).

Record Timer := {
  due : Z;
  callback : Callback;
  every : option Z
}.

(** The page: storage, the elements the module looks for or creates, the
    timer queue with the clock of the event loop, and the address last
    assigned to [window.location.href] (the unloading of the page that
    follows such an assignment is not modelled: the page lives on). *)
Record Page := {
  localStorage : Storage;
  navbar : bool;
  widget : option Widget;
  toasts : list Toast;
  toast_container : option (list nat);
  timers : list Timer;
  clock : Z;
  location_href : string
}.

(** The instance fields of [NotificationSystem], what its listeners close
    over (whether the bell was found to be on the dashboard page when they
    were registered), and the page it runs in. *)
Record State := {
  notifications : list Notification;
  unreadCount : nat;
  currentUser : option User;
  onDashboard : bool;
  page : Page
}.

Definition with_notifications (ns : list Notification) (st : State) : State :=
  {| notifications := ns; unreadCount := unreadCount st;
     currentUser := currentUser st; onDashboard := onDashboard st; page := page st |}.

Definition with_unreadCount (c : nat) (st : State) : State :=
  {| notifications := notifications st; unreadCount := c;
     currentUser := currentUser st; onDashboard := onDashboard st; page := page st |}.

Definition with_page (pg : Page) (st : State) : State :=
  {| notifications := notifications st; unreadCount := unreadCount st;
     currentUser := currentUser st; onDashboard := onDashboard st; page := pg |}.

Definition with_localStorage (ls : Storage) (pg : Page) : Page :=
  {| localStorage := ls; navbar := navbar pg; widget := widget pg;
     toasts := toasts pg; toast_container := toast_container pg;
     timers := timers pg; clock := clock pg; location_href := location_href pg |}.

Definition with_widget (w : option Widget) (pg : Page) : Page :=
  {| localStorage := localStorage pg; navbar := navbar pg; widget := w;
     toasts := toasts pg; toast_container := toast_container pg;
     timers := timers pg; clock := clock pg; location_href := location_href pg |}.

Definition with_toasts (ts : list Toast) (pg : Page) : Page :=
  {| localStorage := localStorage pg; navbar := navbar pg; widget := widget pg;
     toasts := ts; toast_container := toast_container pg;
     timers := timers pg; clock := clock pg; location_href := location_href pg |}.

Definition with_toast_container (c : option (list nat)) (pg : Page) : Page :=
  {| localStorage := localStorage pg; navbar := navbar pg; widget := widget pg;
     toasts := toasts pg; toast_container := c;
     timers := timers pg; clock := clock pg; location_href := location_href pg |}.

Definition with_timers (tm : list Timer) (pg : Page) : Page :=
  {| localStorage := localStorage pg; navbar := navbar pg; widget := widget pg;
     toasts := toasts pg; toast_container := toast_container pg;
     timers := tm; clock := clock pg; location_href := location_href pg |}.

Definition with_clock (c : Z) (pg : Page) : Page :=
  {| localStorage := localStorage pg; navbar := navbar pg; widget := widget pg;
     toasts := toasts pg; toast_container := toast_container pg;
     timers := timers pg; clock := c; location_href := location_href pg |}.

Definition with_location_href (l : string) (pg : Page) : Page :=
  {| localStorage := localStorage pg; navbar := navbar pg; widget := widget pg;
     toasts := toasts pg; toast_container := toast_container pg;
     timers := timers pg; clock := clock pg; location_href := l |}.

Definition on_page (f : Page -> Page) (st : State) : State :=
  with_page (f (page st)) st.

Definition with_badge (b : Badge) (w : Widget) : Widget :=
  {| badge := b; menu_show := menu_show w; notification_list := notification_list w |}.

Definition with_menu_show (s : bool) (w : Widget) : Widget :=
  {| badge := badge w; menu_show := s; notification_list := notification_list w |}.

Definition with_notification_list (v : ListView) (w : Widget) : Widget :=
  {| badge := badge w; menu_show := menu_show w; notification_list := v |}.

(** [setTimeout(cb, delay)] and [setInterval(cb, delay)]. *)
Definition setTimeout (cb : Callback) (delay : Z) (pg : Page) : Page :=
  with_timers (timers pg ++ [{| due := clock pg + delay; callback := cb; every := None |}]) pg.

Definition setInterval (cb : Callback) (delay : Z) (pg : Page) : Page :=
  with_timers (timers pg ++ [{| due := clock pg + delay; callback := cb; every := Some delay |}]) pg.

(** *** Notification objects *)

Definition set_read (n : Notification) : Notification :=
  {| n_id := n_id n; n_type := n_type n; n_message := n_message n;
     n_timestamp := n_timestamp n; n_read := true; n_seen := n_seen n;
     n_data := n_data n; n_link := n_link n |}.

Definition set_seen (n : Notification) : Notification :=
  {| n_id := n_id n; n_type := n_type n; n_message := n_message n;
     n_timestamp := n_timestamp n; n_read := n_read n; n_seen := true;
     n_data := n_data n; n_link := n_link n |}.

(** [notification.data.key] inside a template string. *)
Definition data_field (key : string) (n : Notification) : string :=
  default "undefined" (snd <$> (snd <$> list_find (fun kv => fst kv = key) (n_data n))).

(** [this.notificationTypes]. *)
Definition NEW_LISTING : string := "new_listing".
Definition MESSAGE : string := "message".
Definition TRANSACTION : string := "transaction".
Definition REVIEW : string := "review".
Definition SYSTEM : string := "system".

(** [Object.values(this.notificationTypes)]. *)
Definition notificationTypes : list string :=
  [NEW_LISTING; MESSAGE; TRANSACTION; REVIEW; SYSTEM].

(** *** Storage access *)

Definition getCurrentUser (pg : Page) : option User :=
  ls_currentUser (localStorage pg).

Definition loadNotificationsFromStorage (pg : Page) : option (list Notification) :=
  ls_bookswap_notifications (localStorage pg).

Definition saveNotificationsToStorage (st : State) : State :=
  on_page (with_localStorage (setItem_notifications (notifications st) (localStorage (page st)))) st.

(** *** Badge and dropdown *)

Definition getUnreadCount (st : State) : nat :=
  match notifications st with
  | [] => 0%nat
  | ns => length (filter (fun n => n_read n = false) ns)
  end.

Definition updateNotificationBadge (st : State) : State :=
  match widget (page st) with
  | None => st
  | Some w =>
      let c := getUnreadCount st in
      let st := with_unreadCount c st in
      let b :=
        if decide (0 < c)%nat
        then {| textContent := if decide (9 < c)%nat then "9+" else pretty c;
                display := "flex" |}
        else {| textContent := textContent (badge w); display := "none" |} in
      on_page (with_widget (Some (with_badge b w))) st
  end.

(** The comparator of both sorts: [new Date(b.timestamp) - new Date(a.timestamp)]. *)
Definition newest_first (a b : Notification) : Z :=
  n_timestamp b - n_timestamp a.

Definition renderNotifications (st : State) : State :=
  match widget (page st) with
  | None => st
  | Some w =>
      match notifications st with
      | [] => on_page (with_widget (Some (with_notification_list EmptyNotification w))) st
      | ns =>
          let sortedNotifications := Array_sort newest_first ns in
          let recentNotifications := slice0 5 sortedNotifications in
          on_page (with_widget (Some (with_notification_list (Items recentNotifications) w))) st
      end
  end.

(** The items [generateNotificationsPage] writes into its container, in
    order; [None] is the "No notifications yet" placeholder. *)
Definition generateNotificationsPage (st : State) : option (list Notification) :=
  match notifications st with
  | [] => None
  | ns => Some (Array_sort newest_first ns)
  end.

Definition getNotificationIcon (type : string) : string :=
  if decide (type = NEW_LISTING) then "fas fa-book"
  else if decide (type = MESSAGE) then "fas fa-envelope"
  else if decide (type = TRANSACTION) then "fas fa-money-bill-wave"
  else if decide (type = REVIEW) then "fas fa-star"
  else if decide (type = SYSTEM) then "fas fa-bell"
  else "fas fa-bell".

Definition closeNotificationDropdown (st : State) : State :=
  match widget (page st) with
  | None => st
  | Some w => on_page (with_widget (Some (with_menu_show false w))) st
  end.

Definition markAllAsRead (st : State) : State :=
  match notifications st with
  | [] => st
  | ns =>
      let st := with_notifications (set_read <$> ns) st in
      let st := saveNotificationsToStorage st in
      let st := updateNotificationBadge st in
      renderNotifications st
  end.

Definition markNotificationsAsSeen (st : State) : State :=
  match notifications st with
  | [] => st
  | ns =>
      let st := with_notifications (set_seen <$> ns) st in
      let st := saveNotificationsToStorage st in
      updateNotificationBadge st
  end.

Definition toggleNotificationDropdown (st : State) : State :=
  match widget (page st) with
  | None => st
  | Some w =>
      let st := on_page (with_widget (Some (with_menu_show (negb (menu_show w)) w))) st in
      if negb (menu_show w) then markNotificationsAsSeen st else st
  end.

Definition markAsRead (notificationId : string) (st : State) : State :=
  match list_find (fun n => n_id n = notificationId) (notifications st) with
  | Some (i, notification) =>
      let st := with_notifications (<[i := set_read notification]> (notifications st)) st in
      let st := saveNotificationsToStorage st in
      let st := updateNotificationBadge st in
      renderNotifications st
  | None => st
  end.

(** A string is truthy when it is present and not empty. *)
Definition truthy (s : option string) : option string :=
  match s with
  | Some "" => None
  | _ => s
  end.

Definition handleNotificationClick (notification : Notification) (st : State) : State :=
  let st := markAsRead (n_id notification) st in
  match truthy (n_link notification) with
  | Some link => on_page (with_location_href link) st
  | None =>
      if decide (n_type notification = NEW_LISTING)
      then on_page (with_location_href ("browse.html?book=" +:+ data_field "bookId" notification)) st
      else if decide (n_type notification = MESSAGE)
      then on_page (with_location_href
             ("messages.html?conversation=" +:+ data_field "conversationId" notification)) st
      else if decide (n_type notification = TRANSACTION)
      then on_page (with_location_href "dashboard.html?tab=transactions") st
      else if decide (n_type notification = REVIEW)
      then on_page (with_location_href "dashboard.html?tab=reviews") st
      else closeNotificationDropdown st
  end.

(** *** Toasts *)

Definition toast_children (pg : Page) : list nat :=
  default [] (toast_container pg).

(** [toastContainer.contains(toast)]. *)
Definition contains (t : nat) (pg : Page) : bool :=
  bool_decide (t ∈ toast_children pg).

(** [toastContainer.removeChild(toast)]: throws a [NotFoundError] when
    [toast] is not a child of the container. *)
Definition removeChild (t : nat) (pg : Page) : Page * Completion :=
  if contains t pg
  then (with_toast_container (Some (filter (fun c => c <> t) (toast_children pg))) pg,
        Return VUndefined)
  else (pg, Throw "NotFoundError").

Definition add_toast_hiding (t : nat) (pg : Page) : Page :=
  with_toasts (alter (fun el => {| toast_notification := toast_notification el;
                                   toast_hiding := true;
                                   toast_visible := toast_visible el |}) t (toasts pg)) pg.

Definition add_toast_visible (t : nat) (pg : Page) : Page :=
  with_toasts (alter (fun el => {| toast_notification := toast_notification el;
                                   toast_hiding := toast_hiding el;
                                   toast_visible := true |}) t (toasts pg)) pg.

Definition showToastNotification (notification : Notification) (st : State) : State :=
  let pg := page st in
  (* the container is created on first use and appended to the body *)
  let children := toast_children pg in
  let toast := length (toasts pg) in
  let pg := with_toasts (toasts pg ++ [{| toast_notification := notification;
                                          toast_hiding := false;
                                          toast_visible := false |}]) pg in
  let pg := with_toast_container (Some (children ++ [toast])) pg in
  (* auto-hide after 5 seconds, show with animation after 10 ms *)
  let pg := setTimeout (ToastAutoHide toast) 5000 pg in
  let pg := setTimeout (ToastShow toast) 10 pg in
  with_page pg st.

(** The [click] listener of the toast's close button. *)
Definition click_toast_close (t : nat) (st : State) : State :=
  on_page (fun pg => setTimeout (ToastRemove t) 300 (add_toast_hiding t pg)) st.

(** The [click] listener of the toast itself, for a click outside the close
    button. *)
Definition click_toast (t : nat) (st : State) : State :=
  match toasts (page st) !! t with
  | Some el =>
      let st := handleNotificationClick (toast_notification el) st in
      on_page (fun pg => setTimeout (ToastRemoveIfContained t) 300 (add_toast_hiding t pg)) st
  | None => st
  end.

(** *** Adding notifications *)

(** The argument of [addNotification]; [data] and [link] may be left out. *)
Record NotificationInput := {
  type : string;
  message : string;
  data : option (list (string * string));
  link : option string
}.

(** The object [addNotification] builds from its argument. *)
Definition newNotification (h : Host) (notification : NotificationInput) : Notification :=
  let id := "notification_" +:+ pretty (Date_now h) +:+ "_" +:+ random_suffix h 0 in
  {| n_id := id;
     n_type := type notification;
     n_message := message notification;
     n_timestamp := Date_now h;
     n_read := false;
     n_seen := false;
     n_data := default [] (data notification);
     n_link := truthy (link notification) |}.

Definition addNotification (h : Host) (notification : NotificationInput) (st : State)
  : State * Completion :=
  match currentUser st with
  | None => (st, Return (VBool false))
  | Some _ =>
      let newNotification := newNotification h notification in
      let st := with_notifications (newNotification :: notifications st) st in
      let st := saveNotificationsToStorage st in
      let st := updateNotificationBadge st in
      let st := renderNotifications st in
      let st := showToastNotification newNotification st in
      (st, Return (VBool true))
  end.

(** *** The simulated event source *)

Definition books : list string :=
  ["Calculus"; "Physics"; "Computer Science"; "Biology"; "Chemistry"].
Definition names : list string :=
  ["Alex"; "Jordan"; "Taylor"; "Morgan"; "Casey"].
Definition transactionTypes : list string :=
  ["Payment received"; "Book sold"; "New purchase"; "Transaction completed"].
Definition systemMessages : list string :=
  ["Welcome to Campus BookSwap!";
   "Your account has been verified";
   "New feature: Book price comparison is now available";
   "Maintenance scheduled for tonight";
   "Your listing is about to expire"].

(** The argument [simulateNewNotification] builds for a type, with the
    number of draws of [Math.random()] it takes after the one that chose the
    type. *)
Definition simulated (h : Host) (randomType : string) : nat * NotificationInput :=
  if decide (randomType = NEW_LISTING) then
    let randomBook := at_index books (random_index h 1 (length books)) in
    (2%nat,
     {| type := randomType;
        message := "New " +:+ randomBook +:+ " textbook listed in your department";
        data := Some [("bookId", "book_" +:+ random_suffix h 2)];
        link := Some "browse.html" |})
  else if decide (randomType = MESSAGE) then
    let randomName := at_index names (random_index h 1 (length names)) in
    (2%nat,
     {| type := randomType;
        message := "New message from " +:+ randomName +:+ " about your book listing";
        data := Some [("conversationId", "conv_" +:+ random_suffix h 2)];
        link := Some "messages.html" |})
  else if decide (randomType = TRANSACTION) then
    let randomTransaction :=
      at_index transactionTypes (random_index h 1 (length transactionTypes)) in
    (2%nat,
     {| type := randomType;
        message := randomTransaction +:+ " - check your transactions";
        data := Some [("transactionId", "trans_" +:+ random_suffix h 2)];
        link := Some "dashboard.html?tab=transactions" |})
  else if decide (randomType = REVIEW) then
    (1%nat,
     {| type := randomType;
        message := "Someone left a new review on your book listing";
        data := Some [("reviewId", "review_" +:+ random_suffix h 1)];
        link := Some "dashboard.html?tab=reviews" |})
  else if decide (randomType = SYSTEM) then
    let randomMessage := at_index systemMessages (random_index h 1 (length systemMessages)) in
    (1%nat, {| type := randomType; message := randomMessage; data := Some []; link := None |})
  else
    (0%nat, {| type := randomType; message := ""; data := Some []; link := None |}).

(** [simulateNewNotification] ends with the statement
    [this.addNotification(notification);]: what [addNotification] returns is
    dropped, and the method itself returns nothing. *)
Definition simulateNewNotification (h : Host) (st : State) : State * Completion :=
  let randomType := at_index notificationTypes (random_index h 0 (length notificationTypes)) in
  let '(draws, notification) := simulated h randomType in
  let '(st, c) := addNotification (after_draws (S draws) h) notification st in
  (st, match c with
       | Return _ => Return VUndefined
       | Throw e => Throw e
       end).

(** The body of the interval callback of [startNotificationPolling]. *)
Definition poll_tick (h : Host) (st : State) : State :=
  match currentUser st with
  | Some _ =>
      if Qlt_le_dec (Math_random h 0) (1 # 10)
      then fst (simulateNewNotification (after_draws 1 h) st)
      else st
  | None => st
  end.

Definition startNotificationPolling (st : State) : State :=
  on_page (setInterval PollTick 30000) st.

(** *** Construction *)

Definition createNotificationElements (st : State) : State :=
  match widget (page st) with
  | Some _ => st
  | None =>
      if navbar (page st)
      then on_page (with_widget (Some {| badge := {| textContent := "0"; display := "" |};
                                         menu_show := false;
                                         notification_list := EmptyNotification |})) st
      else st
  end.

(** [addEventListeners] registers the listeners [click_icon],
    [click_mark_all_read] and [click_document] below; which listener the
    bell gets depends on the address of the page at that moment. *)
Definition addEventListeners (st : State) : State :=
  {| notifications := notifications st; unreadCount := unreadCount st;
     currentUser := currentUser st;
     onDashboard := includes "dashboard.html" (location_href (page st));
     page := page st |}.

Definition initNotificationSystem (st : State) : State :=
  let st := createNotificationElements st in
  let st := updateNotificationBadge st in
  let st := addEventListeners st in
  startNotificationPolling st.

Definition constructor (pg : Page) : State :=
  let notifications := default [] (loadNotificationsFromStorage pg) in
  let st := {| notifications := notifications; unreadCount := 0;
               currentUser := None; onDashboard := false; page := pg |} in
  let st := with_unreadCount (getUnreadCount st) st in
  let st := {| notifications := notifications; unreadCount := unreadCount st;
               currentUser := getCurrentUser pg; onDashboard := false; page := pg |} in
  initNotificationSystem st.

(** *** Listeners of the bell and the dropdown *)

(** The [click] listener of the bell; there is a bell when the markup is
    there. *)
Definition click_icon (st : State) : State :=
  match widget (page st) with
  | None => st
  | Some _ =>
      if onDashboard st
      then on_page (with_location_href "notifications.html") st
      else toggleNotificationDropdown st
  end.

(** The [click] listener of the "Mark all as read" button. *)
Definition click_mark_all_read (st : State) : State :=
  match widget (page st) with
  | None => st
  | Some _ => markAllAsRead st
  end.

(** The [click] listener of the document, for a click outside the
    dropdown. *)
Definition click_document (st : State) : State := closeNotificationDropdown st.

(** *** The timer queue *)

Definition run_callback (h : Host) (cb : Callback) (st : State) : State * Completion :=
  match cb with
  | PollTick => (poll_tick h st, Return VUndefined)
  | ToastShow t => (on_page (add_toast_visible t) st, Return VUndefined)
  | ToastAutoHide t =>
      (on_page (fun pg => setTimeout (ToastRemoveIfContained t) 300 (add_toast_hiding t pg)) st,
       Return VUndefined)
  | ToastRemoveIfContained t =>
      if contains t (page st)
      then let '(pg, c) := removeChild t (page st) in (with_page pg st, c)
      else (st, Return VUndefined)
  | ToastRemove t =>
      let '(pg, c) := removeChild t (page st) in (with_page pg st, c)
  end.

Fixpoint min_due (tm : list Timer) : option Z :=
  match tm with
  | [] => None
  | t :: tm' => Some (match min_due tm' with
                      | None => due t
                      | Some m => Z.min (due t) m
                      end)
  end.

(** The timer that fires next: the earliest due, the first armed among
    those due together. *)
Definition next_timer (tm : list Timer) : option (nat * Timer) :=
  match min_due tm with
  | None => None
  | Some m => list_find (fun t => due t = m) tm
  end.

(** One turn of the event loop for timers: the next timer fires.  A timeout
    leaves the queue, an interval is re-armed; with no timer pending
    nothing happens. *)
Definition fire (h : Host) (st : State) : State * Completion :=
  match next_timer (timers (page st)) with
  | None => (st, Return VUndefined)
  | Some (i, t) =>
      let tm := match every t with
                | None => delete i (timers (page st))
                | Some d => <[i := {| due := due t + d; callback := callback t;
                                      every := every t |}]> (timers (page st))
                end in
      let st := on_page (fun pg => with_timers tm (with_clock (Z.max (clock pg) (due t)) pg)) st in
      run_callback h (callback t) st
  end.

(** What happens to a page: a timer fires; the user clicks a toast (on
    its close button, or elsewhere on it) at some time, and only a toast that
    is in the document can be clicked; the user clicks the bell, the "Mark
    all as read" button, outside the dropdown, the check mark of a listed
    notification, or a listed notification; another module adds a
    notification. *)
Inductive Input :=
| Fire (h : Host)
| ClickToastClose (time : Z) (t : nat)
| ClickToast (time : Z) (t : nat)
| ClickIcon
| ClickMarkAllRead
| ClickDocument
| ClickMarkRead (notificationId : string)
| ClickNotification (notification : Notification)
| Add (h : Host) (notification : NotificationInput).

Definition step (i : Input) (st : State) : State * Completion :=
  match i with
  | ClickIcon => (click_icon st, Return VUndefined)
  | ClickMarkAllRead => (click_mark_all_read st, Return VUndefined)
  | ClickDocument => (click_document st, Return VUndefined)
  | ClickMarkRead notificationId => (markAsRead notificationId st, Return VUndefined)
  | ClickNotification notification =>
      (handleNotificationClick notification st, Return VUndefined)
  | Add h notification => addNotification h notification st
  | Fire h => fire h st
  | ClickToastClose time t =>
      if contains t (page st)
      then (click_toast_close t (on_page (fun pg => with_clock (Z.max (clock pg) time) pg) st),
            Return VUndefined)
      else (st, Return VUndefined)
  | ClickToast time t =>
      if contains t (page st)
      then (click_toast t (on_page (fun pg => with_clock (Z.max (clock pg) time) pg) st),
            Return VUndefined)
      else (st, Return VUndefined)
  end.

(** Whether the step detaches toast [t] from the container. *)
Definition detaches (t : nat) (i : Input) (st : State) : bool :=
  contains t (page st) && negb (contains t (page (fst (step i st)))).

(** Run a sequence of inputs on a page that holds this instance and no
    other; an exception thrown by a listener or a timer callback is reported
    and the event loop goes on.  The result is the final state and how each
    input ended.  (The page with two instances is [Features.run].) *)
Fixpoint run (inputs : list Input) (st : State) : State * list Completion :=
  match inputs with
  | [] => (st, [])
  | i :: inputs' =>
      let '(st1, c) := step i st in
      let '(st2, cs) := run inputs' st1 in
      (st2, c :: cs)
  end.

(** How many of the steps of a run detach toast [t]. *)
Fixpoint detachments (t : nat) (inputs : list Input) (st : State) : nat :=
  match inputs with
  | [] => 0%nat
  | i :: inputs' =>
      ((if detaches t i st then 1 else 0) + detachments t inputs' (fst (step i st)))%nat
  end.

(** A one-shot timer, and the interval of the polling. *)
Definition timeout (deadline : Z) (cb : Callback) : Timer :=
  {| due := deadline; callback := cb; every := None |}.

Definition poll_timer (deadline : Z) : Timer :=
  {| due := deadline; callback := PollTick; every := Some 30000 |}.

(** The state [st] with the timer queue, the children of the toast
    container and the clock set. *)
Definition in_phase (tm : list Timer) (children : list nat) (now : Z) (st : State) : State :=
  on_page (fun pg => with_timers tm (with_toast_container (Some children) (with_clock now pg))) st.

(** The list of the instance is the stored one (an absent key reads as the
    empty list). *)
Definition stored_in_step (st : State) : Prop :=
  notifications st = default [] (loadNotificationsFromStorage (page st)).

End Notifications.

(** ** js/messaging.js *)

Module Messaging.

(** The instance fields of [MessagingSystem] and what it touches in the
    page: the storage, the value of [.chat-input input] when that element
    exists, whether [.conversations-list], [.chat-header] (with its avatar
    or heading) and [.chat-messages] exist, and the alerts shown. *)
Record State := {
  currentUser : option User;
  conversations : list Conversation;
  activeConversationId : option string;
  localStorage : Storage;
  chatInput : option string;
  conversationsList : bool;
  chatHeader : bool;
  chatMessages : bool;
  alerts : list string
}.

Definition with_conversations (cs : list Conversation) (st : State) : State :=
  {| currentUser := currentUser st; conversations := cs;
     activeConversationId := activeConversationId st; localStorage := localStorage st;
     chatInput := chatInput st; conversationsList := conversationsList st;
     chatHeader := chatHeader st; chatMessages := chatMessages st;
     alerts := alerts st |}.

Definition with_activeConversationId (a : option string) (st : State) : State :=
  {| currentUser := currentUser st; conversations := conversations st;
     activeConversationId := a; localStorage := localStorage st;
     chatInput := chatInput st; conversationsList := conversationsList st;
     chatHeader := chatHeader st; chatMessages := chatMessages st;
     alerts := alerts st |}.

Definition with_localStorage (ls : Storage) (st : State) : State :=
  {| currentUser := currentUser st; conversations := conversations st;
     activeConversationId := activeConversationId st; localStorage := ls;
     chatInput := chatInput st; conversationsList := conversationsList st;
     chatHeader := chatHeader st; chatMessages := chatMessages st;
     alerts := alerts st |}.

Definition with_chatInput (v : option string) (st : State) : State :=
  {| currentUser := currentUser st; conversations := conversations st;
     activeConversationId := activeConversationId st; localStorage := localStorage st;
     chatInput := v; conversationsList := conversationsList st;
     chatHeader := chatHeader st; chatMessages := chatMessages st;
     alerts := alerts st |}.

Definition alert (msg : string) (st : State) : State :=
  {| currentUser := currentUser st; conversations := conversations st;
     activeConversationId := activeConversationId st; localStorage := localStorage st;
     chatInput := chatInput st; conversationsList := conversationsList st;
     chatHeader := chatHeader st; chatMessages := chatMessages st;
     alerts := alerts st ++ [msg] |}.

Definition getCurrentUser (ls : Storage) : option User := ls_currentUser ls.

Definition loadConversationsFromStorage (ls : Storage) : option (list Conversation) :=
  ls_bookswap_conversations ls.

Definition saveConversationsToStorage (st : State) : State :=
  with_localStorage (setItem_conversations (conversations st) (localStorage st)) st.

(** [conversation.messages.push(m)]. *)
Definition push_message (m : Message) (c : Conversation) : Conversation :=
  {| c_id := c_id c; c_participants := c_participants c; c_bookId := c_bookId c;
     c_bookTitle := c_bookTitle c; c_messages := c_messages c ++ [m] |}.

Definition with_messages (ms : list Message) (c : Conversation) : Conversation :=
  {| c_id := c_id c; c_participants := c_participants c; c_bookId := c_bookId c;
     c_bookTitle := c_bookTitle c; c_messages := ms |}.

Definition with_participants (ps : list Participant) (c : Conversation) : Conversation :=
  {| c_id := c_id c; c_participants := ps; c_bookId := c_bookId c;
     c_bookTitle := c_bookTitle c; c_messages := c_messages c |}.

Definition with_whatsappNumber (w : string) (p : Participant) : Participant :=
  {| p_id := p_id p; p_name := p_name p; p_whatsappNumber := Some w |}.

Definition set_read (m : Message) : Message :=
  {| m_id := m_id m; m_senderId := m_senderId m; m_text := m_text m;
     m_timestamp := m_timestamp m; m_read := true |}.

(** [conversation.participants.find(p => p.id !== this.currentUser.id)]:
    the index and the participant found, [Some None] when the result is
    [undefined], and [None] when the callback throws, which it does on the
    first participant when there is no current user. *)
Definition find_otherUser (st : State) (c : Conversation)
  : option (option (nat * Participant)) :=
  match currentUser st with
  | Some u => Some (list_find (fun p => p_id p <> u_id u) (c_participants c))
  | None =>
      match c_participants c with
      | [] => Some None
      | _ :: _ => None
      end
  end.

(** *** Rendering

    [displayMessages], [displayConversations] and [updateChatHeader] only
    rebuild DOM nodes, so all that is kept of them is whether they throw.
    [displayMessages] reads [this.currentUser.id] for each message.
    [createConversationItem] reads [lastMessage.timestamp] and
    [otherUser.name]: it throws a [TypeError] for a conversation without
    messages, or without a participant other than the current user; without
    a current user it throws for every conversation.  [updateChatHeader]
    reads [user.name]. *)
Definition displayMessages (st : State) (messages : list Message) : Completion :=
  if chatMessages st then
    match messages, currentUser st with
    | _ :: _, None => Throw "TypeError"
    | _, _ => Return VUndefined
    end
  else Return VUndefined.

Definition createConversationItem_throws (u : User) (c : Conversation) : bool :=
  bool_decide (c_messages c = []) ||
  bool_decide (list_find (fun p => p_id p <> u_id u) (c_participants c) = None).

Definition displayConversations (st : State) : Completion :=
  if conversationsList st then
    match conversations st, currentUser st with
    | [], _ => Return VUndefined
    | _ :: _, None => Throw "TypeError"
    | cs, Some u =>
        if existsb (createConversationItem_throws u) cs
        then Throw "TypeError" else Return VUndefined
    end
  else Return VUndefined.

Definition updateChatHeader (st : State) (user : option (nat * Participant)) : Completion :=
  if chatHeader st then
    match user with
    | Some _ => Return VUndefined
    | None => Throw "TypeError"
    end
  else Return VUndefined.

(** *** Construction *)

(** [initMessagingSystem] registers listeners and renders, and does so only
    when there is a current user; the constructor itself catches nothing, so
    a rendering failure ends it, but the fields are set before. *)
Definition constructor (ls : Storage) (input : option string) (list_present : bool)
    (header_present : bool) (messages_present : bool) : State :=
  {| currentUser := getCurrentUser ls;
     conversations := default [] (loadConversationsFromStorage ls);
     activeConversationId := None;
     localStorage := ls;
     chatInput := input;
     conversationsList := list_present;
     chatHeader := header_present;
     chatMessages := messages_present;
     alerts := [] |}.

(** *** Sending and reading *)

Definition sendMessage (h : Host) (st : State) : State * Completion :=
  match chatInput st with
  | None => (st, Return VUndefined)
  | Some value =>
      let messageText := trim value in
      if decide (messageText = "") then (st, Return VUndefined)
      else
        match Notifications.truthy (activeConversationId st) with
        | None => (alert "Please select a conversation first." st, Return VUndefined)
        | Some active =>
            match list_find (fun c => c_id c = active) (conversations st) with
            | None => (st, Return VUndefined)
            | Some (i, conversation) =>
                match currentUser st with
                | None => (st, Throw "TypeError")
                | Some u =>
                    let newMessage :=
                      {| m_id := pretty (Date_now h);
                         m_senderId := u_id u;
                         m_text := messageText;
                         m_timestamp := Date_now h;
                         m_read := false |} in
                    let st := with_conversations
                                (<[i := push_message newMessage conversation]>
                                   (conversations st)) st in
                    let st := saveConversationsToStorage st in
                    (* displayMessages does not throw: there is a current user *)
                    match displayConversations st with
                    | Throw e => (st, Throw e)
                    | Return _ => (with_chatInput (Some "") st, Return VUndefined)
                    end
                end
            end
        end
  end.

(** The callback of the [forEach] of [markMessagesAsRead], for the current
    user [u]. *)
Definition mark_if_from_other (u : User) (message : Message) : Message :=
  if decide (m_senderId message <> u_id u) then set_read message else message.

(** [message.senderId !== this.currentUser.id] is evaluated for each
    message; without a current user the first evaluation throws, and with no
    message there is none. *)
Definition markMessagesAsRead (conversationId : string) (st : State) : State * Completion :=
  match list_find (fun c => c_id c = conversationId) (conversations st) with
  | None => (st, Return VUndefined)
  | Some (i, conversation) =>
      match currentUser st with
      | None =>
          match c_messages conversation with
          | [] =>
              let st := saveConversationsToStorage st in
              (st, displayConversations st)
          | _ :: _ => (st, Throw "TypeError")
          end
      | Some u =>
          let messages := mark_if_from_other u <$> c_messages conversation in
          let st := with_conversations
                      (<[i := with_messages messages conversation]> (conversations st)) st in
          let st := saveConversationsToStorage st in
          (st, displayConversations st)
      end
  end.

Definition loadConversationMessages (conversationId : string) (st : State)
  : State * Completion :=
  match list_find (fun c => c_id c = conversationId) (conversations st) with
  | None => (st, Return VUndefined)
  | Some (_, conversation) =>
      match find_otherUser st conversation with
      | None => (st, Throw "TypeError")
      | Some otherUser =>
          match updateChatHeader st otherUser with
          | Throw e => (st, Throw e)
          | Return _ =>
              match displayMessages st (c_messages conversation) with
              | Throw e => (st, Throw e)
              | Return _ => markMessagesAsRead conversationId st
              end
          end
      end
  end.

(** The [click] listener of a conversation item. *)
Definition select_conversation (conversationId : string) (st : State) : State * Completion :=
  match Notifications.truthy (Some conversationId) with
  | None => (st, Return VUndefined)
  | Some cid =>
      let st := with_activeConversationId (Some cid) st in
      loadConversationMessages cid st
  end.

(** [answer] is what the user gives to the [prompt] for a number, when it
    is shown; the window that is opened at the end is not part of the
    state. *)
Definition openWhatsAppChat (answer : option string) (st : State) : State * Completion :=
  match Notifications.truthy (activeConversationId st) with
  | None => (alert "Please select a conversation first." st, Return VUndefined)
  | Some active =>
      match list_find (fun c => c_id c = active) (conversations st) with
      | None => (st, Return VUndefined)
      | Some (i, conversation) =>
          match find_otherUser st conversation with
          | None | Some None => (st, Throw "TypeError")
          | Some (Some (j, otherUser)) =>
              match Notifications.truthy (p_whatsappNumber otherUser) with
              | Some _ => (st, Return VUndefined)
              | None =>
                  match Notifications.truthy answer with
                  | None => (st, Return VUndefined)
                  | Some whatsappNumber =>
                      let participants :=
                        <[j := with_whatsappNumber whatsappNumber otherUser]>
                          (c_participants conversation) in
                      let st := with_conversations
                                  (<[i := with_participants participants conversation]>
                                     (conversations st)) st in
                      let st := saveConversationsToStorage st in
                      (st, Return VUndefined)
                  end
              end
          end
      end
  end.

(** *** Creating conversations *)

Record Book := {
  b_id : string;
  b_title : string
}.

Definition createNewConversation (h : Host) (otherUser : Participant) (book : Book)
    (initialMessage : string) (st : State) : State * Completion :=
  match currentUser st with
  | None => (st, Throw "TypeError")
  | Some u =>
      let conversationId := pretty (Date_now h) in
      let newConversation :=
        {| c_id := conversationId;
           c_participants :=
             [ {| p_id := u_id u; p_name := u_name u; p_whatsappNumber := None |};
               {| p_id := p_id otherUser; p_name := p_name otherUser;
                  p_whatsappNumber :=
                    Some (default "" (Notifications.truthy (p_whatsappNumber otherUser))) |} ];
           c_bookId := b_id book;
           c_bookTitle := b_title book;
           c_messages :=
             [ {| m_id := pretty (Date_now h);
                  m_senderId := u_id u;
                  m_text := initialMessage;
                  m_timestamp := Date_now h;
                  m_read := false |} ] |} in
      let st := with_conversations (conversations st ++ [newConversation]) st in
      let st := saveConversationsToStorage st in
      (st, Return (VString conversationId))
  end.

(** *** Demonstration data *)

Definition testUsers : list Participant :=
  [ {| p_id := "user1"; p_name := "Alice Smith"; p_whatsappNumber := Some "+1234567890" |};
    {| p_id := "user2"; p_name := "Bob Johnson"; p_whatsappNumber := Some "+0987654321" |};
    {| p_id := "user3"; p_name := "Carol Davis"; p_whatsappNumber := Some "" |} ].

Definition testBooks : list Book :=
  [ {| b_id := "book1"; b_title := "Introduction to Computer Science" |};
    {| b_id := "book2"; b_title := "Calculus: Early Transcendentals" |};
    {| b_id := "book3"; b_title := "Data Structures and Algorithms" |} ].

(** The conversation built for the test user at [index]. *)
Definition testConversation (h : Host) (u : User) (index : nat)
    (user : Participant) (book : Book) : Conversation :=
  let now := Date_now h in
  let k := Z.of_nat index in
  {| c_id := pretty now +:+ pretty index;
     c_participants :=
       [ {| p_id := u_id u; p_name := u_name u; p_whatsappNumber := None |};
         {| p_id := p_id user; p_name := p_name user;
            p_whatsappNumber := p_whatsappNumber user |} ];
     c_bookId := b_id book;
     c_bookTitle := b_title book;
     c_messages :=
       [ {| m_id := "msg1" +:+ pretty index;
            m_senderId := u_id u;
            m_text := "Hi! I'm interested in your book: " +:+ b_title book
                      +:+ ". Is it still available?";
            m_timestamp := now - (3 * 24 * 60 * 60 * 1000) - (k * 60 * 60 * 1000);
            m_read := true |};
         {| m_id := "msg2" +:+ pretty index;
            m_senderId := p_id user;
            m_text := "Yes, it is still available! It's in excellent condition "
                      +:+ "with no highlights or notes.";
            m_timestamp := now - (2 * 24 * 60 * 60 * 1000) - (k * 30 * 60 * 1000);
            m_read := true |};
         {| m_id := "msg3" +:+ pretty index;
            m_senderId := u_id u;
            m_text := "Great! Would you be willing to meet on campus to exchange? "
                      +:+ "I'm available tomorrow afternoon.";
            m_timestamp := now - (1 * 24 * 60 * 60 * 1000) - (k * 15 * 60 * 1000);
            m_read := true |};
         {| m_id := "msg4" +:+ pretty index;
            m_senderId := p_id user;
            m_text := "Sure, I can meet tomorrow. How about 3 PM at the library?";
            m_timestamp := now - (12 * 60 * 60 * 1000) - (k * 5 * 60 * 1000);
            m_read := negb (bool_decide (index = 0%nat)) |} ] |}.

Definition createTestConversations (h : Host) (st : State) : State * Completion :=
  match conversations st with
  | _ :: _ => (st, Return VUndefined)
  | [] =>
      match currentUser st with
      | None => (st, Throw "TypeError")
      | Some u =>
          let conversations :=
            imap (fun index ub => testConversation h u index (fst ub) (snd ub))
                 (zip testUsers testBooks) in
          let st := with_conversations conversations st in
          let st := saveConversationsToStorage st in
          (st, Return VUndefined)
      end
  end.

End Messaging.

(** ** js/book-messaging.js *)

Module BookMessaging.

(** The instance field of [BookMessaging], the storage, and the address the
    window was last sent to. *)
Record State := {
  currentUser : option User;
  localStorage : Storage;
  location_href : string
}.

Definition constructor (ls : Storage) (href : string) : State :=
  {| currentUser := ls_currentUser ls; localStorage := ls; location_href := href |}.

(** The predicate of the [find] in [createOrUpdateConversation]. *)
Definition same_book_and_parties (bookId sellerId userId : string) (c : Conversation) : Prop :=
  c_bookId c = bookId ∧
  Exists (fun p => p_id p = sellerId) (c_participants c) ∧
  Exists (fun p => p_id p = userId) (c_participants c).

#[global] Instance same_book_and_parties_dec bookId sellerId userId c :
  Decision (same_book_and_parties bookId sellerId userId c).
Proof. unfold same_book_and_parties. apply _. Defined.

(** Without a current user [this.currentUser.id] throws, in the [find]
    callback or, when nothing is found, while the new conversation is built;
    nothing is saved then. *)
Definition createOrUpdateConversation (h : Host)
    (bookId bookTitle sellerId sellerName messageText : string) (st : State)
  : State * Completion :=
  match currentUser st with
  | None => (st, Throw "TypeError")
  | Some u =>
      let conversations := default [] (ls_bookswap_conversations (localStorage st)) in
      let newMessage :=
        {| m_id := pretty (Date_now h);
           m_senderId := u_id u;
           m_text := messageText;
           m_timestamp := Date_now h;
           m_read := false |} in
      let conversations :=
        match list_find (same_book_and_parties bookId sellerId (u_id u)) conversations with
        | Some (i, conversation) =>
            <[i := Messaging.push_message newMessage conversation]> conversations
        | None =>
            conversations ++
            [ {| c_id := pretty (Date_now h);
                 c_participants :=
                   [ {| p_id := u_id u; p_name := u_name u; p_whatsappNumber := None |};
                     {| p_id := sellerId; p_name := sellerName;
                        p_whatsappNumber := Some "" |} ];
                 c_bookId := bookId;
                 c_bookTitle := bookTitle;
                 c_messages := [newMessage] |} ]
        end in
      ({| currentUser := currentUser st;
          localStorage := setItem_conversations conversations (localStorage st);
          location_href := "dashboard.html#messages" |},
       Return VUndefined)
  end.

End BookMessaging.

(** ** A browsing session over the conversation store

    One tab, one page at a time.  The dashboard page holds a
    [MessagingSystem]; its listeners are registered only when a user was
    stored at construction, and one second after the page is loaded it seeds
    the demonstration data.  A book page holds a [BookMessaging] built from
    the storage as it is then, and its [createOrUpdateConversation] ends by
    sending the window to the dashboard, where a new [MessagingSystem] is
    built from storage.  Logging in or out writes the stored user and loads
    a page. *)

Module Session.
Import Messaging.

Inductive Op :=
| TypeText (text : string)
| Send (h : Host)
| Select (conversationId : string)
| WhatsApp (answer : option string)
| MarkRead (conversationId : string)
| CreateNew (h : Host) (otherUser : Participant) (book : Book) (initialMessage : string)
| SeedTestData (h : Host)
| BookMessage (h : Host) (bookId bookTitle sellerId sellerName messageText : string)
| Reload
| Login (u : User)
| Logout.

(** A page load with the storage [ls]; the chat input, when the page has
    one, starts empty. *)
Definition load (ls : Storage) (st : State) : State :=
  constructor ls (match chatInput st with Some _ => Some "" | None => None end)
              (conversationsList st) (chatHeader st) (chatMessages st).

(** A listener runs only if [initMessagingSystem] has registered it. *)
Definition listening (st : State) (after : State) : State :=
  match currentUser st with
  | Some _ => after
  | None => st
  end.

Definition step (op : Op) (st : State) : State :=
  match op with
  | TypeText text =>
      match chatInput st with
      | Some _ => with_chatInput (Some text) st
      | None => st
      end
  | Send h => listening st (fst (sendMessage h st))
  | Select conversationId => listening st (fst (select_conversation conversationId st))
  | WhatsApp answer => listening st (fst (openWhatsAppChat answer st))
  | MarkRead conversationId => fst (markMessagesAsRead conversationId st)
  | CreateNew h otherUser book initialMessage =>
      fst (createNewConversation h otherUser book initialMessage st)
  | SeedTestData h => fst (createTestConversations h st)
  | BookMessage h bookId bookTitle sellerId sellerName messageText =>
      let bm := BookMessaging.constructor (localStorage st) "browse.html" in
      let bm := fst (BookMessaging.createOrUpdateConversation
                       h bookId bookTitle sellerId sellerName messageText bm) in
      load (BookMessaging.localStorage bm) st
  | Reload => load (localStorage st) st
  | Login u =>
      load {| ls_currentUser := Some u;
              ls_bookswap_notifications := ls_bookswap_notifications (localStorage st);
              ls_bookswap_conversations := ls_bookswap_conversations (localStorage st) |} st
  | Logout => load (removeItem_currentUser (localStorage st)) st
  end.

Definition run (ops : list Op) (st : State) : State := foldl (fun st op => step op st) st ops.

(** The one operation that creates a conversation without looking for an
    existing one. *)
Definition creates_unconditionally (op : Op) : bool :=
  match op with
  | CreateNew _ _ _ _ => true
  | _ => false
  end.

(** What the instance holds is what storage holds (an absent key reads as
    the empty list). *)
Definition synced (st : State) : Prop :=
  conversations st = default [] (loadConversationsFromStorage (localStorage st)).

#[global] Instance synced_dec st : Decision (synced st).
Proof. unfold synced. apply _. Defined.

End Session.

(** ** js/notifications.js: relative times and the notifications page

    [formatTimestamp] and the page that [generateNotificationsPage] writes
    into its container.  An item of the page is kept with what its listeners
    and [filterNotifications] read from it: [data-id], [data-type], the
    [unread] class, whether it has a "Mark as read" button, and
    [style.display].  The texts interpolated into the markup are taken to
    hold no markup of their own, so that there is one item for each
    notification. *)

Module NotificationsPage.
Import Notifications.

(** [${n > 1 ? 's' : ''}]. *)
Definition plural (n : Z) : string := if decide (1 < n) then "s" else "".

(** [toLocaleDateString] is that of the browser's locale; [Math.floor] of a
    quotient is [/] on [Z]. *)
Definition formatTimestamp (toLocaleDateString : Z -> string) (h : Host) (timestamp : Z)
  : string :=
  let diffMs := Date_now h - timestamp in
  let diffSec := diffMs / 1000 in
  let diffMin := diffSec / 60 in
  let diffHour := diffMin / 60 in
  let diffDay := diffHour / 24 in
  if decide (diffSec < 60) then "Just now"
  else if decide (diffMin < 60)
  then pretty diffMin +:+ " minute" +:+ plural diffMin +:+ " ago"
  else if decide (diffHour < 24)
  then pretty diffHour +:+ " hour" +:+ plural diffHour +:+ " ago"
  else if decide (diffDay < 7)
  then pretty diffDay +:+ " day" +:+ plural diffDay +:+ " ago"
  else toLocaleDateString timestamp.

(** A [.notification-item-full]. *)
Record Item := {
  data_id : string;
  data_type : string;
  unread : bool;
  item_icon : string;
  item_text : string;
  item_time : string;
  mark_read_btn : bool;
  style_display : string
}.

Definition with_style_display (d : string) (item : Item) : Item :=
  {| data_id := data_id item; data_type := data_type item; unread := unread item;
     item_icon := item_icon item; item_text := item_text item;
     item_time := item_time item; mark_read_btn := mark_read_btn item;
     style_display := d |}.

(** The markup written for one notification. *)
Definition item_of (toLocaleDateString : Z -> string) (h : Host) (notification : Notification)
  : Item :=
  {| data_id := n_id notification;
     data_type := n_type notification;
     unread := negb (n_read notification);
     item_icon := getNotificationIcon (n_type notification);
     item_text := n_message notification;
     item_time := formatTimestamp toLocaleDateString h (n_timestamp notification);
     mark_read_btn := negb (n_read notification);
     style_display := "" |}.

(** The items of the page right after [generateNotificationsPage]; the
    placeholder is no item. *)
Definition generateNotificationsPage (toLocaleDateString : Z -> string) (h : Host)
    (st : State) : list Item :=
  match Notifications.generateNotificationsPage st with
  | None => []
  | Some sortedNotifications => item_of toLocaleDateString h <$> sortedNotifications
  end.

(** The callback of the [forEach] of [filterNotifications]. *)
Definition filter_item (filter : string) (item : Item) : Item :=
  if decide (filter = "all") then with_style_display "flex" item
  else if decide (filter = "unread")
  then with_style_display (if unread item then "flex" else "none") item
  else with_style_display (if decide (data_type item = filter) then "flex" else "none") item.

Definition filterNotifications (filter : string) (items : list Item) : list Item :=
  filter_item filter <$> items.

(** The items a filter leaves on screen. *)
Definition shown (items : list Item) : list Item :=
  filter (fun item => style_display item <> "none") items.

(** What the page's listeners do: a filter button, the "Mark as read"
    button of the item at [k], the "Mark all as read" button, a click on the
    item at [k] outside its button.  An item that is not displayed cannot be
    clicked. *)
Inductive PageInput :=
| ClickFilter (filter : string)
| ClickItemMarkRead (k : nat)
| ClickPageMarkAllRead
| ClickItem (k : nat).

Definition page_step (i : PageInput) (sv : State * list Item) : State * list Item :=
  let '(st, items) := sv in
  match i with
  | ClickFilter filter => (st, filterNotifications filter items)
  | ClickItemMarkRead k =>
      match items !! k with
      | Some item =>
          if mark_read_btn item && negb (bool_decide (style_display item = "none"))
          then (markAsRead (data_id item) st, items)
          else sv
      | None => sv
      end
  | ClickPageMarkAllRead => (markAllAsRead st, items)
  | ClickItem k =>
      match items !! k with
      | Some item =>
          if bool_decide (style_display item = "none") then sv
          else
            match list_find (fun n => n_id n = data_id item) (notifications st) with
            | Some (_, notification) => (handleNotificationClick notification st, items)
            | None => sv
            end
      | None => sv
      end
  end.

(** What a filter selects among the notifications. *)
Definition selected (filter : string) (n : Notification) : Prop :=
  filter = "all" \/ (filter = "unread" /\ n_read n = false)
  \/ (filter <> "all" /\ filter <> "unread" /\ n_type n = filter).

#[global] Instance selected_dec filter n : Decision (selected filter n).
Proof. unfold selected. apply _. Defined.

End NotificationsPage.

(** ** js/messaging.js: what the sidebar and the chat area show

    Of the elements [createConversationItem] and [createMessageElement]
    build, the parts that depend on the conversation: the other
    participant's name and initials, the preview of the last message, the
    unread indicator, and whether a message is shown as sent or received.
    The time shown ([formatMessageTime], which reads the browser's local
    calendar) is left out. *)

Module MessagingView.
Import Messaging.

(** The space character. *)
Definition space : Ascii.ascii := Ascii.ascii_of_nat 32.

(** [name.split(' ')]: the pieces between the separators, at least one. *)
Fixpoint split_chars (sep : Ascii.ascii) (l : list Ascii.ascii) : list (list Ascii.ascii) :=
  match l with
  | [] => [[]]
  | a :: l' =>
      if decide (a = sep) then [] :: split_chars sep l'
      else match split_chars sep l' with
           | p :: ps => (a :: p) :: ps
           | [] => [[a]]
           end
  end.

Definition split (sep : Ascii.ascii) (s : string) : list string :=
  String.string_of_list_ascii <$> split_chars sep (String.list_ascii_of_string s).

(** [parts.join(sep)], the inverse of [split] on pieces free of [sep]. *)
Fixpoint join_chars (sep : Ascii.ascii) (ps : list (list Ascii.ascii)) : list Ascii.ascii :=
  match ps with
  | [] => []
  | [p] => p
  | p :: ps' => p ++ sep :: join_chars sep ps'
  end.

Definition join (sep : Ascii.ascii) (parts : list string) : string :=
  String.string_of_list_ascii (join_chars sep (String.list_ascii_of_string <$> parts)).

(** [s.charAt(0)]. *)
Definition charAt0 (s : string) : string :=
  match s with
  | String a _ => String a EmptyString
  | EmptyString => ""
  end.

(** [toUpperCase] is the browser's. *)
Definition getInitials (toUpperCase : string -> string) (name : string) : string :=
  if decide (name = "") then "?"
  else
    let parts := filter (fun part => (0 < String.length part)%nat) (split space name) in
    match parts with
    | [] => "?"
    | [part] => toUpperCase (charAt0 part)
    | part :: _ => toUpperCase (charAt0 part +:+ charAt0 (default "" (list.last parts)))
    end.

(** [conversation.messages.some(m => !m.read && m.senderId !== this.currentUser.id)]. *)
Definition hasUnread (u : User) (conversation : Conversation) : bool :=
  existsb (fun m => negb (m_read m) && bool_decide (m_senderId m <> u_id u))
          (c_messages conversation).

Record ConversationItem := {
  dataset_conversationId : string;
  conversation_avatar : string;
  conversation_name : string;
  conversation_preview : string;
  unread_indicator : bool
}.

(** [None] when the method throws: [otherUser] or [lastMessage] is
    [undefined]. *)
Definition createConversationItem (toUpperCase : string -> string) (u : User)
    (conversation : Conversation) : option ConversationItem :=
  match list_find (fun p => p_id p <> u_id u) (c_participants conversation),
        list.last (c_messages conversation) with
  | Some (_, otherUser), Some lastMessage =>
      Some {| dataset_conversationId := c_id conversation;
              conversation_avatar := getInitials toUpperCase (p_name otherUser);
              conversation_name := p_name otherUser;
              conversation_preview := m_text lastMessage;
              unread_indicator := hasUnread u conversation |}
  | _, _ => None
  end.

(** The class of a message element: [message-sent] or [message-received]. *)
Definition isSent (u : User) (message : Message) : bool :=
  bool_decide (m_senderId message = u_id u).

(** [number.replace(/[\s-\(\)]/g, '')]: white space, dashes (code 45)
    and parentheses (codes 40 and 41) are removed. *)
Definition formatted_out (a : Ascii.ascii) : bool :=
  is_whitespace a || bool_decide (Ascii.nat_of_ascii a ∈ [45; 40; 41]%nat).

Definition formatNumber (number : string) : string :=
  String.string_of_list_ascii
    (filter (fun a => formatted_out a = false) (String.list_ascii_of_string number)).

(** The address both modules open for a WhatsApp chat;
    [encodeURIComponent] is the browser's. *)
Definition whatsappUrl (encodeURIComponent : string -> string) (number messageText : string)
  : string :=
  "https://wa.me/" +:+ formatNumber number +:+ "?text=" +:+ encodeURIComponent messageText.

(** The address [openWhatsAppChat] hands to [window.open], when it gets
    that far; [answer] is the user's answer to the prompt for a number. *)
Definition openWhatsAppChat_opens (encodeURIComponent : string -> string)
    (answer : option string) (st : State) : option string :=
  match Notifications.truthy (activeConversationId st) with
  | None => None
  | Some active =>
      match list_find (fun c => c_id c = active) (conversations st) with
      | None => None
      | Some (_, conversation) =>
          match find_otherUser st conversation with
          | None | Some None => None
          | Some (Some (_, otherUser)) =>
              let messageText := "Hi, I'm interested in your book: "
                                 +:+ c_bookTitle conversation in
              match Notifications.truthy (p_whatsappNumber otherUser) with
              | Some number => Some (whatsappUrl encodeURIComponent number messageText)
              | None =>
                  match Notifications.truthy answer with
                  | None => None
                  | Some whatsappNumber =>
                      Some (whatsappUrl encodeURIComponent whatsappNumber messageText)
                  end
              end
          end
      end
  end.

(** How many messages the conversations hold altogether. *)
Definition total_messages (cs : list Conversation) : nat :=
  length (cs ≫= c_messages).

End MessagingView.

(** ** js/book-messaging.js: the message buttons and the modal

    The [click] listener [setupMessageButtons] gives to each message button,
    and the listeners of the modal [showMessageModal] opens.  A modal is
    named by its index in [modals]; it is in the document while [modal_open]
    holds, and only then can its buttons be clicked. *)

Module BookPage.
Import BookMessaging.

(** The [.book-card] or [.book-details] around a button: its data
    attributes, and the text of its [.book-title] and [h1], when there. *)
Record Card := {
  dataset_bookId : option string;
  book_title_textContent : option string;
  h1_textContent : option string;
  dataset_sellerName : option string;
  dataset_sellerId : option string
}.

Record Modal := {
  modal_bookId : string;
  modal_bookTitle : string;
  modal_sellerId : string;
  modal_sellerName : string;
  modal_open : bool
}.

(** The [BookMessaging] instance with its storage and window address, the
    alerts shown, the modals created, and the addresses handed to
    [window.open]. *)
Record State := {
  messaging : BookMessaging.State;
  alerts : list string;
  modals : list Modal;
  opened : list string
}.

Definition with_messaging (bm : BookMessaging.State) (st : State) : State :=
  {| messaging := bm; alerts := alerts st; modals := modals st; opened := opened st |}.

Definition alert (msg : string) (st : State) : State :=
  {| messaging := messaging st; alerts := alerts st ++ [msg];
     modals := modals st; opened := opened st |}.

Definition with_modals (ms : list Modal) (st : State) : State :=
  {| messaging := messaging st; alerts := alerts st; modals := ms; opened := opened st |}.

Definition window_open (url : string) (st : State) : State :=
  {| messaging := messaging st; alerts := alerts st; modals := modals st;
     opened := opened st ++ [url] |}.

Definition constructor (ls : Storage) (href : string) : State :=
  {| messaging := BookMessaging.constructor ls href; alerts := []; modals := [];
     opened := [] |}.

(** [a || b] on strings that may be absent. *)
Definition or_else (a : option string) (b : string) : string :=
  default b (Notifications.truthy a).

Definition showMessageModal (bookId bookTitle sellerId sellerName : string) (st : State)
  : State :=
  with_modals (modals st ++ [{| modal_bookId := bookId; modal_bookTitle := bookTitle;
                                modal_sellerId := sellerId;
                                modal_sellerName := sellerName;
                                modal_open := true |}]) st.

(** The [click] listener of a message button; [bookCard] is the closest
    card around the button, when there is one. *)
Definition click_message_button (bookCard : option Card) (st : State) : State :=
  match currentUser (messaging st) with
  | None =>
      let st := alert "Please log in to message the seller." st in
      with_messaging {| currentUser := currentUser (messaging st);
                        localStorage := localStorage (messaging st);
                        location_href := "login.html" |} st
  | Some u =>
      match bookCard with
      | None => st
      | Some bookCard =>
          let bookId := or_else (dataset_bookId bookCard) "unknown" in
          let bookTitle :=
            match Notifications.truthy (book_title_textContent bookCard) with
            | Some t => t
            | None => or_else (h1_textContent bookCard) "Unknown Book"
            end in
          let sellerName := or_else (dataset_sellerName bookCard) "Unknown Seller" in
          let sellerId := or_else (dataset_sellerId bookCard) "unknown" in
          if decide (sellerId = u_id u)
          then alert "You cannot message yourself." st
          else showMessageModal bookId bookTitle sellerId sellerName st
      end
  end.

(** [closeModal] of the modal at [k]. *)
Definition closeModal (k : nat) (st : State) : State :=
  with_modals (alter (fun md => {| modal_bookId := modal_bookId md;
                                   modal_bookTitle := modal_bookTitle md;
                                   modal_sellerId := modal_sellerId md;
                                   modal_sellerName := modal_sellerName md;
                                   modal_open := false |}) k (modals st)) st.

(** The [click] listener of the modal's send button; [text], [checked] and
    [number] are what the text area, the WhatsApp check box and the number
    field hold at the click. *)
Definition click_send (encodeURIComponent : string -> string) (h : Host) (k : nat)
    (text : string) (checked : bool) (number : string) (st : State)
  : State * Completion :=
  match modals st !! k with
  | None => (st, Return VUndefined)
  | Some md =>
      if negb (modal_open md) then (st, Return VUndefined)
      else
        let messageText := trim text in
        if decide (messageText = "")
        then (alert "Please enter a message." st, Return VUndefined)
        else
          let sent :=
            if checked then
              let whatsappNumber := trim number in
              if decide (whatsappNumber = "")
              then (alert "Please enter a WhatsApp number." st, None)
              else (window_open (MessagingView.whatsappUrl encodeURIComponent
                                   whatsappNumber messageText) st,
                    Some (Return VUndefined))
            else
              let '(bm, c) :=
                createOrUpdateConversation h (modal_bookId md) (modal_bookTitle md)
                  (modal_sellerId md) (modal_sellerName md) messageText (messaging st) in
              (with_messaging bm st, Some c) in
          match sent with
          | (st, None) => (st, Return VUndefined)
          | (st, Some (Throw e)) => (st, Throw e)
          | (st, Some (Return _)) =>
              (alert "Message sent successfully!" (closeModal k st), Return VUndefined)
          end
  end.

(** The close and cancel buttons of the modal at [k]. *)
Definition click_close (k : nat) (st : State) : State :=
  match modals st !! k with
  | Some md => if modal_open md then closeModal k st else st
  | None => st
  end.

Inductive Input :=
| ClickMessageButton (bookCard : option Card)
| ClickSend (h : Host) (k : nat) (text : string) (checked : bool) (number : string)
| ClickClose (k : nat).

Definition step (encodeURIComponent : string -> string) (i : Input) (st : State) : State :=
  match i with
  | ClickMessageButton bookCard => click_message_button bookCard st
  | ClickSend h k text checked number =>
      fst (click_send encodeURIComponent h k text checked number st)
  | ClickClose k => click_close k st
  end.

Definition run (encodeURIComponent : string -> string) (inputs : list Input) (st : State)
  : State :=
  foldl (fun st i => step encodeURIComponent i st) st inputs.

(** The stored conversations, an absent key read as the empty list. *)
Definition stored_conversations (st : State) : list Conversation :=
  default [] (ls_bookswap_conversations (localStorage (messaging st))).

(** Every modal on the page is for a seller other than the user of the
    instance. *)
Definition modals_for_others (st : State) : Prop :=
  Forall (fun md => exists u, currentUser (messaging st) = Some u
                              /\ modal_sellerId md <> u_id u) (modals st).

(** No conversation has one identifier twice among its participants. *)
Definition parties_differ (cs : list Conversation) : Prop :=
  Forall (fun c => NoDup (p_id <$> c_participants c)) cs.

End BookPage.

(** ** js/transaction-manager.js

    The transaction manager records sales and purchases under the storage
    key [bookswap_transactions] and tells the notification system about
    them.  Two things are outside the module and left abstract: JavaScript
    numbers (a price is carried around, tested for truth and printed, never
    computed with), and the analytics dashboard, an object with a state of
    its own whose [recordBookSale] and [recordBookPurchase] return or
    throw. *)

Module TransactionManager.

Record BookData := {
  bd_id : string;
  bd_title : string;
  bd_author : string;
  bd_sellerId : option string;
  bd_sellerName : option string
}.

Record Outside := {
  Number : Type;
  (** the number [0] *)
  zero : Number;
  (** whether a number is falsy: [0], [-0] and [NaN] are *)
  Number_falsy : Number -> bool;
  (** a number inside a template string *)
  Number_toString : Number -> string;
  AnalyticsDashboard : Type;
  recordBookSale :
    BookData -> option Number -> AnalyticsDashboard -> AnalyticsDashboard * Completion;
  recordBookPurchase :
    BookData -> Number -> AnalyticsDashboard -> AnalyticsDashboard * Completion
}.

(** The double quote, for the texts of the notifications. *)
Definition dquote : string := String (Ascii.ascii_of_nat 34) EmptyString.

Section WithOutside.
Context (o : Outside).

Record Transaction := {
  t_id : string;
  t_date : Z;
  t_bookId : string;
  t_bookTitle : string;
  t_bookAuthor : string;
  t_type : string;
  t_sellerId : string;
  t_sellerName : string;
  t_buyerId : string;
  t_buyerName : string;
  t_amount : Number o;
  t_status : string;
  t_paymentMethod : string;
  t_meetingLocation : string;
  t_notes : string
}.

(** The [detail] of a [bookMarkedAsSold] event; all but the book may be
    left out. *)
Record SaleData := {
  bookData : BookData;
  sd_type : option string;
  price : option (Number o);
  buyerId : option string;
  buyerName : option string;
  status : option string;
  paymentMethod : option string;
  meetingLocation : option string;
  notes : option string
}.

(** The instance fields of [TransactionManager] and its storage key. *)
Record State := {
  currentUser : option User;
  transactions : list Transaction;
  ls_bookswap_transactions : option (list Transaction)
}.

(** The objects of [window] the module talks to. *)
Record Window := {
  transactionManager : State;
  analyticsDashboard : option (AnalyticsDashboard o);
  notificationSystem : option Notifications.State
}.

Definition with_transactionManager (tm : State) (w : Window) : Window :=
  {| transactionManager := tm; analyticsDashboard := analyticsDashboard w;
     notificationSystem := notificationSystem w |}.

Definition with_analyticsDashboard (a : AnalyticsDashboard o) (w : Window) : Window :=
  {| transactionManager := transactionManager w; analyticsDashboard := Some a;
     notificationSystem := notificationSystem w |}.

Definition with_notificationSystem (ns : Notifications.State) (w : Window) : Window :=
  {| transactionManager := transactionManager w;
     analyticsDashboard := analyticsDashboard w; notificationSystem := Some ns |}.

(** [loadTransactions] gives the empty list for an absent key. *)
Definition loadTransactions (stored : option (list Transaction)) : list Transaction :=
  default [] stored.

Definition constructor (user : option User) (stored : option (list Transaction)) : State :=
  {| currentUser := user; transactions := loadTransactions stored;
     ls_bookswap_transactions := stored |}.

Definition saveTransactions (tm : State) : State :=
  {| currentUser := currentUser tm; transactions := transactions tm;
     ls_bookswap_transactions := Some (transactions tm) |}.

Definition generateTransactionId (h : Host) : string :=
  "TXN-" +:+ pretty (Date_now h) +:+ "-" +:+ random_suffix h 0.

(** [a || b] on strings and on numbers that may be absent. *)
Definition or_else (a : option string) (b : string) : string :=
  default b (Notifications.truthy a).

Definition number_or_zero (p : option (Number o)) : Number o :=
  match p with
  | Some n => if Number_falsy o n then zero o else n
  | None => zero o
  end.

Definition createTransaction (h : Host) (saleData : SaleData) (tm : State) : Transaction :=
  {| t_id := generateTransactionId h;
     t_date := Date_now h;
     t_bookId := bd_id (bookData saleData);
     t_bookTitle := bd_title (bookData saleData);
     t_bookAuthor := bd_author (bookData saleData);
     t_type := or_else (sd_type saleData) "Sale";
     t_sellerId := or_else (u_id <$> currentUser tm) "unknown";
     t_sellerName := or_else (u_name <$> currentUser tm) "Unknown User";
     t_buyerId := or_else (buyerId saleData) "pending";
     t_buyerName := or_else (buyerName saleData) "Pending";
     t_amount := number_or_zero (price saleData);
     t_status := or_else (status saleData) "Completed";
     t_paymentMethod := or_else (paymentMethod saleData) "Cash";
     t_meetingLocation := or_else (meetingLocation saleData) "Campus";
     t_notes := or_else (notes saleData) "" |}.

(** [this.transactions.unshift(transaction)], then the list is saved. *)
Definition addTransaction (transaction : Transaction) (tm : State) : State :=
  saveTransactions {| currentUser := currentUser tm;
                      transactions := transaction :: transactions tm;
                      ls_bookswap_transactions := ls_bookswap_transactions tm |}.

Definition getUserTransactions (filter : string) (tm : State) : list Transaction :=
  match currentUser tm with
  | None => []
  | Some u =>
      let userId := u_id u in
      let userTransactions :=
        base.filter (fun t => t_sellerId t = userId \/ t_buyerId t = userId)
               (transactions tm) in
      if decide (filter = "sales")
      then base.filter (fun t => t_sellerId t = userId /\ t_type t = "Sale") userTransactions
      else if decide (filter = "purchases")
      then base.filter (fun t => t_buyerId t = userId /\ t_type t = "Sale") userTransactions
      else if decide (filter = "swaps")
      then base.filter (fun t => t_type t = "Swap") userTransactions
      else userTransactions
  end.

(** Whether a filter lists a transaction for the user [userId]. *)
Definition listed (filter userId : string) (t : Transaction) : bool :=
  bool_decide (t_sellerId t = userId \/ t_buyerId t = userId)
  && (if decide (filter = "sales")
      then bool_decide (t_sellerId t = userId /\ t_type t = "Sale")
      else if decide (filter = "purchases")
      then bool_decide (t_buyerId t = userId /\ t_type t = "Sale")
      else if decide (filter = "swaps") then bool_decide (t_type t = "Swap")
      else true).

(** A price inside a template string; an absent one reads [undefined]. *)
Definition price_text (p : option (Number o)) : string :=
  match p with
  | Some n => Number_toString o n
  | None => "undefined"
  end.

(** The call of [addNotification] both methods end with, when there is a
    notification system; what it returns is dropped. *)
Definition notify (h : Host) (message transactionId : string) (w : Window) : Window :=
  match notificationSystem w with
  | None => w
  | Some ns =>
      with_notificationSystem
        (fst (Notifications.addNotification h
                {| Notifications.type := "transaction";
                   Notifications.message := message;
                   Notifications.data := Some [("transactionId", transactionId)];
                   Notifications.link := Some "dashboard.html?tab=transactions" |} ns)) w
  end.

(** The listener of [bookMarkedAsSold].  The identifier of the transaction
    takes the first random draw, the notification the next one.  The table
    is rendered again at the end when its tab is active, which changes
    nothing here. *)
Definition handleBookSold (h : Host) (saleData : SaleData) (w : Window)
  : Window * Completion :=
  let transaction := createTransaction h saleData (transactionManager w) in
  let w := with_transactionManager (addTransaction transaction (transactionManager w)) w in
  let continue (w : Window) :=
    (notify (after_draws 1 h)
       ("Book " +:+ dquote +:+ bd_title (bookData saleData) +:+ dquote
        +:+ " marked as sold for $" +:+ price_text (price saleData))
       (t_id transaction) w,
     Return VUndefined) in
  match analyticsDashboard w with
  | None => continue w
  | Some a =>
      match recordBookSale o (bookData saleData) (price saleData) a with
      | (a, Throw e) => (with_analyticsDashboard a w, Throw e)
      | (a, Return _) => continue (with_analyticsDashboard a w)
      end
  end.

Definition simulateBookPurchase (h : Host) (bookData : BookData) (price : Number o)
    (w : Window) : Window * Completion :=
  let tm := transactionManager w in
  let transaction :=
    {| t_id := generateTransactionId h;
       t_date := Date_now h;
       t_bookId := bd_id bookData;
       t_bookTitle := bd_title bookData;
       t_bookAuthor := bd_author bookData;
       t_type := "Sale";
       t_sellerId := or_else (bd_sellerId bookData) "other-user";
       t_sellerName := or_else (bd_sellerName bookData) "Other User";
       t_buyerId := or_else (u_id <$> currentUser tm) "unknown";
       t_buyerName := or_else (u_name <$> currentUser tm) "Unknown User";
       t_amount := price;
       t_status := "Completed";
       t_paymentMethod := "PayPal";
       t_meetingLocation := "Library";
       t_notes := "Demo transaction" |} in
  let w := with_transactionManager (addTransaction transaction tm) w in
  let continue (w : Window) :=
    (notify (after_draws 1 h)
       ("Successfully purchased " +:+ dquote +:+ bd_title bookData +:+ dquote
        +:+ " for $" +:+ Number_toString o price)
       (t_id transaction) w,
     Return VUndefined) in
  match analyticsDashboard w with
  | None => continue w
  | Some a =>
      match recordBookPurchase o bookData price a with
      | (a, Throw e) => (with_analyticsDashboard a w, Throw e)
      | (a, Return _) => continue (with_analyticsDashboard a w)
      end
  end.

(** The window of a page just loaded from the storage of [pg] and the
    stored transactions: both objects read the stored user. *)
Definition load (pg : Notifications.Page) (stored : option (list Transaction))
    (a : option (AnalyticsDashboard o)) : Window :=
  {| transactionManager := constructor (Notifications.getCurrentUser pg) stored;
     analyticsDashboard := a;
     notificationSystem := Some (Notifications.constructor pg) |}.

End WithOutside.

Arguments t_id {o} _.
Arguments t_date {o} _.
Arguments t_bookId {o} _.
Arguments t_bookTitle {o} _.
Arguments t_bookAuthor {o} _.
Arguments t_type {o} _.
Arguments t_sellerId {o} _.
Arguments t_sellerName {o} _.
Arguments t_buyerId {o} _.
Arguments t_buyerName {o} _.
Arguments t_amount {o} _.
Arguments bookData {o} _.
Arguments price {o} _.
Arguments currentUser {o} _.
Arguments transactions {o} _.
Arguments ls_bookswap_transactions {o} _.
Arguments transactionManager {o} _.
Arguments analyticsDashboard {o} _.
Arguments notificationSystem {o} _.
Arguments constructor {o} _ _.
Arguments createTransaction {o} _ _ _.
Arguments addTransaction {o} _ _.
Arguments getUserTransactions {o} _ _.
Arguments listed {o} _ _ _.
Arguments handleBookSold {o} _ _ _.
Arguments simulateBookPurchase {o} _ _ _ _.
Arguments load {o} _ _ _.

End TransactionManager.

(** ** js/features.js: the notification systems of a page

    [initializeFeatures] runs on every page when the document is loaded.
    It constructs a [NotificationSystem] and keeps it in
    [window.notificationSystem]; on the notifications page
    [initializeNotificationsPage] constructs a second one, which writes the
    page.  The two instances hold a list each, read from storage when they
    were constructed, and share the document: the bell with its badge and
    dropdown, the toast container, the timer queue, and storage.  The
    class is taken to be defined when [initializeFeatures] runs (lines 128
    and 147), and the notifications page to have its container. *)

Module Features.
Import Notifications.

(** [filename.replace(pattern, replacement)] with a string pattern: the
    first occurrence is replaced. *)
Definition replace_first (pattern replacement s : string) : string :=
  match String.index 0 pattern s with
  | Some i =>
      String.substring 0 i s +:+ replacement
      +:+ String.substring (i + String.length pattern)
            (String.length s - (i + String.length pattern)) s
  | None => s
  end.

(** [getCurrentPage], of [window.location.pathname]. *)
Definition getCurrentPage (pathname : string) : string :=
  let filename :=
    default "" (list.last (MessagingView.split (Ascii.ascii_of_nat 47) pathname)) in
  if decide (filename = "") then "index"
  else if decide (filename = "index.html") then "index"
  else replace_first ".html" "" filename.

(** The fields of a [NotificationSystem] and what its listeners close
    over; the page is not part of it. *)
Record Instance := {
  i_notifications : list Notification;
  i_unreadCount : nat;
  i_currentUser : option User;
  i_onDashboard : bool
}.

Definition instance_of (st : State) : Instance :=
  {| i_notifications := notifications st; i_unreadCount := unreadCount st;
     i_currentUser := currentUser st; i_onDashboard := onDashboard st |}.

(** The instance as it runs in the page [pg]. *)
Definition in_page (pg : Page) (i : Instance) : State :=
  {| notifications := i_notifications i; unreadCount := i_unreadCount i;
     currentUser := i_currentUser i; onDashboard := i_onDashboard i; page := pg |}.

(** The two instances [features.js] constructs. *)
Inductive Owner :=
| WindowSystem
| PageSystem.

#[global] Instance Owner_eq_dec : EqDecision Owner.
Proof. solve_decision. Defined.

(** A window: [window.notificationSystem], the instance of
    [initializeNotificationsPage] where there is one, the document they
    share, for each toast of the document the instance whose
    [showToastNotification] made it, and the items of the notifications
    page. *)
Record Window := {
  notificationSystem : Instance;
  pageSystem : option Instance;
  document : Page;
  toast_owner : list Owner;
  container : list NotificationsPage.Item
}.

Definition get (k : Owner) (w : Window) : option Instance :=
  match k with
  | WindowSystem => Some (notificationSystem w)
  | PageSystem => pageSystem w
  end.

Definition set (k : Owner) (i : Instance) (w : Window) : Window :=
  match k with
  | WindowSystem =>
      {| notificationSystem := i; pageSystem := pageSystem w; document := document w;
         toast_owner := toast_owner w; container := container w |}
  | PageSystem =>
      {| notificationSystem := notificationSystem w; pageSystem := Some i;
         document := document w; toast_owner := toast_owner w;
         container := container w |}
  end.

(** The document after a call of instance [k]; the toasts the call made
    are those of [k]. *)
Definition with_document (k : Owner) (pg : Page) (w : Window) : Window :=
  {| notificationSystem := notificationSystem w; pageSystem := pageSystem w;
     document := pg;
     toast_owner :=
       toast_owner w
       ++ replicate (length (toasts pg) - length (toasts (document w))) k;
     container := container w |}.

Definition with_container (items : list NotificationsPage.Item) (w : Window) : Window :=
  {| notificationSystem := notificationSystem w; pageSystem := pageSystem w;
     document := document w; toast_owner := toast_owner w; container := items |}.

(** A listener or a callback of instance [k] runs; nothing runs for an
    instance that is not there. *)
Definition call (k : Owner) (f : State -> State * Completion) (w : Window)
  : Window * list Completion :=
  match get k w with
  | Some i =>
      let '(st, c) := f (in_page (document w) i) in
      (set k (instance_of st) (with_document k (page st) w), [c])
  | None => (w, [])
  end.

(** The listeners the instances registered on one element run in the
    order of registration: those of [window.notificationSystem] first. *)
Definition each (f : State -> State * Completion) (w : Window) : Window * list Completion :=
  let '(w1, c1) := call WindowSystem f w in
  let '(w2, c2) := call PageSystem f w1 in
  (w2, c1 ++ c2).

(** *** Construction *)

Definition initializeNotifications (pg : Page) : Window :=
  let st := constructor pg in
  {| notificationSystem := instance_of st; pageSystem := None; document := page st;
     toast_owner := replicate (length (toasts (page st))) WindowSystem;
     container := [] |}.

Definition initializeNotificationsPage (toLocaleDateString : Z -> string) (h : Host)
    (w : Window) : Window :=
  let notificationSystem := constructor (document w) in
  with_container
    (NotificationsPage.generateNotificationsPage toLocaleDateString h notificationSystem)
    (set PageSystem (instance_of notificationSystem)
       (with_document PageSystem (page notificationSystem) w)).

(** [initializeFeatures], as far as the notification systems go. *)
Definition initializeFeatures (toLocaleDateString : Z -> string) (h : Host)
    (pathname : string) (pg : Page) : Window :=
  let w := initializeNotifications pg in
  if decide (getCurrentPage pathname = "notifications")
  then initializeNotificationsPage toLocaleDateString h w
  else w.

(** *** Whose closure a timer or a toast carries *)

Definition is_poll (t : Timer) : bool :=
  match callback t with
  | PollTick => true
  | _ => false
  end.

(** Toast callbacks touch the document only.  An interval is re-armed in
    its place in the queue, so the interval armed first, that of
    [window.notificationSystem], is the first in the queue. *)
Definition timer_owner (w : Window) : Owner :=
  match pageSystem w, next_timer (timers (document w)) with
  | Some _, Some (i, t) =>
      if is_poll t && existsb is_poll (take i (timers (document w)))
      then PageSystem
      else WindowSystem
  | _, _ => WindowSystem
  end.

Definition owner_of_toast (t : nat) (w : Window) : Owner :=
  match pageSystem w with
  | Some _ => default WindowSystem (toast_owner w !! t)
  | None => WindowSystem
  end.

(** *** What happens in a window *)

(** The events of a window, each the run of the listeners registered on
    one element, or of one timer callback.  A listed notification of the
    dropdown carries the listeners of the instance that rendered the list
    last: the event names that instance.  A click that reaches the document
    from outside the dropdown is followed by [ClickOutside]. *)
Inductive Event :=
| TimerFires (h : Host)
| ToastCloseClicked (time : Z) (t : nat)
| ToastClicked (time : Z) (t : nat)
| ClickBell
| ClickDropdownMarkAllRead
| ClickOutside
| ClickListedMarkRead (k : Owner) (notificationId : string)
| ClickListed (k : Owner) (notification : Notification)
| AddNotification (h : Host) (notification : NotificationInput)
| OnPage (i : NotificationsPage.PageInput).

(** The listeners of the notifications page are those of the instance that
    wrote it. *)
Definition on_page_system (i : NotificationsPage.PageInput) (w : Window)
  : Window * list Completion :=
  match pageSystem w with
  | Some b =>
      let '(st, items) :=
        NotificationsPage.page_step i (in_page (document w) b, container w) in
      (with_container items
         (set PageSystem (instance_of st) (with_document PageSystem (page st) w)),
       [Return VUndefined])
  | None => (w, [])
  end.

Definition step (e : Event) (w : Window) : Window * list Completion :=
  match e with
  | TimerFires h => call (timer_owner w) (Notifications.step (Fire h)) w
  | ToastCloseClicked time t =>
      call WindowSystem (Notifications.step (ClickToastClose time t)) w
  | ToastClicked time t =>
      call (owner_of_toast t w) (Notifications.step (ClickToast time t)) w
  | ClickBell => each (Notifications.step ClickIcon) w
  | ClickDropdownMarkAllRead => each (Notifications.step ClickMarkAllRead) w
  | ClickOutside => each (Notifications.step ClickDocument) w
  | ClickListedMarkRead k notificationId =>
      call k (Notifications.step (ClickMarkRead notificationId)) w
  | ClickListed k notification =>
      call k (Notifications.step (ClickNotification notification)) w
  | AddNotification h notification =>
      call WindowSystem (Notifications.step (Add h notification)) w
  | OnPage i => on_page_system i w
  end.

Fixpoint run (events : list Event) (w : Window) : Window * list (list Completion) :=
  match events with
  | [] => (w, [])
  | e :: events' =>
      let '(w1, c) := step e w in
      let '(w2, cs) := run events' w1 in
      (w2, c :: cs)
  end.

(** The state of [window.notificationSystem] in its document. *)
Definition window_system (w : Window) : State :=
  in_page (document w) (notificationSystem w).

(** The stored notifications that are unread. *)
Definition stored_unread (w : Window) : list Notification :=
  filter (fun n => n_read n = false)
    (default [] (loadNotificationsFromStorage (document w))).

End Features.

(** ** Concrete pages and hosts used in examples *)

Module Scenario.
Import Notifications.

Definition ann : User := {| u_id := "u1"; u_name := "Ann" |}.
Definition bob : User := {| u_id := "u2"; u_name := "Bob" |}.
Definition cat : User := {| u_id := "u3"; u_name := "Cat" |}.

(** A host whose clock reads [now] and whose every random draw is [1/20]. *)
Definition host_at (now : Z) : Host :=
  {| Date_now := now;
     Math_random := fun _ => (1 # 20)%Q;
     toString36 := fun _ => "0.abcdefghijkl" |}.

Definition storage_of (u : option User) : Storage :=
  {| ls_currentUser := u;
     ls_bookswap_notifications := None;
     ls_bookswap_conversations := None |}.

(** A freshly loaded page with a navigation bar, for a stored user [u]. *)
Definition fresh_page (u : option User) : Page :=
  {| localStorage := storage_of u; navbar := true; widget := None; toasts := [];
     toast_container := None; timers := []; clock := 0;
     location_href := "index.html" |}.

(** Ann is logged in and the page has just been loaded. *)
Definition logged_in : State := constructor (fresh_page (Some ann)).

(** Nobody is logged in at page load. *)
Definition anonymous : State := constructor (fresh_page None).

(** Ann's page after a logout handler removed the stored user: the handler
    then sends the window elsewhere, and until the page is gone its timers
    keep firing. *)
Definition logged_out : State :=
  on_page (fun pg => with_localStorage (removeItem_currentUser (localStorage pg)) pg) logged_in.

Definition system_note (text : string) : NotificationInput :=
  {| type := SYSTEM; message := text; data := None; link := None |}.

(** One notification added at clock reading 1000: its toast is on screen. *)
Definition one_toast : State :=
  fst (addNotification (host_at 1000) (system_note "hi") logged_in).

(** A second notification added after the wall clock was set back. *)
Definition clock_set_back : State :=
  fst (addNotification (host_at 500) (system_note "again") one_toast).

Definition note (id : string) (ts : Z) (read : bool) : Notification :=
  {| n_id := id; n_type := MESSAGE; n_message := "New message from Alice";
     n_timestamp := ts; n_read := read; n_seen := false; n_data := [];
     n_link := None |}.

(** Three unread and two read notifications, newest first, loaded from
    storage. *)
Definition three_unread_two_read : State :=
  constructor
    {| localStorage :=
         {| ls_currentUser := Some ann;
            ls_bookswap_notifications :=
              Some [note "n5" 50 false; note "n4" 40 true; note "n3" 30 false;
                    note "n2" 20 true; note "n1" 10 false];
            ls_bookswap_conversations := None |};
       navbar := true; widget := None; toasts := []; toast_container := None;
       timers := []; clock := 0; location_href := "index.html" |}.

(** Messaging: the dashboard page of a storage [ls], with chat input,
    conversation list, chat header and message area present. *)
Definition dashboard (ls : Storage) : Messaging.State :=
  Messaging.constructor ls (Some "") true true true.

Definition bob_as_seller : Participant :=
  {| p_id := "u2"; p_name := "Bob"; p_whatsappNumber := None |}.

Definition book_42 : Messaging.Book :=
  {| Messaging.b_id := "book-42"; Messaging.b_title := "Calculus" |}.

(** Ann has written to Bob about book-42 from the book's page. *)
Definition ann_wrote_to_bob : Messaging.State :=
  Session.run [Session.BookMessage (host_at 1000) "book-42" "Calculus" "u2" "Bob"
                 "is this available?"]
              (dashboard (storage_of (Some ann))).

(** Then Ann logs out and Cat logs in on the same browser. *)
Definition cat_on_anns_browser : Messaging.State :=
  Session.run [Session.Logout; Session.Login cat] ann_wrote_to_bob.

(** Ann has the conversation selected and only blanks in the chat input. *)
Definition blank_input : Messaging.State :=
  Session.run [Session.Select "1000"; Session.TypeText "   "] ann_wrote_to_bob.

(** Ann has typed a message, but the selected conversation is not in the
    list. *)
Definition unknown_conversation : Messaging.State :=
  Messaging.with_activeConversationId (Some "gone")
    (Session.run [Session.TypeText "hello"] ann_wrote_to_bob).

(** Ann has the conversation selected and a message typed. *)
Definition ready_to_send : Messaging.State :=
  Session.run [Session.Select "1000"; Session.TypeText " see you at 3 "] ann_wrote_to_bob.

End Scenario.

(** ** Predicates of the specification *)

Module Spec.

(** Following the specification: [recentForUser(userId, n)] is the top [n]
    by the stored (newest-first) order, with no sorting. *)
Definition recentForUser (n : nat) (stored : list Notification) : list Notification :=
  take n stored.

(** The stored list is in the order of its timestamps, newest first. *)
Fixpoint is_newest_first (l : list Notification) : bool :=
  match l with
  | a :: l' =>
      match l' with
      | b :: _ => bool_decide (n_timestamp b <= n_timestamp a) && is_newest_first l'
      | [] => true
      end
  | [] => true
  end.

(** The identifiers of the participants of a conversation. *)
Definition party_ids (c : Conversation) : list string := p_id <$> c_participants c.

(** Two conversations are about the same item between the same unordered
    pair: same book, and the same participant identifiers as sets. *)
Definition same_item_and_pair (c1 c2 : Conversation) : Prop :=
  c_bookId c1 = c_bookId c2
  /\ Forall (fun x => x ∈ party_ids c2) (party_ids c1)
  /\ Forall (fun x => x ∈ party_ids c1) (party_ids c2).

#[global] Instance same_item_and_pair_dec c1 c2 : Decision (same_item_and_pair c1 c2).
Proof. unfold same_item_and_pair. apply _. Defined.

(** The identity invariant: no two conversations of the list are about the
    same item between the same pair. *)
Definition one_conversation_per_item_and_pair (cs : list Conversation) : Prop :=
  forall i j c1 c2,
    cs !! i = Some c1 -> cs !! j = Some c2 -> same_item_and_pair c1 c2 -> i = j.

(** A message as it was, except that [read] may have gone from false to
    true. *)
Definition message_kept (m m' : Message) : Prop :=
  m_id m' = m_id m /\ m_senderId m' = m_senderId m /\ m_text m' = m_text m
  /\ m_timestamp m' = m_timestamp m /\ (m_read m = true -> m_read m' = true).

Definition conversation_kept (c c' : Conversation) : Prop :=
  c_id c' = c_id c /\ party_ids c' = party_ids c /\ c_bookId c' = c_bookId c
  /\ forall j m, c_messages c !! j = Some m ->
                exists m', c_messages c' !! j = Some m' /\ message_kept m m'.

(** Every message of [cs] is still in [cs'], at its place, and if it was
    read it is read. *)
Definition read_monotone (cs cs' : list Conversation) : Prop :=
  forall i c, cs !! i = Some c -> exists c', cs' !! i = Some c' /\ conversation_kept c c'.

(** Whenever the step [op] from [st] to [st'] turns the [read] flag of a
    message from false to true, [op] is a reading of that message's
    conversation and the current user is not the sender of the message. *)
Definition flips_by_reader_other_than_sender
    (op : Session.Op) (st st' : Messaging.State) : Prop :=
  forall i j c c' m m',
    Messaging.conversations st !! i = Some c ->
    Messaging.conversations st' !! i = Some c' ->
    c_messages c !! j = Some m -> c_messages c' !! j = Some m' ->
    m_read m = false -> m_read m' = true ->
    exists u, Messaging.currentUser st = Some u /\ u_id u <> m_senderId m
              /\ (op = Session.MarkRead (c_id c) \/ op = Session.Select (c_id c)).

End Spec.

(** ** More concrete pages and inputs used in examples *)

Module Cases.
Import Notifications.

(** A page with a navigation bar and five stored notifications, three of
    them unread, before any script has run. *)
Definition page_with_five : Page :=
  {| localStorage :=
       {| ls_currentUser := Some Scenario.ann;
          ls_bookswap_notifications :=
            Some [Scenario.note "n5" 50 false; Scenario.note "n4" 40 true;
                  Scenario.note "n3" 30 false; Scenario.note "n2" 20 true;
                  Scenario.note "n1" 10 false];
          ls_bookswap_conversations := None |};
     navbar := true; widget := None; toasts := []; toast_container := None;
     timers := []; clock := 0; location_href := "index.html" |}.

(** The markup the constructor creates on that page, with the badge as it
    leaves it. *)
Definition bell_showing_three : Widget :=
  {| badge := {| textContent := "3"; display := "flex" |};
     menu_show := false;
     notification_list := EmptyNotification |}.

(** The conversation Ann started with Bob about book-42, as stored. *)
Definition anns_conversation : Conversation :=
  {| c_id := "1000";
     c_participants :=
       [ {| p_id := "u1"; p_name := "Ann"; p_whatsappNumber := None |};
         {| p_id := "u2"; p_name := "Bob"; p_whatsappNumber := Some "" |} ];
     c_bookId := "book-42";
     c_bookTitle := "Calculus";
     c_messages :=
       [ {| m_id := "1000"; m_senderId := "u1"; m_text := "is this available?";
            m_timestamp := 1000; m_read := false |} ] |}.

(** Ann has logged out and Bob has logged in on the same browser. *)
Definition bob_on_anns_browser : Messaging.State :=
  Session.run [Session.Logout; Session.Login Scenario.bob] Scenario.ann_wrote_to_bob.

(** The card of a book Bob sells, and the card of a book Ann sells. *)
Definition bobs_card : BookPage.Card :=
  {| BookPage.dataset_bookId := Some "book-42";
     BookPage.book_title_textContent := Some "Calculus";
     BookPage.h1_textContent := None;
     BookPage.dataset_sellerName := Some "Bob";
     BookPage.dataset_sellerId := Some "u2" |}.

Definition anns_own_card : BookPage.Card :=
  {| BookPage.dataset_bookId := Some "book-7";
     BookPage.book_title_textContent := None;
     BookPage.h1_textContent := Some "Physics";
     BookPage.dataset_sellerName := Some "Ann";
     BookPage.dataset_sellerId := Some "u1" |}.

(** The modal a click on the button of Bob's card opens. *)
Definition modal_for_bob : BookPage.Modal :=
  {| BookPage.modal_bookId := "book-42"; BookPage.modal_bookTitle := "Calculus";
     BookPage.modal_sellerId := "u2"; BookPage.modal_sellerName := "Bob";
     BookPage.modal_open := true |}.

(** An outside for the transaction manager: numbers are integers, and the
    analytics dashboard counts the sales and purchases it is told of. *)
Definition outside : TransactionManager.Outside :=
  {| TransactionManager.Number := Z;
     TransactionManager.zero := 0;
     TransactionManager.Number_falsy := fun n => bool_decide (n = 0);
     TransactionManager.Number_toString := pretty;
     TransactionManager.AnalyticsDashboard := nat;
     TransactionManager.recordBookSale := fun _ _ a => (S a, Return VUndefined);
     TransactionManager.recordBookPurchase := fun _ _ a => (S a, Return VUndefined) |}.

(** The [bookMarkedAsSold] event of a calculus book sold for 30. *)
Definition calculus_sold : TransactionManager.SaleData outside :=
  {| TransactionManager.bookData :=
       {| TransactionManager.bd_id := "book-42";
          TransactionManager.bd_title := "Calculus";
          TransactionManager.bd_author := "Stewart";
          TransactionManager.bd_sellerId := None;
          TransactionManager.bd_sellerName := None |};
     TransactionManager.sd_type := None;
     TransactionManager.price := Some (30 : TransactionManager.Number outside);
     TransactionManager.buyerId := Some "pending";
     TransactionManager.buyerName := Some "Pending Buyer";
     TransactionManager.status := Some "Completed";
     TransactionManager.paymentMethod := Some "Cash";
     TransactionManager.meetingLocation := Some "Campus";
     TransactionManager.notes := Some "Book marked as sold from dashboard" |}.

(** Ann's window right after a page load, with nothing stored yet. *)
Definition anns_window : TransactionManager.Window outside :=
  TransactionManager.load (o := outside) (Scenario.fresh_page (Some Scenario.ann)) None
    (Some 0%nat).


(** The notifications page before any script has run: Ann is logged in and
    one unread notification is stored. *)
Definition notifications_html : Page :=
  {| localStorage :=
       {| ls_currentUser := Some Scenario.ann;
          ls_bookswap_notifications := Some [Scenario.note "n1" 10 false];
          ls_bookswap_conversations := None |};
     navbar := true; widget := None; toasts := []; toast_container := None;
     timers := []; clock := 0; location_href := "notifications.html" |}.

(** The same page after [initializeFeatures]. *)
Definition notifications_page_loaded : Features.Window :=
  Features.initializeFeatures (fun _ => "") (Scenario.host_at 100) "/notifications.html"
    notifications_html.

End Cases.

(** ** Invariants of the notification engine *)

Module Invariant.
Import Notifications.


(** A notification as it was, except that [read] and [seen] may have gone
    from false to true. *)
Definition notification_kept (n n' : Notification) : Prop :=
  n_id n' = n_id n /\ n_type n' = n_type n /\ n_message n' = n_message n
  /\ n_timestamp n' = n_timestamp n /\ n_data n' = n_data n /\ n_link n' = n_link n
  /\ (n_read n = true -> n_read n' = true) /\ (n_seen n = true -> n_seen n' = true).

(** Every notification of [ns] is still in [ns'], in the same order and
    behind whatever was added. *)
Definition notifications_kept (ns ns' : list Notification) : Prop :=
  exists added kept, ns' = added ++ kept /\ Forall2 notification_kept ns kept.

(** The state of an instance on the dashboard: the bell's listener is the
    one that leaves for the notifications page, no notification is seen,
    and the dropdown is closed. *)
Definition bell_leads_away (st : State) : Prop :=
  onDashboard st = true
  /\ Forall (fun n => n_seen n = false) (notifications st)
  /\ (forall w, widget (page st) = Some w -> menu_show w = false).

(** No timer of the queue is the unguarded removal the close button of a
    toast arms. *)
Definition no_unguarded_removal (tm : list Timer) : Prop :=
  Forall (fun t => forall k, callback t <> ToastRemove k) tm.

Definition is_close_click (i : Input) : bool :=
  match i with
  | ClickToastClose _ _ => true
  | _ => false
  end.

Definition returns (c : Completion) : bool :=
  match c with
  | Return _ => true
  | Throw _ => false
  end.

(** The link [simulateNewNotification] gives a notification of each
    type. *)
Definition simulated_link (type : string) : option string :=
  if decide (type = NEW_LISTING) then Some "browse.html"
  else if decide (type = MESSAGE) then Some "messages.html"
  else if decide (type = TRANSACTION) then Some "dashboard.html?tab=transactions"
  else if decide (type = REVIEW) then Some "dashboard.html?tab=reviews"
  else None.

(** [Math.random()] gives a number in [[0, 1)]. *)
Definition random_in_range (h : Host) : Prop :=
  forall k, (0 <= Math_random h k)%Q /\ (Math_random h k < 1)%Q.


(** The dropdown of the bell is closed: its menu has no [show] class. *)
Definition menu_closed (pg : Page) : Prop :=
  forall w, widget pg = Some w -> menu_show w = false.

(** The page instance, where there is one, registered the same bell
    listener as [window.notificationSystem]. *)
Definition same_bell_listener (w : Features.Window) : Prop :=
  forall b, Features.pageSystem w = Some b ->
    Features.i_onDashboard b = Features.i_onDashboard (Features.notificationSystem w).

(** A window with two instances. *)
Definition two_systems (w : Features.Window) : Prop := is_Some (Features.pageSystem w).

End Invariant.

(** ** Properties of the notification engine *)

Module NotificationsFacts.
Import Notifications.

(** *** The simulated notification is an added notification *)

Lemma simulateNewNotification_adds h st :
  exists h' notification,
    fst (simulateNewNotification h st) = fst (addNotification h' notification st)
    /\ notification
       = snd (simulated h (at_index notificationTypes
                             (random_index h 0 (length notificationTypes)))).
Proof.
  unfold simulateNewNotification.
  destruct (simulated h _) as [draws notification].
  exists (after_draws (S draws) h), notification.
  by destruct (addNotification _ _ _).
Qed.

(** *** What the rendering steps leave alone *)

Lemma notifications_updateNotificationBadge st :
  notifications (updateNotificationBadge st) = notifications st.
Proof. unfold updateNotificationBadge. by destruct (widget (page st)). Qed.

Lemma notifications_renderNotifications st :
  notifications (renderNotifications st) = notifications st.
Proof.
  unfold renderNotifications.
  destruct (widget (page st)); [|done]. by destruct (notifications st) eqn:E.
Qed.

Lemma localStorage_updateNotificationBadge st :
  localStorage (page (updateNotificationBadge st)) = localStorage (page st).
Proof. unfold updateNotificationBadge. by destruct (widget (page st)). Qed.

Lemma localStorage_renderNotifications st :
  localStorage (page (renderNotifications st)) = localStorage (page st).
Proof.
  unfold renderNotifications.
  destruct (widget (page st)); [|done]. by destruct (notifications st).
Qed.

Lemma page_showToastNotification_localStorage n st :
  localStorage (page (showToastNotification n st)) = localStorage (page st).
Proof. done. Qed.

Lemma notifications_showToastNotification n st :
  notifications (showToastNotification n st) = notifications st.
Proof. done. Qed.


Lemma getUnreadCount_length st :
  getUnreadCount st = length (filter (fun n => n_read n = false) (notifications st)).
Proof. unfold getUnreadCount. by destruct (notifications st). Qed.

Lemma filter_unread_set_read (ns : list Notification) :
  filter (fun n => n_read n = false) (set_read <$> ns) = [].
Proof.
  induction ns as [|n ns IH]; [done|].
  rewrite fmap_cons, filter_cons_False by (simpl; congruence). exact IH.
Qed.

Lemma filter_unread_set_seen (ns : list Notification) :
  filter (fun n => n_read n = false) (set_seen <$> ns)
  = set_seen <$> filter (fun n => n_read n = false) ns.
Proof.
  induction ns as [|n ns IH]; [done|].
  rewrite fmap_cons. destruct (n_read n) eqn:E.
  - rewrite !filter_cons_False by (simpl; congruence). exact IH.
  - rewrite !filter_cons_True by (simpl; congruence). by rewrite fmap_cons, IH.
Qed.

Lemma notifications_markAllAsRead st :
  notifications (markAllAsRead st) = set_read <$> notifications st.
Proof.
  unfold markAllAsRead. destruct (notifications st) as [|n ns] eqn:E; [by rewrite E|].
  by rewrite notifications_renderNotifications, notifications_updateNotificationBadge.
Qed.

Lemma notifications_markNotificationsAsSeen st :
  notifications (markNotificationsAsSeen st) = set_seen <$> notifications st.
Proof.
  unfold markNotificationsAsSeen. destruct (notifications st) as [|n ns] eqn:E; [by rewrite E|].
  by rewrite notifications_updateNotificationBadge.
Qed.

(** *** Unread count *)

(** The badge caps its text, the count itself is not capped. *)
Lemma badge_caps_only_text st w :
  widget (page st) = Some w -> (9 < getUnreadCount st)%nat ->
  unreadCount (updateNotificationBadge st) = getUnreadCount st
  /\ (textContent ∘ badge) <$> widget (page (updateNotificationBadge st)) = Some "9+".
Proof.
  intros Hw Hc. unfold updateNotificationBadge. rewrite Hw. simpl.
  rewrite decide_True by lia. by rewrite decide_True by lia.
Qed.

(** *** The stored list and the list of the instance *)

Lemma stored_in_step_frame st st' :
  notifications st' = notifications st ->
  localStorage (page st') = localStorage (page st) ->
  stored_in_step st -> stored_in_step st'.
Proof. unfold stored_in_step, loadNotificationsFromStorage. by intros -> ->. Qed.

Lemma stored_in_step_save st : stored_in_step (saveNotificationsToStorage st).
Proof. done. Qed.

Lemma stored_in_step_updateNotificationBadge st :
  stored_in_step st -> stored_in_step (updateNotificationBadge st).
Proof.
  apply stored_in_step_frame;
    [apply notifications_updateNotificationBadge|apply localStorage_updateNotificationBadge].
Qed.

Lemma stored_in_step_renderNotifications st :
  stored_in_step st -> stored_in_step (renderNotifications st).
Proof.
  apply stored_in_step_frame;
    [apply notifications_renderNotifications|apply localStorage_renderNotifications].
Qed.

Lemma stored_in_step_on_page f st :
  (forall pg, localStorage (f pg) = localStorage pg) ->
  stored_in_step st -> stored_in_step (on_page f st).
Proof. intros Hf. apply stored_in_step_frame; [done|apply Hf]. Qed.

Lemma stored_in_step_closeNotificationDropdown st :
  stored_in_step st -> stored_in_step (closeNotificationDropdown st).
Proof. unfold closeNotificationDropdown. by destruct (widget (page st)). Qed.

Lemma stored_in_step_markAllAsRead st :
  stored_in_step st -> stored_in_step (markAllAsRead st).
Proof.
  intros H. unfold markAllAsRead. destruct (notifications st); [done|].
  apply stored_in_step_renderNotifications, stored_in_step_updateNotificationBadge,
    stored_in_step_save.
Qed.

Lemma stored_in_step_markNotificationsAsSeen st :
  stored_in_step st -> stored_in_step (markNotificationsAsSeen st).
Proof.
  intros H. unfold markNotificationsAsSeen. destruct (notifications st); [done|].
  apply stored_in_step_updateNotificationBadge, stored_in_step_save.
Qed.

Lemma stored_in_step_toggleNotificationDropdown st :
  stored_in_step st -> stored_in_step (toggleNotificationDropdown st).
Proof.
  intros H. unfold toggleNotificationDropdown. destruct (widget (page st)) as [w|]; [|done].
  destruct (menu_show w); simpl; [done|].
  by apply stored_in_step_markNotificationsAsSeen.
Qed.

Lemma stored_in_step_markAsRead notificationId st :
  stored_in_step st -> stored_in_step (markAsRead notificationId st).
Proof.
  intros H. unfold markAsRead. destruct (list_find _ _) as [[i n]|]; [|done].
  apply stored_in_step_renderNotifications, stored_in_step_updateNotificationBadge,
    stored_in_step_save.
Qed.

Lemma stored_in_step_handleNotificationClick n st :
  stored_in_step st -> stored_in_step (handleNotificationClick n st).
Proof.
  intros H. unfold handleNotificationClick.
  pose proof (stored_in_step_markAsRead (n_id n) st H) as H'.
  repeat case_match;
    first [by apply stored_in_step_on_page | by apply stored_in_step_closeNotificationDropdown].
Qed.

Lemma stored_in_step_addNotification h notification st :
  stored_in_step st -> stored_in_step (fst (addNotification h notification st)).
Proof.
  intros H. unfold addNotification. destruct (currentUser st); [|done]. cbn [fst].
  eapply stored_in_step_frame;
    [apply notifications_showToastNotification|apply page_showToastNotification_localStorage|].
  apply stored_in_step_renderNotifications, stored_in_step_updateNotificationBadge,
    stored_in_step_save.
Qed.

Lemma stored_in_step_constructor pg : stored_in_step (constructor pg).
Proof.
  unfold constructor, initNotificationSystem, startNotificationPolling.
  apply stored_in_step_on_page; [done|].
  apply stored_in_step_updateNotificationBadge.
  unfold createNotificationElements. simpl. by repeat case_match.
Qed.

Lemma stored_in_step_step i st : stored_in_step st -> stored_in_step (fst (step i st)).
Proof.
  intros H. destruct i as [h|time t|time t| | | |id|n|h n]; unfold step; cbn [fst];
    [| | |unfold click_icon; destruct (widget (page st)); [destruct (onDashboard st)|];
          first [by apply stored_in_step_on_page
                |by apply stored_in_step_toggleNotificationDropdown|done]
     |unfold click_mark_all_read; destruct (widget (page st));
          [by apply stored_in_step_markAllAsRead|done]
     |by apply stored_in_step_closeNotificationDropdown
     |by apply stored_in_step_markAsRead
     |by apply stored_in_step_handleNotificationClick
     |by apply stored_in_step_addNotification].
  - unfold fire. destruct (next_timer _) as [[i tm]|]; [|done].
    match goal with |- stored_in_step (fst (run_callback _ _ ?s)) =>
      assert (stored_in_step s) as Hs by (by apply stored_in_step_on_page); revert Hs;
      generalize s end.
    intros s Hs. destruct (callback tm); unfold run_callback.
    + unfold poll_tick. destruct (currentUser s); [|done].
      destruct (Qlt_le_dec _ _); [|done]. cbn [fst].
      destruct (simulateNewNotification_adds (after_draws 1 h) s) as (h' & n' & -> & _).
      by apply stored_in_step_addNotification.
    + by apply stored_in_step_on_page.
    + by apply stored_in_step_on_page.
    + destruct (contains t (page s)) eqn:E; [|done].
      unfold removeChild. rewrite E. cbn [fst]. by apply (stored_in_step_on_page _ s).
    + unfold removeChild. destruct (contains t (page s)); cbn [fst].
      * by apply (stored_in_step_on_page _ s).
      * by destruct s.
  - destruct (contains t (page st)); [|done]. cbn [fst].
    unfold click_toast_close. apply stored_in_step_on_page; [done|].
    by apply stored_in_step_on_page.
  - destruct (contains t (page st)); [|done]. cbn [fst].
    unfold click_toast. cbn [page on_page with_page toasts with_clock].
    destruct (toasts (page st) !! t); [|by apply stored_in_step_on_page].
    apply stored_in_step_on_page; [done|].
    apply stored_in_step_handleNotificationClick. by apply stored_in_step_on_page.
Qed.

Lemma stored_in_step_run inputs st :
  stored_in_step st -> stored_in_step (fst (run inputs st)).
Proof.
  revert st. induction inputs as [|i inputs IH]; intros st H; [done|].
  simpl. pose proof (stored_in_step_step i st H) as H1.
  destruct (step i st) as [st1 c]. specialize (IH st1 H1).
  by destruct (run inputs st1).
Qed.



(** *** Seeing is not reading *)

(** C7. [markNotificationsAsSeen] turns every notification into itself with
    [seen] set: the [read] flag and every other field of every notification
    are as before, and so is the unread count. *)
Theorem markNotificationsAsSeen_frame (st : State) :
  notifications (markNotificationsAsSeen st) = set_seen <$> notifications st
  /\ Forall2 (fun n n' =>
                n_seen n' = true /\ n_read n' = n_read n /\ n_id n' = n_id n
                /\ n_type n' = n_type n /\ n_message n' = n_message n
                /\ n_timestamp n' = n_timestamp n /\ n_data n' = n_data n
                /\ n_link n' = n_link n)
             (notifications st) (notifications (markNotificationsAsSeen st))
  /\ getUnreadCount (markNotificationsAsSeen st) = getUnreadCount st.
Proof.
  split; [apply notifications_markNotificationsAsSeen|]. split.
  - rewrite notifications_markNotificationsAsSeen.
    apply Forall2_fmap_r, Forall2_same_length_lookup_2; [done|].
    intros i n n' H1 H2. assert (n = n') as <- by congruence. by simpl.
  - rewrite !getUnreadCount_length, notifications_markNotificationsAsSeen.
    by rewrite filter_unread_set_seen, length_fmap.
Qed.

(** The scenario of the specification: three unread and two read
    notifications; the dropdown is opened. *)
Example dropdown_opened_with_three_unread :
  let st := toggleNotificationDropdown Scenario.three_unread_two_read in
  getUnreadCount Scenario.three_unread_two_read = 3%nat
  /\ length (notifications st) = 5%nat
  /\ Forall (fun n => n_seen n = true) (notifications st)
  /\ getUnreadCount st = 3%nat.
Proof. vm_compute. repeat split; repeat constructor. Qed.

(** *** Marking one notification read *)


Example markAsRead_unknown_and_known :
  let st := Scenario.three_unread_two_read in
  markAsRead "n0" st = st
  /\ n_read <$> notifications st = [false; true; false; true; false]
  /\ n_read <$> notifications (markAsRead "n3" st) = [false; true; true; true; false]
  /\ getUnreadCount (markAsRead "n3" st) = 2%nat
  /\ loadNotificationsFromStorage (page (markAsRead "n3" st))
     = Some (notifications (markAsRead "n3" st)).
Proof. by vm_compute. Qed.

(** Marking an already read notification read again changes nothing in the
    list. *)
Lemma markAsRead_idempotent notificationId st :
  notifications (markAsRead notificationId (markAsRead notificationId st))
  = notifications (markAsRead notificationId st).
Proof.
  destruct (list_find (fun n => n_id n = notificationId) (notifications st))
    as [[i n]|] eqn:Hf.
  - assert (notifications (markAsRead notificationId st)
            = <[i := set_read n]> (notifications st)) as Heq.
    { unfold markAsRead. rewrite Hf.
      by rewrite notifications_renderNotifications, notifications_updateNotificationBadge. }
    apply list_find_Some in Hf as (Hi & Hid & Hfirst).
    assert (list_find (fun n => n_id n = notificationId)
              (notifications (markAsRead notificationId st)) = Some (i, set_read n)) as Hf'.
    { rewrite Heq. apply list_find_Some. split; [|split; [done|]].
      - apply list_lookup_insert_eq. by eapply lookup_lt_Some.
      - intros j m Hj Hlt. rewrite list_lookup_insert_ne in Hj by lia. eauto. }
    unfold markAsRead at 1. rewrite Hf'.
    rewrite notifications_renderNotifications, notifications_updateNotificationBadge.
    simpl. rewrite Heq. by rewrite list_insert_insert_eq.
  - unfold markAsRead. by rewrite Hf, Hf.
Qed.

(** *** Adding a notification *)

Lemma addNotification_without_user h notification st :
  currentUser st = None ->
  addNotification h notification st = (st, Return (VBool false)).
Proof. intros H. unfold addNotification. by rewrite H. Qed.

Lemma notifications_addNotification h notification st u :
  currentUser st = Some u ->
  notifications (fst (addNotification h notification st))
  = newNotification h notification :: notifications st.
Proof.
  intros H. unfold addNotification. rewrite H. cbn [fst].
  by rewrite notifications_showToastNotification, notifications_renderNotifications,
    notifications_updateNotificationBadge.
Qed.

Lemma storage_addNotification h notification st u :
  currentUser st = Some u ->
  loadNotificationsFromStorage (page (fst (addNotification h notification st)))
  = Some (newNotification h notification :: notifications st).
Proof.
  intros H. unfold addNotification. rewrite H. cbn [fst].
  unfold loadNotificationsFromStorage.
  by rewrite page_showToastNotification_localStorage, localStorage_renderNotifications,
    localStorage_updateNotificationBadge.
Qed.

Lemma toast_addNotification h notification st u :
  currentUser st = Some u ->
  toast_notification <$> list.last (toasts (page (fst (addNotification h notification st))))
  = Some (newNotification h notification).
Proof.
  intros H. unfold addNotification. rewrite H. cbn [fst].
  unfold showToastNotification. cbn [page with_page toasts with_toasts setTimeout with_timers
    with_toast_container]. by rewrite last_snoc.
Qed.

(** The two cases of [addNotification], by the user the instance holds. *)
Lemma addNotification_by_held_user
    (h : Host) (notification : NotificationInput) (st : State) :
  match currentUser st with
  | None => addNotification h notification st = (st, Return (VBool false))
  | Some _ =>
      exists n,
        n_read n = false /\ n_seen n = false
        /\ n_type n = type notification /\ n_message n = message notification
        /\ n_timestamp n = Date_now h
        /\ notifications (fst (addNotification h notification st)) = n :: notifications st
        /\ loadNotificationsFromStorage (page (fst (addNotification h notification st)))
           = Some (n :: notifications st)
        /\ toast_notification <$> list.last (toasts (page (fst (addNotification h notification st))))
           = Some n
        /\ snd (addNotification h notification st) = Return (VBool true)
  end.
Proof.
  destruct (currentUser st) as [u|] eqn:Hu; [|by apply addNotification_without_user].
  exists (newNotification h notification). do 5 (split; [reflexivity|]).
  split; [by eapply notifications_addNotification|].
  split; [by eapply storage_addNotification|].
  split; [by eapply toast_addNotification|].
  unfold addNotification. by rewrite Hu.
Qed.

(** C4, without the values the claim has [add] return.  The instance holds
    the user that is logged in, as it does from its construction until the
    stored entry changes.  If no user is logged in, [addNotification]
    returns [false] and leaves the state as it was: nothing is created.
    Otherwise it builds one notification, unread and unseen, puts it at the
    head of the list, writes the list to storage (which puts the
    notification at the head of the stored list when the list was the
    stored one), shows it as a toast, and returns [true]. *)
Theorem addNotification_gate_and_effect
    (h : Host) (notification : NotificationInput) (st : State) :
  currentUser st = getCurrentUser (page st) ->
  match getCurrentUser (page st) with
  | None => addNotification h notification st = (st, Return (VBool false))
  | Some _ =>
      exists n,
        n_read n = false /\ n_seen n = false
        /\ n_type n = type notification /\ n_message n = message notification
        /\ n_timestamp n = Date_now h
        /\ notifications (fst (addNotification h notification st)) = n :: notifications st
        /\ loadNotificationsFromStorage (page (fst (addNotification h notification st)))
           = Some (n :: notifications st)
        /\ (stored_in_step st ->
            loadNotificationsFromStorage (page (fst (addNotification h notification st)))
            = Some (n :: default [] (loadNotificationsFromStorage (page st))))
        /\ toast_notification <$> list.last (toasts (page (fst (addNotification h notification st))))
           = Some n
        /\ snd (addNotification h notification st) = Return (VBool true)
  end.
Proof.
  intros Hheld. pose proof (addNotification_by_held_user h notification st) as H.
  rewrite Hheld in H. destruct (getCurrentUser (page st)) as [u|]; [|exact H].
  destruct H as (n & H1 & H2 & H3 & H4 & H5 & H6 & H7 & H8 & H9).
  exists n. do 7 (split; [done|]). split; [|done].
  intros Hs. by rewrite <- Hs.
Qed.

Lemma addNotification_gate_and_effect_witness :
  let st := Scenario.logged_in in
  let r := addNotification (Scenario.host_at 1000) (Scenario.system_note "hi") st in
  currentUser st = getCurrentUser (page st)
  /\ (exists n,
        notifications (fst r) = [n]
        /\ loadNotificationsFromStorage (page (fst r)) = Some [n]
        /\ n_read n = false /\ n_seen n = false)
  /\ snd r = Return (VBool true)
  /\ addNotification (Scenario.host_at 1000) (Scenario.system_note "hi") Scenario.anonymous
     = (Scenario.anonymous, Return (VBool false)).
Proof.
  intros st r.
  assert (currentUser st = getCurrentUser (page st)) as Hheld by reflexivity.
  pose proof (addNotification_gate_and_effect (Scenario.host_at 1000)
                (Scenario.system_note "hi") st Hheld) as H.
  pose proof (addNotification_gate_and_effect (Scenario.host_at 1000)
                (Scenario.system_note "hi") Scenario.anonymous eq_refl) as H0.
  split; [exact Hheld|].
  destruct H as (n & H1 & H2 & _ & _ & _ & H6 & _ & H8 & _ & H9).
  split; [|split; [exact H9|exact H0]].
  exists n. split; [exact H6|]. split; [exact (H8 eq_refl)|]. split; [exact H1|exact H2].
Defined.

(** C4, as the claim has it, fails on the returned value: with a user
    logged in, the call returns the boolean [true], not the notification it
    has just put at the head of the list. *)
Lemma addNotification_returns_true_not_the_notification :
  let r := addNotification (Scenario.host_at 1000) (Scenario.system_note "hi")
             Scenario.logged_in in
  exists n, head (notifications (fst r)) = Some n
            /\ snd r = Return (VBool true)
            /\ snd r <> Return (VNotification n).
Proof. vm_compute. eexists. split; [reflexivity|]. split; [reflexivity|discriminate]. Qed.

(** Two additions in a row give two notifications: nothing is merged. *)
Example two_additions_two_notifications :
  let st := fst (addNotification (Scenario.host_at 1000)
                   (Scenario.system_note "New message from Alice") Scenario.logged_in) in
  let st := fst (addNotification (Scenario.host_at 1000)
                   (Scenario.system_note "New message from Alice") st) in
  length (notifications st) = 2%nat /\ getUnreadCount st = 2%nat.
Proof. by vm_compute. Qed.

(** *** The simulated event source after logout *)

(** The tick looks at the user the instance read from storage when it was
    constructed.  When that is [null], the tick returns the state it was
    given (no notification, no write to storage) and throws nothing. *)
Lemma poll_tick_noop_without_held_user (h : Host) (st : State) :
  currentUser st = None ->
  run_callback h PollTick st = (st, Return VUndefined).
Proof. intros H. simpl. unfold poll_tick. by rewrite H. Qed.

(** The same seen from the timer queue: when the interval fires for an
    instance without a user, the list and the storage are as before and
    nothing is thrown. *)
Lemma fire_poll_without_cached_user h st i t :
  currentUser st = None ->
  next_timer (timers (page st)) = Some (i, t) -> callback t = PollTick ->
  notifications (fst (fire h st)) = notifications st
  /\ localStorage (page (fst (fire h st))) = localStorage (page st)
  /\ snd (fire h st) = Return VUndefined.
Proof.
  intros Hu Hn Hcb. unfold fire. rewrite Hn, Hcb. simpl.
  unfold poll_tick. simpl. by rewrite Hu.
Qed.

(** An instance constructed while no user is stored has no current user,
    so all its ticks are of that kind. *)
Lemma constructor_without_stored_user pg :
  getCurrentUser pg = None -> currentUser (constructor pg) = None.
Proof.
  intros H. unfold constructor, initNotificationSystem, startNotificationPolling.
  simpl. rewrite <- H.
  generalize (getCurrentUser pg). intros u.
  match goal with |- currentUser (updateNotificationBadge ?s) = _ =>
    assert (currentUser (updateNotificationBadge s) = currentUser s) as ->
  end.
  { unfold updateNotificationBadge. by case_match. }
  unfold createNotificationElements. simpl. by repeat case_match.
Qed.

(** Nothing changes the user an instance holds. *)
Lemma currentUser_step i st : currentUser (fst (step i st)) = currentUser st.
Proof.
  assert (forall id s, currentUser (markAsRead id s) = currentUser s) as Hmark.
  { intros id s. unfold markAsRead, renderNotifications, updateNotificationBadge.
    simpl. by repeat case_match. }
  assert (forall n s, currentUser (handleNotificationClick n s) = currentUser s) as Hclick.
  { intros n s. unfold handleNotificationClick, closeNotificationDropdown.
    repeat case_match; simpl; try apply Hmark.
    all: by rewrite <- (Hmark (n_id n) s). }
  assert (forall h n s, currentUser (fst (addNotification h n s)) = currentUser s) as Hadd.
  { intros h n s. unfold addNotification, showToastNotification, renderNotifications,
      updateNotificationBadge. simpl. by repeat case_match. }
  destruct i as [h|time t|time t| | | |id|n|h n]; unfold step; cbn [fst];
    try apply Hmark; try apply Hclick; try apply Hadd.
  - unfold fire. destruct (next_timer _) as [[k tm]|]; [|done].
    match goal with |- currentUser (fst (run_callback _ _ ?s)) = _ =>
      change (currentUser st) with (currentUser s); generalize s end.
    intros s. destruct (callback tm); unfold run_callback, removeChild; cbn [fst].
    + unfold poll_tick. destruct (currentUser s) eqn:Hu; [|done].
      destruct (Qlt_le_dec _ _); [|done].
      destruct (simulateNewNotification_adds (after_draws 1 h) s) as (h' & n' & -> & _).
      by rewrite Hadd.
    + done.
    + done.
    + by repeat case_match.
    + by repeat case_match.
  - by destruct (contains t (page st)).
  - destruct (contains t (page st)); [|done]. unfold click_toast. simpl.
    destruct (toasts (page st) !! t); [|done]. simpl. by rewrite Hclick.
  - unfold click_icon, toggleNotificationDropdown, markNotificationsAsSeen,
      updateNotificationBadge. simpl. by repeat case_match.
  - unfold click_mark_all_read, markAllAsRead, renderNotifications,
      updateNotificationBadge. simpl. by repeat case_match.
  - unfold click_document, closeNotificationDropdown. by case_match.
Qed.

Lemma currentUser_run inputs st : currentUser (fst (run inputs st)) = currentUser st.
Proof.
  revert st. induction inputs as [|i inputs IH]; intros st; [done|].
  simpl. pose proof (currentUser_step i st) as H1.
  destruct (step i st) as [st1 c]. specialize (IH st1).
  destruct (run inputs st1). simpl in *. congruence.
Qed.

(** So on a page loaded after logout every tick, whatever happened on the
    page before it, leaves the state alone. *)
Lemma ticks_after_logout_do_nothing pg inputs h :
  getCurrentUser pg = None ->
  let st := fst (run inputs (constructor pg)) in
  run_callback h PollTick st = (st, Return VUndefined).
Proof.
  intros Hpg st. simpl. unfold poll_tick.
  assert (currentUser st = None) as ->; [|done].
  unfold st. rewrite currentUser_run. by apply constructor_without_stored_user.
Qed.

(** C2.  The interval's callback is commented "Only simulate notifications
    if user is logged in", and tests the user the instance read when it was
    constructed, which nothing refreshes; the interval is never cleared.
    So after a logout on a page that is still there (the stored user is
    absent, the instance still holds Ann), a tick whose draw is below 0.1
    adds a notification and writes it to storage, where the claim has the
    tick do nothing. *)
Lemma poll_tick_after_logout_still_notifies :
  let st := Scenario.logged_out in
  let st' := fst (run_callback (Scenario.host_at 31000) PollTick st) in
  getCurrentUser (page st) = None
  /\ length (notifications st') = S (length (notifications st))
  /\ loadNotificationsFromStorage (page st) = None
  /\ loadNotificationsFromStorage (page st') = Some (notifications st').
Proof. by vm_compute. Qed.

(** *** The dropdown and the notifications page against stored order *)

Lemma sort_insert_newest x l :
  (forall y, head l = Some y -> n_timestamp y <= n_timestamp x) ->
  sort_insert newest_first x l = x :: l.
Proof.
  destruct l as [|y l]; [done|]. intros H. simpl.
  rewrite decide_False; [done|]. unfold newest_first. specialize (H y eq_refl). lia.
Qed.

Lemma Array_sort_newest_first l :
  Spec.is_newest_first l = true -> Array_sort newest_first l = l.
Proof.
  induction l as [|a l IH]; [done|]. intros H. simpl in *.
  destruct l as [|b l'].
  - done.
  - apply andb_prop in H as [Hab Hl]. apply bool_decide_eq_true in Hab.
    rewrite (IH Hl). apply sort_insert_newest. intros y [= <-]. done.
Qed.

(** The sort returns a rearrangement of its argument that is in timestamp
    order, newest first. *)
Lemma sort_insert_Permutation {A} (cmp : A -> A -> Z) x l :
  sort_insert cmp x l ≡ₚ x :: l.
Proof.
  induction l as [|y l IH]; [done|]. simpl. case_decide; [|done].
  by rewrite IH, Permutation_swap.
Qed.

Lemma Array_sort_Permutation {A} (cmp : A -> A -> Z) l : Array_sort cmp l ≡ₚ l.
Proof.
  induction l as [|x l IH]; [done|]. simpl.
  by rewrite sort_insert_Permutation, IH.
Qed.

Lemma is_newest_first_cons a l :
  Spec.is_newest_first (a :: l) = true
  <-> (forall b, head l = Some b -> n_timestamp b <= n_timestamp a)
      /\ Spec.is_newest_first l = true.
Proof.
  destruct l as [|b l]; simpl.
  - split; [by split|done].
  - rewrite andb_true_iff, bool_decide_eq_true. split.
    + intros [H1 H2]. split; [by intros ? [= <-]|done].
    + intros [H1 H2]. split; [by apply H1|done].
Qed.

Lemma sort_insert_newest_first x l :
  Spec.is_newest_first l = true ->
  Spec.is_newest_first (sort_insert newest_first x l) = true.
Proof.
  induction l as [|y l IH]; [done|]. intros Hl.
  cbn [sort_insert]. unfold newest_first at 1. case_decide as Hxy.
  - apply is_newest_first_cons in Hl as [Hhead Hl].
    apply is_newest_first_cons. split; [|by apply IH].
    destruct l as [|z l]; simpl.
    + intros b [= <-]. lia.
    + case_decide; intros b [= <-]; [by apply Hhead|lia].
  - apply is_newest_first_cons. split; [|done]. intros b [= <-]. lia.
Qed.

Lemma Array_sort_is_newest_first l :
  Spec.is_newest_first (Array_sort newest_first l) = true.
Proof. induction l as [|x l IH]; [done|]. by apply sort_insert_newest_first. Qed.

(** And the sort is stable: notifications of one timestamp keep the order
    they had. *)
Lemma sort_insert_stable t x l :
  filter (fun n => n_timestamp n = t) (sort_insert newest_first x l)
  = filter (fun n => n_timestamp n = t) (x :: l).
Proof.
  induction l as [|y l IH]; [done|].
  cbn [sort_insert]. unfold newest_first at 1. case_decide as Hxy; [|done].
  rewrite (filter_cons _ y), IH, !filter_cons.
  repeat case_decide; try done; lia.
Qed.

Lemma Array_sort_stable t l :
  filter (fun n => n_timestamp n = t) (Array_sort newest_first l)
  = filter (fun n => n_timestamp n = t) l.
Proof.
  induction l as [|x l IH]; [done|].
  cbn [Array_sort foldr]. rewrite sort_insert_stable, !filter_cons.
  fold (Array_sort newest_first l). by rewrite IH.
Qed.

(** C8, as the code has it.  The code sorts by timestamp, newest first,
    and takes the first [n].  On a stored list that already is in that
    order (the head is the newest, and so on down the list) the result is
    the first [n] elements of the stored list. *)
Theorem recent_view_is_stored_prefix (stored : list Notification) (n : nat) :
  Spec.is_newest_first stored = true ->
  slice0 n (Array_sort newest_first stored) = Spec.recentForUser n stored.
Proof. intros H. by rewrite (Array_sort_newest_first _ H). Qed.

Lemma recent_view_is_stored_prefix_witness :
  Spec.is_newest_first (notifications Scenario.three_unread_two_read) = true
  /\ slice0 5 (Array_sort newest_first (notifications Scenario.three_unread_two_read))
     = Spec.recentForUser 5 (notifications Scenario.three_unread_two_read).
Proof.
  split; [reflexivity|].
  apply (recent_view_is_stored_prefix (notifications Scenario.three_unread_two_read) 5).
  reflexivity.
Defined.

(** The two views of the code, on such a list. *)
Lemma renderNotifications_stored_prefix st w :
  widget (page st) = Some w -> notifications st <> [] ->
  Spec.is_newest_first (notifications st) = true ->
  notification_list <$> widget (page (renderNotifications st))
  = Some (Items (Spec.recentForUser 5 (notifications st))).
Proof.
  intros Hw Hne Hs. unfold renderNotifications. rewrite Hw.
  destruct (notifications st) as [|a l] eqn:E; [done|].
  cbv zeta. by rewrite (Array_sort_newest_first (a :: l) Hs).
Qed.

Lemma generateNotificationsPage_stored_order st :
  notifications st <> [] -> Spec.is_newest_first (notifications st) = true ->
  generateNotificationsPage st = Some (notifications st).
Proof.
  intros Hne Hs. unfold generateNotificationsPage.
  destruct (notifications st) as [|a l] eqn:E; [done|].
  by rewrite (Array_sort_newest_first _ Hs).
Qed.

(** Additions keep the stored list in timestamp order as long as the wall
    clock does not go back. *)
Lemma addNotification_keeps_newest_first h notification st :
  Spec.is_newest_first (notifications st) = true ->
  (forall n, head (notifications st) = Some n -> n_timestamp n <= Date_now h) ->
  Spec.is_newest_first (notifications (fst (addNotification h notification st))) = true.
Proof.
  intros Hs Hclock.
  destruct (currentUser st) as [u|] eqn:Hu;
    [|by rewrite addNotification_without_user].
  rewrite (notifications_addNotification _ _ _ _ Hu).
  simpl. destruct (notifications st) as [|b l] eqn:E; [done|].
  apply andb_true_intro. split; [|done].
  apply bool_decide_eq_true. by apply Hclock.
Qed.

(** C8, as the claim has it, fails: the second notification was added
    after the wall clock was set back, so it is at the head of the stored
    list with the older timestamp; the code's most recent one is the other
    notification. *)
Lemma recent_view_resorts_stored_list :
  let stored := notifications Scenario.clock_set_back in
  n_message <$> slice0 1 (Array_sort newest_first stored) = ["hi"]
  /\ n_message <$> Spec.recentForUser 1 stored = ["again"]
  /\ slice0 1 (Array_sort newest_first stored) <> Spec.recentForUser 1 stored.
Proof. vm_compute. repeat split. discriminate. Qed.

(** *** Toast removal *)

(** Which timer fires next. *)
Lemma min_due_spec tm i t :
  tm !! i = Some t ->
  (forall j t', tm !! j = Some t' -> due t <= due t') ->
  min_due tm = Some (due t).
Proof.
  revert i. induction tm as [|a tm IH]; intros i Hi Hmin; [done|].
  simpl. destruct i as [|i]; simpl in Hi.
  - injection Hi as ->. destruct (min_due tm) as [m|] eqn:Hm; [|done].
    f_equal. apply Z.min_l.
    destruct tm as [|b tm]; [done|].
    (* m is the due of some element *)
    assert (exists j t', (b :: tm) !! j = Some t' /\ due t' = m) as (j & t' & Hj & <-).
    { clear -Hm. revert m Hm. induction (b :: tm) as [|c l IHl]; intros m Hm; [done|].
      simpl in Hm. destruct (min_due l) as [m'|] eqn:Hl.
      - injection Hm as <-. destruct (Z.min_spec (due c) m') as [[_ ->]|[_ ->]].
        + by exists 0%nat, c.
        + destruct (IHl m' eq_refl) as (j & t' & Hj & Ht'). by exists (S j), t'.
      - injection Hm as <-. by exists 0%nat, c. }
    apply (Hmin (S j) t' Hj).
  - destruct (min_due tm) as [m|] eqn:Hm.
    + assert (m = due t) as ->.
      { pose proof (IH i Hi (fun j t' Hj => Hmin (S j) t' Hj)) as E. congruence. }
      f_equal. apply Z.min_r. by apply (Hmin 0%nat a).
    + by destruct tm.
Qed.

Lemma next_timer_spec tm i t :
  tm !! i = Some t ->
  (forall j t', tm !! j = Some t' -> due t <= due t') ->
  (forall j t', tm !! j = Some t' -> (j < i)%nat -> due t' <> due t) ->
  next_timer tm = Some (i, t).
Proof.
  intros Hi Hmin Hfirst. unfold next_timer. rewrite (min_due_spec tm i t Hi Hmin).
  apply list_find_Some. eauto.
Qed.

(** One step of a page of which the timer queue, the children of the toast
    container and the clock are known. *)
Lemma step_click_close t tm children now time st :
  t ∈ children ->
  step (ClickToastClose time t) (in_phase tm children now st)
  = (in_phase (tm ++ [timeout (Z.max now time + 300) (ToastRemove t)]) children (Z.max now time)
       (on_page (add_toast_hiding t) st), Return VUndefined).
Proof.
  intros Hin. unfold step.
  assert (contains t (page (in_phase tm children now st)) = true) as ->.
  { by apply bool_decide_eq_true. }
  by destruct st as [? ? ? ? []].
Qed.

Lemma fire_in_phase h tm children now st i x :
  next_timer tm = Some (i, x) -> every x = None ->
  fire h (in_phase tm children now st)
  = run_callback h (callback x) (in_phase (delete i tm) children (Z.max now (due x)) st).
Proof.
  intros Hn He. unfold fire. cbn [page in_phase on_page with_page timers with_timers].
  rewrite Hn, He. by destruct st as [? ? ? ? []].
Qed.

Lemma run_remove h t tm children now st :
  run_callback h (ToastRemove t) (in_phase tm children now st)
  = if bool_decide (t ∈ children)
    then (in_phase tm (filter (fun c => c <> t) children) now st, Return VUndefined)
    else (in_phase tm children now st, Throw "NotFoundError").
Proof.
  unfold run_callback, removeChild, contains. cbn.
  case_bool_decide; by destruct st as [? ? ? ? []].
Qed.

Lemma filter_other_id (t : nat) (l : list nat) :
  t ∉ l -> filter (fun c => c <> t) l = l.
Proof.
  induction l as [|c l IH]; [done|]. intros Hn.
  apply not_elem_of_cons in Hn as [Hne Hn].
  rewrite filter_cons_True by done. by rewrite IH.
Qed.

Lemma run_remove_if_contained h t tm children now st :
  run_callback h (ToastRemoveIfContained t) (in_phase tm children now st)
  = (in_phase tm (filter (fun c => c <> t) children) now st, Return VUndefined).
Proof.
  unfold run_callback, removeChild, contains. cbn.
  case_bool_decide as Hin.
  - by destruct st as [? ? ? ? []].
  - by rewrite filter_other_id.
Qed.

Lemma run_autohide h t tm children now st :
  run_callback h (ToastAutoHide t) (in_phase tm children now st)
  = (in_phase (tm ++ [timeout (now + 300) (ToastRemoveIfContained t)]) children now
       (on_page (add_toast_hiding t) st), Return VUndefined).
Proof. unfold run_callback. by destruct st as [? ? ? ? []]. Qed.

Lemma contains_in_phase t tm children now st :
  contains t (page (in_phase tm children now st)) = bool_decide (t ∈ children).
Proof. done. Qed.

Lemma toast_children_in_phase tm children now st :
  toast_children (page (in_phase tm children now st)) = children.
Proof. done. Qed.

Lemma step_fire_remove h t tm children now st i dl :
  next_timer tm = Some (i, timeout dl (ToastRemove t)) -> t ∈ children ->
  step (Fire h) (in_phase tm children now st)
  = (in_phase (delete i tm) (filter (fun c => c <> t) children) (Z.max now dl) st,
     Return VUndefined).
Proof.
  intros Hn Hin. unfold step. rewrite (fire_in_phase _ _ _ _ _ _ _ Hn eq_refl).
  cbn [callback timeout due]. rewrite run_remove. by rewrite bool_decide_eq_true_2.
Qed.

Lemma step_fire_remove_detached h t tm children now st i dl :
  next_timer tm = Some (i, timeout dl (ToastRemove t)) -> t ∉ children ->
  step (Fire h) (in_phase tm children now st)
  = (in_phase (delete i tm) children (Z.max now dl) st, Throw "NotFoundError").
Proof.
  intros Hn Hin. unfold step. rewrite (fire_in_phase _ _ _ _ _ _ _ Hn eq_refl).
  cbn [callback timeout due]. rewrite run_remove. by rewrite bool_decide_eq_false_2.
Qed.

Lemma step_fire_remove_if_contained h t tm children now st i dl :
  next_timer tm = Some (i, timeout dl (ToastRemoveIfContained t)) ->
  step (Fire h) (in_phase tm children now st)
  = (in_phase (delete i tm) (filter (fun c => c <> t) children) (Z.max now dl) st,
     Return VUndefined).
Proof.
  intros Hn. unfold step. rewrite (fire_in_phase _ _ _ _ _ _ _ Hn eq_refl).
  cbn [callback timeout due]. by rewrite run_remove_if_contained.
Qed.

Lemma step_fire_autohide h t tm children now st i dl :
  next_timer tm = Some (i, timeout dl (ToastAutoHide t)) ->
  step (Fire h) (in_phase tm children now st)
  = (in_phase (delete i tm ++ [timeout (Z.max now dl + 300) (ToastRemoveIfContained t)])
       children (Z.max now dl) (on_page (add_toast_hiding t) st),
     Return VUndefined).
Proof.
  intros Hn. unfold step. rewrite (fire_in_phase _ _ _ _ _ _ _ Hn eq_refl).
  cbn [callback timeout due]. by rewrite run_autohide.
Qed.

(** [H] is a lookup at [j] in a queue written out: go through its timers
    and leave the comparison of deadlines to [lia]. *)
Ltac by_index H j :=
  repeat (destruct j as [|j]; simpl in H; [injection H as <-; simpl; try lia|]); try done.

(** The timer at index [i] of a queue written out fires next. *)
Ltac next_is i :=
  apply (next_timer_spec _ i);
  [ reflexivity
  | let j := fresh "j" in let x := fresh "x" in let Hj := fresh "Hj" in
    intros j x Hj; by_index Hj j
  | let j := fresh "j" in let x := fresh "x" in let Hj := fresh "Hj" in
    let Hlt := fresh "Hlt" in intros j x Hj Hlt; by_index Hj j ].

(** After a step has been rewritten to its result. *)
Ltac stepped := cbv beta iota zeta; cbn [fst snd].

(** What holds of C3, for every page that shows one toast created at [T]
    (its timeout pending, the polling interval due later) and every delay
    [d] below the timeout: after one click on the close button at [T + d]
    the three timers fire without an error and the toast is detached exactly
    once, whether the close timer or the timeout comes first. *)
Lemma close_once_before_timeout st T t P d h now :
  T + 5300 < P -> now <= T + d -> 0 <= d < 5000 ->
  let st0 := in_phase [poll_timer P; timeout (T + 5000) (ToastAutoHide t)] [t] now st in
  let inputs := [ClickToastClose (T + d) t; Fire h; Fire h; Fire h] in
  snd (run inputs st0) = replicate 4 (Return VUndefined)
  /\ detachments t inputs st0 = 1%nat
  /\ toast_children (page (fst (run inputs st0))) = [].
Proof.
  intros HP Hnow Hd st0 inputs. subst st0 inputs.
  assert (t ∈ [t]) as Hin by apply list_elem_of_here.
  assert (filter (fun c => c <> t) [t] = []) as Hgone.
  { by rewrite filter_cons_False by (intros H; by apply H). }
  unfold run, detachments, detaches.
  rewrite (step_click_close t _ [t] now (T + d) st Hin).
  rewrite Z.max_r by lia. stepped. cbn [app].
  destruct (decide (d + 300 < 5000)).
  - rewrite (step_fire_remove h t _ [t] _ _ 2%nat (T + d + 300)); [|next_is 2%nat|done].
    stepped. cbn [delete list_delete]. rewrite Hgone.
    rewrite (step_fire_autohide h t _ [] _ _ 1%nat (T + 5000)); [|next_is 1%nat].
    stepped. cbn [delete list_delete app].
    erewrite (step_fire_remove_if_contained h t _ [] _ _ 1%nat); [|next_is 1%nat].
    stepped. rewrite !contains_in_phase, toast_children_in_phase.
    rewrite !bool_decide_eq_true_2 by done.
    rewrite !bool_decide_eq_false_2 by (by intros ?%elem_of_nil).
    done.
  - rewrite (step_fire_autohide h t _ [t] _ _ 1%nat (T + 5000)); [|next_is 1%nat].
    stepped. cbn [delete list_delete app].
    rewrite (step_fire_remove h t _ [t] _ _ 1%nat (T + d + 300)); [|next_is 1%nat|done].
    stepped. cbn [delete list_delete]. rewrite Hgone.
    erewrite (step_fire_remove_if_contained h t _ [] _ _ 1%nat); [|next_is 1%nat].
    stepped. rewrite !contains_in_phase, toast_children_in_phase.
    rewrite !bool_decide_eq_true_2 by done.
    rewrite !bool_decide_eq_false_2 by (by intros ?%elem_of_nil).
    done.
Qed.

(** And what fails, for every such page and every click on the close button
    during the leaving animation that the timeout has started: the timeout's
    removal detaches the toast, and the removal armed by the click throws. *)
Lemma close_during_leaving_throws st T t P d h now :
  T + 5600 < P -> now <= T + 5000 -> 5000 <= d < 5300 ->
  let st0 := in_phase [poll_timer P; timeout (T + 5000) (ToastAutoHide t)] [t] now st in
  let inputs := [Fire h; ClickToastClose (T + d) t; Fire h; Fire h] in
  snd (run inputs st0)
  = [Return VUndefined; Return VUndefined; Return VUndefined; Throw "NotFoundError"]
  /\ detachments t inputs st0 = 1%nat.
Proof.
  intros HP Hnow Hd st0 inputs. subst st0 inputs.
  assert (t ∈ [t]) as Hin by apply list_elem_of_here.
  assert (filter (fun c => c <> t) [t] = []) as Hgone.
  { by rewrite filter_cons_False by (intros H; by apply H). }
  unfold run, detachments, detaches.
  rewrite (step_fire_autohide h t _ [t] _ _ 1%nat (T + 5000)); [|next_is 1%nat].
  stepped. cbn [delete list_delete app]. rewrite (Z.max_r now) by lia.
  rewrite (step_click_close t _ [t] _ (T + d) _ Hin).
  rewrite Z.max_r by lia. stepped. cbn [app].
  erewrite (step_fire_remove_if_contained h t _ [t] _ _ 1%nat); [|next_is 1%nat].
  stepped. cbn [delete list_delete]. rewrite Hgone.
  erewrite (step_fire_remove_detached h t _ [] _ _ 1%nat);
    [|next_is 1%nat|by intros ?%elem_of_nil].
  stepped. rewrite !contains_in_phase.
  rewrite !bool_decide_eq_true_2 by done.
  rewrite !bool_decide_eq_false_2 by (by intros ?%elem_of_nil).
  done.
Qed.

(** The page of the examples below, once its toast is shown, is such a
    page. *)
Example one_toast_shown :
  let st := fst (step (Fire (Scenario.host_at 1000)) Scenario.one_toast) in
  st = in_phase [poll_timer 30000; timeout (0 + 5000) (ToastAutoHide 0)] [0%nat] 10 st.
Proof. by vm_compute. Qed.

(** What holds of C3.  With no click, the toast is detached once, by the
    timeout's removal at 5300. *)
Example timeout_alone_detaches_once :
  let h := Scenario.host_at 1000 in
  let inputs := [Fire h; Fire h; Fire h] in
  detachments 0 inputs Scenario.one_toast = 1%nat
  /\ snd (run inputs Scenario.one_toast)
     = [Return VUndefined; Return VUndefined; Return VUndefined]
  /\ toast_children (page (fst (run inputs Scenario.one_toast))) = []
  /\ clock (page (fst (run inputs Scenario.one_toast))) = 5300.
Proof. by vm_compute. Qed.

(** With one click on the close button before the timeout, at 1200, the
    toast is detached once, by the close timer at 1500; the timeout's removal
    at 5300 finds it gone and does nothing. *)
Example close_once_then_timeout :
  let h := Scenario.host_at 1000 in
  let inputs := [Fire h; ClickToastClose 1200 0; Fire h; Fire h; Fire h] in
  detachments 0 inputs Scenario.one_toast = 1%nat
  /\ toast_children (page (fst (run (take 3 inputs) Scenario.one_toast))) = []
  /\ snd (run inputs Scenario.one_toast)
     = [Return VUndefined; Return VUndefined; Return VUndefined; Return VUndefined;
        Return VUndefined]
  /\ clock (page (fst (run inputs Scenario.one_toast))) = 5300.
Proof. by vm_compute. Qed.

(** The same with the click as late as the claim allows, at 4999: the
    timeout fires at 5000, the close timer detaches the toast at 5299, the
    timeout's removal at 5300 does nothing. *)
Example close_just_before_timeout :
  let h := Scenario.host_at 1000 in
  let inputs := [Fire h; ClickToastClose 4999 0; Fire h; Fire h; Fire h] in
  detachments 0 inputs Scenario.one_toast = 1%nat
  /\ snd (run inputs Scenario.one_toast)
     = [Return VUndefined; Return VUndefined; Return VUndefined; Return VUndefined;
        Return VUndefined]
  /\ clock (page (fst (run inputs Scenario.one_toast))) = 5300.
Proof. by vm_compute. Qed.

(** C3 fails on the code.  The toast is created at 0 on the page clock.
    The timeout fires at 5000 and starts the leaving animation; the user
    clicks the close button at 5100, while the toast is still in the
    document; the timeout's removal at 5300 detaches the toast; the close
    button's removal at 5400 calls [removeChild] on the detached toast, which
    throws.  The removal of the close button is the only one of the three
    that does not test [contains] first. *)
Theorem close_click_during_leaving_throws :
  let h := Scenario.host_at 1000 in
  let inputs := [Fire h; Fire h; ClickToastClose 5100 0; Fire h; Fire h] in
  toast_children (page (fst (run (take 3 inputs) Scenario.one_toast))) = [0%nat]
  /\ toast_children (page (fst (run (take 4 inputs) Scenario.one_toast))) = []
  /\ detachments 0 inputs Scenario.one_toast = 1%nat
  /\ snd (run inputs Scenario.one_toast)
     = [Return VUndefined; Return VUndefined; Return VUndefined; Return VUndefined;
        Throw "NotFoundError"]
  /\ clock (page (fst (run inputs Scenario.one_toast))) = 5400.
Proof. by vm_compute. Qed.

(** The same defect without the timeout: two clicks on the close button. *)
Example close_clicked_twice_throws :
  let h := Scenario.host_at 1000 in
  snd (run [Fire h; ClickToastClose 100 0; ClickToastClose 200 0; Fire h; Fire h]
         Scenario.one_toast)
  = [Return VUndefined; Return VUndefined; Return VUndefined; Return VUndefined;
     Throw "NotFoundError"].
Proof. by vm_compute. Qed.

(** The removal armed by the close button throws exactly when the toast is
    no longer in the container. *)
Lemma unguarded_removal_throws_iff_detached h t st :
  snd (run_callback h (ToastRemove t) st) = Throw "NotFoundError"
  <-> contains t (page st) = false.
Proof.
  simpl. unfold removeChild. destruct (contains t (page st)); simpl; split; by intros.
Qed.

(** The guarded removals never throw. *)
Lemma guarded_removal_never_throws h t st :
  snd (run_callback h (ToastRemoveIfContained t) st) = Return VUndefined.
Proof.
  simpl. destruct (contains t (page st)) eqn:E; [|done].
  unfold removeChild. by rewrite E.
Qed.

End NotificationsFacts.

(** ** Properties of the conversation store *)

Module MessagingFacts.
Import Messaging Session Spec.

(** *** The relation between the list before and the list after *)

Lemma message_kept_refl m : message_kept m m.
Proof. by repeat split. Qed.

Lemma conversation_kept_refl c : conversation_kept c c.
Proof. repeat split. intros j m Hm. exists m. split; [done|apply message_kept_refl]. Qed.

Lemma message_kept_trans m1 m2 m3 :
  message_kept m1 m2 -> message_kept m2 m3 -> message_kept m1 m3.
Proof. intros (?&?&?&?&?) (?&?&?&?&?). repeat split; try congruence. auto. Qed.

Lemma conversation_kept_trans c1 c2 c3 :
  conversation_kept c1 c2 -> conversation_kept c2 c3 -> conversation_kept c1 c3.
Proof.
  intros (?&?&?&H12) (?&?&?&H23). repeat split; try congruence.
  intros j m Hm. destruct (H12 j m Hm) as (m2 & Hm2 & K12).
  destruct (H23 j m2 Hm2) as (m3 & Hm3 & K23).
  exists m3. split; [done|]. by eapply message_kept_trans.
Qed.

Lemma read_monotone_refl cs : read_monotone cs cs.
Proof. intros i c Hc. exists c. split; [done|apply conversation_kept_refl]. Qed.

Lemma read_monotone_trans cs1 cs2 cs3 :
  read_monotone cs1 cs2 -> read_monotone cs2 cs3 -> read_monotone cs1 cs3.
Proof.
  intros H12 H23 i c Hc. destruct (H12 i c Hc) as (c2 & Hc2 & K12).
  destruct (H23 i c2 Hc2) as (c3 & Hc3 & K23).
  exists c3. split; [done|]. by eapply conversation_kept_trans.
Qed.

Lemma read_monotone_app cs l : read_monotone cs (cs ++ l).
Proof.
  intros i c Hc. exists c. split; [|apply conversation_kept_refl].
  by apply lookup_app_l_Some.
Qed.

Lemma read_monotone_insert (cs : list Conversation) i c c' :
  cs !! i = Some c -> conversation_kept c c' -> read_monotone cs (<[i := c']> cs).
Proof.
  intros Hi Hk k d Hd. destruct (decide (k = i)) as [->|Hne].
  - assert (d = c) as -> by congruence. exists c'. split; [|done].
    apply list_lookup_insert_eq. by eapply lookup_lt_Some.
  - exists d. split; [|apply conversation_kept_refl]. by rewrite list_lookup_insert_ne.
Qed.

Lemma conversation_kept_push m c : conversation_kept c (push_message m c).
Proof.
  repeat split. intros j m0 Hm0. exists m0. split; [|apply message_kept_refl].
  simpl. by apply lookup_app_l_Some.
Qed.

Lemma message_kept_mark u m : message_kept m (mark_if_from_other u m).
Proof. unfold mark_if_from_other. case_decide; by repeat split. Qed.

Lemma conversation_kept_mark u c :
  conversation_kept c (with_messages (mark_if_from_other u <$> c_messages c) c).
Proof.
  repeat split. intros j m Hm. exists (mark_if_from_other u m). split.
  - simpl. by rewrite list_lookup_fmap, Hm.
  - apply message_kept_mark.
Qed.

(** *** What each operation does to the list of conversations *)

Lemma sendMessage_conversations h st :
  conversations (fst (sendMessage h st)) = conversations st
  \/ exists i c m, conversations st !! i = Some c
       /\ conversations (fst (sendMessage h st))
          = <[i := push_message m c]> (conversations st).
Proof.
  unfold sendMessage.
  destruct (chatInput st) as [value|]; [|by left].
  case_decide; [by left|].
  destruct (Notifications.truthy (activeConversationId st)) as [active|]; [|by left].
  destruct (list_find _ (conversations st)) as [[i c]|] eqn:Hf; [|by left].
  destruct (currentUser st) as [u|]; [|by left].
  apply list_find_Some in Hf as (Hi & _ & _).
  right. eexists i, c, _. split; [done|].
  by destruct (displayConversations _).
Qed.

Lemma markMessagesAsRead_conversations conversationId st :
  conversations (fst (markMessagesAsRead conversationId st)) = conversations st
  \/ exists i c u, conversations st !! i = Some c /\ c_id c = conversationId
       /\ currentUser st = Some u
       /\ conversations (fst (markMessagesAsRead conversationId st))
          = <[i := with_messages (mark_if_from_other u <$> c_messages c) c]> (conversations st).
Proof.
  unfold markMessagesAsRead.
  destruct (list_find _ (conversations st)) as [[i c]|] eqn:Hf; [|by left].
  apply list_find_Some in Hf as (Hi & Hid & _).
  destruct (currentUser st) as [u|] eqn:Hu.
  - right. by exists i, c, u.
  - left. by destruct (c_messages c).
Qed.

Lemma createNewConversation_conversations h otherUser book initialMessage st :
  conversations (fst (createNewConversation h otherUser book initialMessage st))
  = conversations st
  \/ exists c, conversations (fst (createNewConversation h otherUser book initialMessage st))
               = conversations st ++ [c].
Proof.
  unfold createNewConversation. destruct (currentUser st); [|by left].
  right. by eexists.
Qed.

Lemma loadConversationMessages_conversations conversationId st :
  conversations (fst (loadConversationMessages conversationId st)) = conversations st
  \/ exists i c u, conversations st !! i = Some c /\ c_id c = conversationId
       /\ currentUser st = Some u
       /\ conversations (fst (loadConversationMessages conversationId st))
          = <[i := with_messages (mark_if_from_other u <$> c_messages c) c]> (conversations st).
Proof.
  unfold loadConversationMessages.
  destruct (list_find _ (conversations st)) as [[i c]|]; [|by left].
  destruct (find_otherUser st c) as [other|]; [|by left].
  destruct (updateChatHeader st other); [|by left].
  destruct (displayMessages st (c_messages c)); [|by left].
  apply markMessagesAsRead_conversations.
Qed.

(** [openWhatsAppChat] changes at most the number of one participant of one
    conversation. *)
Lemma openWhatsAppChat_conversations answer st :
  conversations (fst (openWhatsAppChat answer st)) = conversations st
  \/ exists i c c', conversations st !! i = Some c
       /\ c_id c' = c_id c /\ party_ids c' = party_ids c /\ c_bookId c' = c_bookId c
       /\ c_messages c' = c_messages c
       /\ conversations (fst (openWhatsAppChat answer st)) = <[i := c']> (conversations st).
Proof.
  unfold openWhatsAppChat.
  destruct (Notifications.truthy (activeConversationId st)); [|by left].
  destruct (list_find _ (conversations st)) as [[i c]|] eqn:Hf; [|by left].
  apply list_find_Some in Hf as (Hi & _ & _).
  destruct (find_otherUser st c) as [[[j other]|]|] eqn:Ho; [|by left|by left].
  destruct (Notifications.truthy (p_whatsappNumber other)); [by left|].
  destruct (Notifications.truthy answer) as [w|]; [|by left].
  assert (c_participants c !! j = Some other) as Hj.
  { unfold find_otherUser in Ho. destruct (currentUser st); [|by destruct (c_participants c)].
    injection Ho as Ho. by apply list_find_Some in Ho as (? & _ & _). }
  right.
  exists i, c, (with_participants (<[j := with_whatsappNumber w other]> (c_participants c)) c).
  split; [done|]. split; [done|]. split; [|done].
  unfold party_ids, with_participants. cbn [c_participants].
  rewrite list_fmap_insert. apply list_insert_id.
  by rewrite list_lookup_fmap, Hj.
Qed.

(** [createTestConversations] acts on an empty list only. *)
Lemma createTestConversations_conversations h st :
  conversations (fst (createTestConversations h st)) = conversations st
  \/ exists u, conversations st = [] /\ currentUser st = Some u
       /\ conversations (fst (createTestConversations h st))
          = imap (fun index ub => testConversation h u index (fst ub) (snd ub))
                 (zip testUsers testBooks).
Proof.
  unfold createTestConversations. destruct (conversations st) eqn:E; [|by left].
  destruct (currentUser st) as [u|]; [|left; exact E].
  right. by exists u.
Qed.

Lemma createOrUpdateConversation_conversations h b t s n m (st : BookMessaging.State) :
  let cs := default [] (ls_bookswap_conversations (BookMessaging.localStorage st)) in
  let cs' := default [] (ls_bookswap_conversations (BookMessaging.localStorage
               (fst (BookMessaging.createOrUpdateConversation h b t s n m st)))) in
  cs' = cs
  \/ (exists c, cs' = cs ++ [c])
  \/ (exists i c msg, cs !! i = Some c /\ cs' = <[i := push_message msg c]> cs).
Proof.
  intros cs cs'. subst cs cs'. unfold BookMessaging.createOrUpdateConversation.
  destruct (BookMessaging.currentUser st) as [u|]; [|by left].
  destruct (list_find _ _) as [[i c]|] eqn:Hf; simpl.
  - apply list_find_Some in Hf as (Hi & _ & _). right. right. by eexists i, c, _.
  - right. left. by eexists.
Qed.

(** *** Storage and instance stay in step *)

Lemma synced_load ls st : synced (load ls st).
Proof. done. Qed.

Lemma conversations_load ls st :
  conversations (load ls st) = default [] (ls_bookswap_conversations ls).
Proof. done. Qed.

Lemma synced_listening st st' : synced st -> synced st' -> synced (listening st st').
Proof. unfold listening. by destruct (currentUser st). Qed.

Lemma synced_step op st : synced st -> synced (step op st).
Proof.
  intros Hs. destruct op; unfold step;
    try apply synced_load; try (apply synced_listening; [done|]).
  - by destruct (chatInput st).
  - unfold sendMessage. repeat case_match; done.
  - unfold select_conversation, loadConversationMessages, markMessagesAsRead.
    repeat case_match; done.
  - unfold openWhatsAppChat. repeat case_match; done.
  - unfold markMessagesAsRead. repeat case_match; done.
  - unfold createNewConversation. repeat case_match; done.
  - unfold createTestConversations. repeat case_match; done.
Qed.

Lemma synced_run ops st : synced st -> synced (run ops st).
Proof.
  revert st. induction ops as [|op ops IH]; intros st Hs; [done|].
  apply IH. by apply synced_step.
Qed.

(** The list after a step, against the list before: unchanged; extended
    at the end; one conversation extended at its end; one conversation read
    by the current user; or one conversation with its messages, identifier,
    book and participant identifiers as they were. *)
Lemma step_conversations op st :
  synced st ->
  conversations (step op st) = conversations st
  \/ (exists l, conversations (step op st) = conversations st ++ l)
  \/ (exists i c m, conversations st !! i = Some c
        /\ conversations (step op st) = <[i := push_message m c]> (conversations st))
  \/ (exists i c u, conversations st !! i = Some c /\ currentUser st = Some u
        /\ (op = MarkRead (c_id c) \/ op = Select (c_id c))
        /\ conversations (step op st)
           = <[i := with_messages (mark_if_from_other u <$> c_messages c) c]>
               (conversations st))
  \/ (exists i c c', conversations st !! i = Some c
        /\ c_id c' = c_id c /\ party_ids c' = party_ids c /\ c_bookId c' = c_bookId c
        /\ c_messages c' = c_messages c
        /\ conversations (step op st) = <[i := c']> (conversations st)).
Proof.
  intros Hs. destruct op as [text|h|cid|answer|cid|h o b i|h|h b t s n m| |u|]; unfold step.
  - left. by destruct (chatInput st).
  - unfold listening. destruct (currentUser st); [|by left].
    destruct (sendMessage_conversations h st) as [H|H]; [by left|].
    right. right. by left.
  - unfold listening. destruct (currentUser st) as [cu|] eqn:Hcu; [|by left].
    unfold select_conversation.
    destruct (Notifications.truthy (Some cid)) as [cid'|] eqn:Ht; [|by left].
    assert (cid' = cid) as ->.
    { unfold Notifications.truthy in Ht. destruct cid; by simplify_eq. }
    destruct (loadConversationMessages_conversations cid
                (with_activeConversationId (Some cid) st))
      as [H|(k & c & u & Hk & Hid & Hu & H)]; [by left|].
    right. right. right. left. exists k, c, u. subst cid. simpl in Hu.
    repeat split; auto; congruence.
  - unfold listening. destruct (currentUser st); [|by left].
    destruct (openWhatsAppChat_conversations answer st) as [H|H]; [by left|].
    by do 4 right.
  - destruct (markMessagesAsRead_conversations cid st)
      as [H|(k & c & u & Hk & Hid & Hu & H)]; [by left|].
    right. right. right. left. exists k, c, u. subst cid. by repeat split; auto.
  - destruct (createNewConversation_conversations h o b i st) as [H|[c H]]; [by left|].
    right. left. by exists [c].
  - destruct (createTestConversations_conversations h st) as [H|(u & He & _ & H)]; [by left|].
    right. left. eexists. by rewrite H, He.
  - rewrite conversations_load, Hs.
    destruct (createOrUpdateConversation_conversations h b t s n m
                (BookMessaging.constructor (localStorage st) "browse.html"))
      as [H|[[c H]|H]]; simpl in H.
    + by left.
    + right. left. by exists [c].
    + right. right. by left.
  - left. by rewrite conversations_load, Hs.
  - left. by rewrite conversations_load, Hs.
  - left. by rewrite conversations_load, Hs.
Qed.

Lemma read_monotone_step op st :
  synced st -> read_monotone (conversations st) (conversations (step op st)).
Proof.
  intros Hs.
  destruct (step_conversations op st Hs)
    as [->|[[l ->]|[(i & c & m & Hi & ->)|[(i & c & u & Hi & _ & _ & ->)
        |(i & c & c' & Hi & Hid & Hp & Hb & Hm & ->)]]]].
  - apply read_monotone_refl.
  - apply read_monotone_app.
  - eapply read_monotone_insert; [done|apply conversation_kept_push].
  - eapply read_monotone_insert; [done|apply conversation_kept_mark].
  - eapply read_monotone_insert; [done|]. repeat split; try done.
    intros j m Hj. exists m. split; [by rewrite Hm|apply message_kept_refl].
Qed.

Lemma read_monotone_run ops st :
  synced st -> read_monotone (conversations st) (conversations (run ops st)).
Proof.
  revert st. induction ops as [|op ops IH]; intros st Hs; [apply read_monotone_refl|].
  eapply read_monotone_trans; [by apply (read_monotone_step op)|].
  apply IH. by apply synced_step.
Qed.

(** A lookup [H] in a list updated at [k], read at [i]: either [i] is [k]
    and the lookup gives the new element, or it gives the old one. *)
Ltac lookup_updated H i k :=
  destruct (decide (i = k)) as [->|?];
  [ rewrite list_lookup_insert_eq in H by (by eapply lookup_lt_Some)
  | rewrite list_lookup_insert_ne in H by done; congruence ].

Lemma flips_step op st :
  synced st -> flips_by_reader_other_than_sender op st (step op st).
Proof.
  intros Hs i j c c' m m' Hc Hc' Hm Hm' Hunread Hread.
  destruct (step_conversations op st Hs)
    as [E|[[l E]|[(k & d & msg & Hk & E)|[(k & d & u & Hk & Hu & Hop & E)
        |(k & d & d' & Hk & _ & _ & _ & Hmsgs & E)]]]];
    rewrite E in Hc'.
  - congruence.
  - rewrite (lookup_app_l_Some _ _ _ _ Hc) in Hc'. congruence.
  - lookup_updated Hc' i k.
    assert (d = c) as -> by congruence. injection Hc' as <-.
    simpl in Hm'. rewrite (lookup_app_l_Some _ _ _ _ Hm) in Hm'. congruence.
  - lookup_updated Hc' i k.
    assert (d = c) as -> by congruence. injection Hc' as <-.
    simpl in Hm'. rewrite list_lookup_fmap, Hm in Hm'. injection Hm' as <-.
    exists u. split; [done|]. split; [|done].
    unfold mark_if_from_other in Hread. case_decide; congruence.
  - lookup_updated Hc' i k.
    assert (d = c) as -> by congruence. injection Hc' as <-.
    rewrite Hmsgs in Hm'. congruence.
Qed.

(** *** Read flags only go up *)

(** What holds of the read flags.  From a state in which the instance holds
    what storage holds, along every sequence of operations (typing, sending,
    selecting and reading a conversation, recording a WhatsApp number,
    creating a conversation, seeding the demonstration data, writing from a
    book page, reloading, logging in and out): every message stays at its
    place in its conversation, in the instance and in storage, and once read
    it is read ever after; and a step that turns a [read] flag from false to
    true is a reading of that conversation by the current user, who is not
    the sender of the message. *)
Lemma read_flags_only_go_up (st : State) (ops : list Op) (op : Op) :
  synced st ->
  read_monotone (conversations st) (conversations (run ops st))
  /\ read_monotone (default [] (loadConversationsFromStorage (localStorage st)))
       (default [] (loadConversationsFromStorage (localStorage (run ops st))))
  /\ flips_by_reader_other_than_sender op (run ops st) (step op (run ops st)).
Proof.
  intros Hs. pose proof (synced_run ops st Hs) as Hs'.
  split; [by apply read_monotone_run|]. split.
  - rewrite <- Hs, <- Hs'. by apply read_monotone_run.
  - by apply flips_step.
Qed.

(** The scenario of the specification: Ann writes, Bob opens the thread,
    Ann writes again. *)
Example ann_writes_bob_reads_ann_writes :
  let st := run [Logout; Login Scenario.bob; Select "1000"; Logout; Login Scenario.ann;
                 Select "1000"; TypeText "see you at 3"; Send (Scenario.host_at 2000)]
              Scenario.ann_wrote_to_bob in
  (fun c => (fun m => (m_text m, m_read m)) <$> c_messages c) <$> conversations st
  = [[("is this available?", true); ("see you at 3", false)]].
Proof. by vm_compute. Qed.

(** C9.  [markMessagesAsRead] takes the current user for one of the two
    participants, as [createConversationItem] and [loadConversationMessages]
    do when they look for "the other user", and tests only that the user is
    not the sender.  The list of conversations is the browser's, not the
    user's.  Ann wrote to Bob; Cat logs in on the same browser and opens
    that conversation; Ann's message becomes read, and Cat is not one of the
    two participants, where the claim has only a participant other than the
    sender set the flag. *)
Lemma read_by_a_user_who_is_no_participant :
  let st := Scenario.cat_on_anns_browser in
  let st' := step (Select "1000") st in
  exists c c' m m' u,
    conversations st !! 0%nat = Some c /\ conversations st' !! 0%nat = Some c'
    /\ c_messages c !! 0%nat = Some m /\ c_messages c' !! 0%nat = Some m'
    /\ m_read m = false /\ m_read m' = true
    /\ currentUser st = Some u /\ u_id u ∉ party_ids c.
Proof.
  cbv zeta. eexists _, _, _, _, _.
  repeat (split; [vm_compute; reflexivity|]).
  apply (bool_decide_unpack _). by vm_compute.
Qed.

(** *** One conversation per item and pair *)

Lemma same_item_and_pair_push m c d :
  same_item_and_pair (push_message m c) d <-> same_item_and_pair c d.
Proof. done. Qed.

Lemma same_item_and_pair_sym c d : same_item_and_pair c d -> same_item_and_pair d c.
Proof. intros (?&?&?). by repeat split. Qed.

Lemma identity_kept_by_update (cs : list Conversation) i c c' :
  cs !! i = Some c ->
  c_bookId c' = c_bookId c -> party_ids c' = party_ids c ->
  one_conversation_per_item_and_pair cs ->
  one_conversation_per_item_and_pair (<[i := c']> cs).
Proof.
  intros Hi Hb Hp Hinv.
  assert (forall e, same_item_and_pair c' e <-> same_item_and_pair c e) as Hsame.
  { intros e. unfold same_item_and_pair. by rewrite Hb, Hp. }
  assert (forall k d, <[i := c']> cs !! k = Some d ->
            exists d0, cs !! k = Some d0
                       /\ forall e, same_item_and_pair d e <-> same_item_and_pair d0 e)
    as Hback.
  { intros k d Hd. destruct (decide (k = i)) as [->|Hne].
    - rewrite list_lookup_insert_eq in Hd by (by eapply lookup_lt_Some).
      injection Hd as <-. by exists c.
    - rewrite list_lookup_insert_ne in Hd by done. by exists d. }
  intros k1 k2 d1 d2 H1 H2 Hs.
  destruct (Hback k1 d1 H1) as (e1 & He1 & Heq1).
  destruct (Hback k2 d2 H2) as (e2 & He2 & Heq2).
  apply (Hinv k1 k2 e1 e2 He1 He2).
  apply Heq1. apply same_item_and_pair_sym. apply Heq2. by apply same_item_and_pair_sym.
Qed.

Lemma identity_kept_by_push (cs : list Conversation) i c m :
  cs !! i = Some c ->
  one_conversation_per_item_and_pair cs ->
  one_conversation_per_item_and_pair (<[i := push_message m c]> cs).
Proof. intros Hi. by eapply identity_kept_by_update; [exact Hi|..]. Qed.

(** What [createOrUpdateConversation] does holds the invariant: it looks
    for a conversation about the book with both parties, extends it when
    there is one, and creates one only when there is none. *)
Lemma createOrUpdateConversation_keeps_identity h b t s n m (st : BookMessaging.State) :
  one_conversation_per_item_and_pair
    (default [] (ls_bookswap_conversations (BookMessaging.localStorage st))) ->
  one_conversation_per_item_and_pair
    (default [] (ls_bookswap_conversations (BookMessaging.localStorage
       (fst (BookMessaging.createOrUpdateConversation h b t s n m st))))).
Proof.
  intros Hinv. unfold BookMessaging.createOrUpdateConversation.
  destruct (BookMessaging.currentUser st) as [u|]; [|done]. simpl.
  set (cs := default [] _) in *.
  destruct (list_find _ cs) as [[i c]|] eqn:Hf.
  - apply list_find_Some in Hf as (Hi & _ & _). by apply identity_kept_by_push.
  - pose proof (proj1 (list_find_None _ _) Hf) as Hnone.
    set (new := {| c_id := _ |}).
    assert (forall k d, cs !! k = Some d -> ~ same_item_and_pair d new) as Hfresh.
    { intros k d Hd (Hb & _ & Hp).
      eapply Forall_lookup_1 in Hnone; [|exact Hd]. apply Hnone.
      unfold party_ids, new in Hb, Hp. simpl in Hb, Hp.
      apply Forall_cons_1 in Hp as [Hu Hp]. apply Forall_cons_1 in Hp as [Hs _].
      split; [done|]. split; apply list.Exists_exists.
      - apply list_elem_of_fmap in Hs as (p & Heq & Hin). exists p. split; [exact Hin|congruence].
      - apply list_elem_of_fmap in Hu as (p & Heq & Hin). exists p. split; [exact Hin|congruence]. }
    intros k1 k2 d1 d2 H1 H2 Hsame.
    apply lookup_app_Some in H1 as [H1|[Hl1 H1]];
      apply lookup_app_Some in H2 as [H2|[Hl2 H2]].
    + by apply (Hinv k1 k2 d1 d2).
    + apply list_lookup_singleton_Some in H2 as [_ <-]. by destruct (Hfresh k1 d1 H1).
    + apply list_lookup_singleton_Some in H1 as [_ <-].
      apply same_item_and_pair_sym in Hsame. by destruct (Hfresh k2 d2 H2).
    + apply list_lookup_singleton_Some in H1 as [? _].
      apply list_lookup_singleton_Some in H2 as [? _]. lia.
Qed.

Lemma identity_of_distinct_books (cs : list Conversation) :
  NoDup (c_bookId <$> cs) -> one_conversation_per_item_and_pair cs.
Proof.
  intros Hnd i j c1 c2 H1 H2 (Hb & _).
  eapply NoDup_lookup; [exact Hnd| |].
  - by rewrite list_lookup_fmap, H1.
  - by rewrite list_lookup_fmap, H2, Hb.
Qed.

Lemma identity_of_test_conversations h u :
  one_conversation_per_item_and_pair
    (imap (fun index ub => testConversation h u index (fst ub) (snd ub))
          (zip testUsers testBooks)).
Proof. apply identity_of_distinct_books. simpl. by apply (bool_decide_unpack _). Qed.

(** Every operation of a session but [createNewConversation] holds the
    invariant. *)
Lemma identity_kept_by_step op st :
  synced st -> creates_unconditionally op = false ->
  one_conversation_per_item_and_pair (conversations st) ->
  one_conversation_per_item_and_pair (conversations (step op st)).
Proof.
  intros Hs Hop Hinv. unfold synced, loadConversationsFromStorage in Hs.
  destruct op as [text|h|cid|answer|cid|h o b i|h|h b t s n m| |u|]; try done;
    unfold step, listening.
  - by destruct (chatInput st).
  - destruct (currentUser st) as [cu|]; [|done].
    destruct (sendMessage_conversations h st) as [->|(i & c & m & Hi & ->)]; [done|].
    by apply identity_kept_by_push.
  - destruct (currentUser st) as [cu|]; [|done]. unfold select_conversation.
    destruct (Notifications.truthy (Some cid)) as [cid'|]; [|done].
    destruct (loadConversationMessages_conversations cid'
                (with_activeConversationId (Some cid') st))
      as [->|(k & c & u & Hk & _ & _ & ->)]; [done|].
    by eapply identity_kept_by_update; [exact Hk|..].
  - destruct (currentUser st) as [cu|]; [|done].
    destruct (openWhatsAppChat_conversations answer st)
      as [->|(k & c & c' & Hk & _ & Hp & Hb & _ & ->)]; [done|].
    by eapply identity_kept_by_update; [exact Hk|..].
  - destruct (markMessagesAsRead_conversations cid st)
      as [->|(k & c & u & Hk & _ & _ & ->)]; [done|].
    by eapply identity_kept_by_update; [exact Hk|..].
  - destruct (createTestConversations_conversations h st) as [->|(u & _ & _ & ->)]; [done|].
    apply identity_of_test_conversations.
  - rewrite conversations_load.
    apply (createOrUpdateConversation_keeps_identity h b t s n m
             (BookMessaging.constructor (localStorage st) "browse.html")).
    simpl. by rewrite <- Hs.
  - rewrite conversations_load. by rewrite <- Hs.
  - rewrite conversations_load. simpl. by rewrite <- Hs.
  - rewrite conversations_load. simpl. by rewrite <- Hs.
Qed.

Lemma identity_kept_by_run ops st :
  synced st -> Forall (fun op => creates_unconditionally op = false) ops ->
  one_conversation_per_item_and_pair (conversations st) ->
  one_conversation_per_item_and_pair (conversations (run ops st)).
Proof.
  revert st. induction ops as [|op ops IH]; intros st Hs Hops Hinv; [done|].
  apply Forall_cons_1 in Hops as [Hop Hops].
  apply IH; [by apply synced_step|done|by apply identity_kept_by_step].
Qed.

(** Writing twice from the book's page reuses the conversation: the same
    identifier, two messages. *)
Example book_page_twice_one_conversation :
  let st := run [BookMessage (Scenario.host_at 2000) "book-42" "Calculus" "u2" "Bob"
                   "still there?"] Scenario.ann_wrote_to_bob in
  c_id <$> conversations Scenario.ann_wrote_to_bob = ["1000"]
  /\ c_id <$> conversations st = ["1000"]
  /\ (fun c => length (c_messages c)) <$> conversations st = [2%nat].
Proof. by vm_compute. Qed.

(** C1 fails on [createNewConversation], which looks nothing up.  Ann
    starts a conversation with Bob about book-42, and starts one again: the
    second call returns another identifier, and the list holds two
    conversations about the same item between the same pair. *)
Theorem createNewConversation_twice_duplicates :
  let st0 := Scenario.dashboard (Scenario.storage_of (Some Scenario.ann)) in
  let r1 := createNewConversation (Scenario.host_at 1000) Scenario.bob_as_seller
              Scenario.book_42 "is this available?" st0 in
  let r2 := createNewConversation (Scenario.host_at 2000) Scenario.bob_as_seller
              Scenario.book_42 "is this available?" (fst r1) in
  one_conversation_per_item_and_pair (conversations (fst r1))
  /\ snd r1 = Return (VString "1000")
  /\ snd r2 = Return (VString "2000")
  /\ length (conversations (fst r2)) = 2%nat
  /\ loadConversationsFromStorage (localStorage (fst r2)) = Some (conversations (fst r2))
  /\ ~ one_conversation_per_item_and_pair (conversations (fst r2)).
Proof.
  cbv zeta. split; [|repeat (split; [by vm_compute|])].
  - intros i j c1 c2 H1 H2 _.
    apply lookup_lt_Some in H1. apply lookup_lt_Some in H2.
    vm_compute in H1, H2. lia.
  - intros Hinv.
    assert (0 = 1)%nat as H; [|discriminate H].
    eapply Hinv; [by vm_compute|by vm_compute|].
    apply (bool_decide_unpack _). by vm_compute.
Qed.

(** *** Sending a message *)

(** C6, as the code has it.  [sendMessage] surfaces no failure.  With a
    chat input that is empty after trimming, or with a selected conversation
    that is not in the list, it returns [undefined] and leaves the state as
    it was; with no conversation selected it shows an alert and changes
    nothing else.  Otherwise, with a current user, it puts exactly one
    message at the end of the selected conversation, unread, sent by the
    current user, with the trimmed text and the current time, and writes the
    list to storage. *)
Theorem sendMessage_silent_or_appends (h : Host) (st : State) :
  (forall value,
     chatInput st = Some value -> trim value = "" ->
     sendMessage h st = (st, Return VUndefined))
  /\ (forall value,
        chatInput st = Some value -> trim value <> "" ->
        Notifications.truthy (activeConversationId st) = None ->
        sendMessage h st = (alert "Please select a conversation first." st, Return VUndefined))
  /\ (forall value active,
        chatInput st = Some value -> trim value <> "" ->
        Notifications.truthy (activeConversationId st) = Some active ->
        Forall (fun c => c_id c <> active) (conversations st) ->
        sendMessage h st = (st, Return VUndefined))
  /\ (forall value active i c u,
        chatInput st = Some value -> trim value <> "" ->
        Notifications.truthy (activeConversationId st) = Some active ->
        conversations st !! i = Some c -> c_id c = active ->
        (forall j d, conversations st !! j = Some d -> (j < i)%nat -> c_id d <> active) ->
        currentUser st = Some u ->
        let m := {| m_id := pretty (Date_now h); m_senderId := u_id u;
                    m_text := trim value; m_timestamp := Date_now h; m_read := false |} in
        conversations (fst (sendMessage h st)) = <[i := push_message m c]> (conversations st)
        /\ c_messages (push_message m c) = c_messages c ++ [m]
        /\ loadConversationsFromStorage (localStorage (fst (sendMessage h st)))
           = Some (<[i := push_message m c]> (conversations st))).
Proof.
  split; [|split; [|split]].
  - intros value Hv He. unfold sendMessage. rewrite Hv. by rewrite decide_True.
  - intros value Hv He Ha. unfold sendMessage. rewrite Hv, Ha. by rewrite decide_False.
  - intros value active Hv He Ha Hnone. unfold sendMessage. rewrite Hv, Ha.
    rewrite decide_False by done. by rewrite (proj2 (list_find_None _ _) Hnone).
  - intros value active i c u Hv He Ha Hi Hid Hfirst Hu m.
    assert (list_find (fun c => c_id c = active) (conversations st) = Some (i, c)) as Hf.
    { apply list_find_Some. eauto. }
    unfold sendMessage. rewrite Hv, Ha, Hf, Hu. rewrite decide_False by done.
    by destruct (displayConversations _).
Qed.

Example message_sent :
  let st := fst (sendMessage (Scenario.host_at 2000) Scenario.ready_to_send) in
  (fun c => (fun m => (m_text m, m_timestamp m, m_read m)) <$> c_messages c) <$> conversations st
  = [[("is this available?", 1000, false); ("see you at 3", 2000, false)]]
  /\ loadConversationsFromStorage (localStorage st) = Some (conversations st)
  /\ chatInput st = Some "".
Proof. by vm_compute. Qed.

(** C6, as the claim has it, fails: there is no rejection.  With only
    blanks typed, and with a selected conversation that does not exist, the
    call ends exactly as a successful one does, by returning [undefined]; the
    state is as before, and no alert is shown. *)
Lemma sendMessage_rejects_nothing :
  let h := Scenario.host_at 2000 in
  sendMessage h Scenario.blank_input = (Scenario.blank_input, Return VUndefined)
  /\ sendMessage h Scenario.unknown_conversation
     = (Scenario.unknown_conversation, Return VUndefined)
  /\ snd (sendMessage h Scenario.ready_to_send) = Return VUndefined
  /\ snd (sendMessage h Scenario.unknown_conversation) <> Throw "NotFound"
  /\ snd (sendMessage h Scenario.blank_input) <> Throw "EmptyBody".
Proof. by vm_compute. Qed.

End MessagingFacts.

(** ** Invariants of the notification engine *)

Module NotificationsInvariants.
Import Notifications Invariant NotificationsFacts.

(** *** The badge *)
















(** *** Notifications are kept *)

Lemma notification_kept_refl n : notification_kept n n.
Proof. by repeat split. Qed.

Lemma notification_kept_trans n1 n2 n3 :
  notification_kept n1 n2 -> notification_kept n2 n3 -> notification_kept n1 n3.
Proof.
  intros (?&?&?&?&?&?&?&?) (?&?&?&?&?&?&?&?). repeat split; try congruence; auto.
Qed.

Lemma notifications_kept_refl ns : notifications_kept ns ns.
Proof.
  exists [], ns. split; [done|]. apply Forall2_same_length_lookup_2; [done|].
  intros i n n' H1 H2. assert (n' = n) as -> by congruence. apply notification_kept_refl.
Qed.

Lemma notifications_kept_trans ns1 ns2 ns3 :
  notifications_kept ns1 ns2 -> notifications_kept ns2 ns3 -> notifications_kept ns1 ns3.
Proof.
  intros (a1 & k1 & -> & H1) (a2 & k2 & -> & H2).
  apply Forall2_app_inv_l in H2 as (ka & kb & Ha & Hb & ->).
  exists (a2 ++ ka), kb. split; [by rewrite app_assoc|].
  assert (Transitive notification_kept) as Htrans
    by (intros ???; apply notification_kept_trans).
  by etrans.
Qed.

Lemma notifications_kept_fmap f ns :
  (forall n, notification_kept n (f n)) -> notifications_kept ns (f <$> ns).
Proof.
  intros Hf. exists [], (f <$> ns). split; [done|].
  apply Forall2_fmap_r, Forall2_same_length_lookup_2; [done|].
  intros i n n' H1 H2. assert (n' = n) as -> by congruence. apply Hf.
Qed.

Lemma notifications_kept_insert ns i n n' :
  ns !! i = Some n -> notification_kept n n' -> notifications_kept ns (<[i := n']> ns).
Proof.
  intros Hi Hk. exists [], (<[i := n']> ns). split; [done|].
  apply Forall2_same_length_lookup_2; [by rewrite length_insert|].
  intros j m m' H1 H2. destruct (decide (j = i)) as [->|Hne].
  - rewrite list_lookup_insert_eq in H2 by (by eapply lookup_lt_Some).
    by simplify_eq.
  - rewrite list_lookup_insert_ne in H2 by done.
    assert (m' = m) as -> by congruence. apply notification_kept_refl.
Qed.

Lemma notifications_kept_cons n ns : notifications_kept ns (n :: ns).
Proof.
  exists [n], ns. split; [done|].
  destruct (notifications_kept_refl ns) as (a & k & Heq & H).
  apply Forall2_same_length_lookup_2; [done|].
  intros i m m' H1 H2. assert (m' = m) as -> by congruence. apply notification_kept_refl.
Qed.

Lemma notifications_markAsRead notificationId st :
  notifications (markAsRead notificationId st)
  = match list_find (fun n => n_id n = notificationId) (notifications st) with
    | Some (i, n) => <[i := set_read n]> (notifications st)
    | None => notifications st
    end.
Proof.
  unfold markAsRead. destruct (list_find _ _) as [[i n]|]; [|done].
  by rewrite notifications_renderNotifications, notifications_updateNotificationBadge.
Qed.

Lemma notifications_kept_markAsRead notificationId st :
  notifications_kept (notifications st) (notifications (markAsRead notificationId st)).
Proof.
  rewrite notifications_markAsRead.
  destruct (list_find _ _) as [[i n]|] eqn:Hf; [|apply notifications_kept_refl].
  apply list_find_Some in Hf as (Hi & _).
  eapply notifications_kept_insert; [exact Hi|]. by repeat split.
Qed.

Lemma notifications_handleNotificationClick n st :
  notifications (handleNotificationClick n st) = notifications (markAsRead (n_id n) st).
Proof.
  unfold handleNotificationClick, closeNotificationDropdown.
  repeat case_match; done.
Qed.

Lemma notifications_kept_addNotification h notification st :
  notifications_kept (notifications st)
    (notifications (fst (addNotification h notification st))).
Proof.
  destruct (currentUser st) as [u|] eqn:Hu.
  - rewrite (notifications_addNotification _ _ _ _ Hu). apply notifications_kept_cons.
  - rewrite addNotification_without_user by done. apply notifications_kept_refl.
Qed.

Lemma notifications_kept_step i st :
  notifications_kept (notifications st) (notifications (fst (step i st))).
Proof.
  destruct i as [h|time t|time t| | | |id|n|h n]; unfold step; cbn [fst].
  - unfold fire. destruct (next_timer _) as [[i tm]|]; [|apply notifications_kept_refl].
    match goal with |- notifications_kept _ (notifications (fst (run_callback _ _ ?s))) =>
      change (notifications st) with (notifications s); generalize s end.
    intros s. destruct (callback tm); unfold run_callback; cbn [fst].
    + unfold poll_tick. destruct (currentUser s); [|apply notifications_kept_refl].
      destruct (Qlt_le_dec _ _); [|apply notifications_kept_refl].
      destruct (simulateNewNotification_adds (after_draws 1 h) s) as (h' & n' & -> & _).
      apply notifications_kept_addNotification.
    + apply notifications_kept_refl.
    + apply notifications_kept_refl.
    + destruct (contains t (page s)) eqn:E; [|apply notifications_kept_refl].
      unfold removeChild. rewrite E. apply notifications_kept_refl.
    + unfold removeChild. destruct (contains t (page s)); apply notifications_kept_refl.
  - destruct (contains t (page st)); apply notifications_kept_refl.
  - destruct (contains t (page st)); [|apply notifications_kept_refl]. cbn [fst].
    unfold click_toast. cbn [page on_page with_page toasts with_clock].
    destruct (toasts (page st) !! t); [|apply notifications_kept_refl].
    cbn [notifications on_page with_page].
    rewrite notifications_handleNotificationClick.
    apply (notifications_kept_markAsRead _
             (with_page (with_clock (Z.max (clock (page st)) time) (page st)) st)).
  - unfold click_icon. destruct (widget (page st)) as [w|] eqn:Hw;
      [|apply notifications_kept_refl].
    destruct (onDashboard st); [apply notifications_kept_refl|].
    unfold toggleNotificationDropdown. rewrite Hw.
    destruct (menu_show w); simpl; [apply notifications_kept_refl|].
    rewrite notifications_markNotificationsAsSeen.
    apply notifications_kept_fmap. intros m. by repeat split.
  - unfold click_mark_all_read. destruct (widget (page st)); [|apply notifications_kept_refl].
    rewrite notifications_markAllAsRead.
    apply notifications_kept_fmap. intros m. by repeat split.
  - unfold click_document, closeNotificationDropdown.
    destruct (widget (page st)); apply notifications_kept_refl.
  - apply notifications_kept_markAsRead.
  - rewrite notifications_handleNotificationClick. apply notifications_kept_markAsRead.
  - apply notifications_kept_addNotification.
Qed.

Lemma notifications_kept_run inputs st :
  notifications_kept (notifications st) (notifications (fst (run inputs st))).
Proof.
  revert st. induction inputs as [|i inputs IH]; intros st; [apply notifications_kept_refl|].
  simpl. pose proof (notifications_kept_step i st) as H1.
  destruct (step i st) as [st1 c]. specialize (IH st1).
  destruct (run inputs st1) as [st2 cs]. simpl in *.
  by eapply notifications_kept_trans.
Qed.


Lemma notifications_constructor pg :
  notifications (constructor pg) = default [] (loadNotificationsFromStorage pg).
Proof.
  unfold constructor, initNotificationSystem, startNotificationPolling, addEventListeners.
  cbn [notifications on_page with_page]. rewrite notifications_updateNotificationBadge.
  unfold createNotificationElements. simpl. by repeat case_match.
Qed.

(** No operation of an instance removes, reorders or rewrites a
    notification of its list: after any run of timers, clicks and additions
    the list of the instance is the list it was, behind the notifications
    added since, each notification with its identifier, type, text, time,
    data and link, and with [read] and [seen] set if they were set.  Where
    the instance has the page to itself, the same holds of the stored list
    from its construction on. *)
Lemma one_instance_keeps_notifications :
  (forall inputs st,
     notifications_kept (notifications st) (notifications (fst (run inputs st))))
  /\ (forall pg inputs,
        notifications_kept
          (default [] (loadNotificationsFromStorage pg))
          (default [] (loadNotificationsFromStorage
                         (page (fst (run inputs (constructor pg))))))).
Proof.
  split; [apply notifications_kept_run|].
  intros pg inputs.
  rewrite <- (stored_in_step_run inputs (constructor pg) (stored_in_step_constructor pg)).
  rewrite <- notifications_constructor. apply notifications_kept_run.
Qed.

(** *** Where an exception can come from *)

Lemma timers_updateNotificationBadge st :
  timers (page (updateNotificationBadge st)) = timers (page st).
Proof. unfold updateNotificationBadge. by destruct (widget (page st)). Qed.

Lemma timers_renderNotifications st :
  timers (page (renderNotifications st)) = timers (page st).
Proof.
  unfold renderNotifications. destruct (widget (page st)); [|done].
  by destruct (notifications st).
Qed.

Lemma timers_markAsRead notificationId st :
  timers (page (markAsRead notificationId st)) = timers (page st).
Proof.
  unfold markAsRead. destruct (list_find _ _) as [[i n]|]; [|done].
  by rewrite timers_renderNotifications, timers_updateNotificationBadge.
Qed.

Lemma timers_handleNotificationClick n st :
  timers (page (handleNotificationClick n st)) = timers (page st).
Proof.
  unfold handleNotificationClick, closeNotificationDropdown.
  repeat case_match; simpl; by rewrite ?timers_markAsRead.
Qed.

Lemma timers_addNotification h notification st :
  exists t,
    timers (page (fst (addNotification h notification st))) = timers (page st) ++ t
    /\ no_unguarded_removal t.
Proof.
  unfold addNotification. destruct (currentUser st).
  - eexists. cbn [fst]. unfold showToastNotification, setTimeout.
    cbn [page with_page timers with_timers with_toast_container with_toasts].
    rewrite timers_renderNotifications, timers_updateNotificationBadge. simpl.
    rewrite <- app_assoc. split; [done|]. by repeat constructor.
  - exists []. split; [by rewrite app_nil_r|constructor].
Qed.

Lemma no_unguarded_removal_app t1 t2 :
  no_unguarded_removal t1 -> no_unguarded_removal t2 -> no_unguarded_removal (t1 ++ t2).
Proof. apply Forall_app_2. Qed.

Lemma no_unguarded_removal_step i st :
  is_close_click i = false ->
  no_unguarded_removal (timers (page st)) ->
  no_unguarded_removal (timers (page (fst (step i st))))
  /\ returns (snd (step i st)) = true.
Proof.
  intros Hi H.
  assert (forall h n s, no_unguarded_removal (timers (page s)) ->
            no_unguarded_removal (timers (page (fst (addNotification h n s))))
            /\ returns (snd (addNotification h n s)) = true) as Hadd.
  { intros h n s Hs. split.
    - destruct (timers_addNotification h n s) as (t & -> & Ht).
      by apply no_unguarded_removal_app.
    - unfold addNotification. by destruct (currentUser s). }
  destruct i as [h|time t|time t| | | |id|n|h n]; try done; unfold step; cbn [fst snd].
  - unfold fire. destruct (next_timer _) as [[k tm]|] eqn:Hn; [|done].
    assert (timers (page st) !! k = Some tm) as Hk.
    { unfold next_timer in Hn. destruct (min_due _); [|done].
      by apply list_find_Some in Hn as (? & _). }
    pose proof (proj1 (Forall_lookup _ _) H k tm Hk) as Htm.
    match goal with |- context [run_callback _ _ ?s] =>
      assert (no_unguarded_removal (timers (page s))) as Hs; [|revert Hs; generalize s] end.
    { cbn [page on_page with_page timers with_timers]. destruct (every tm).
      - apply Forall_insert; [done|]. done.
      - by apply Forall_delete. }
    intros s Hs. destruct (callback tm) as [|t|t|t|t] eqn:Hcb; unfold run_callback.
    + split; [|done]. cbn [fst]. unfold poll_tick.
      destruct (currentUser s); [|done]. destruct (Qlt_le_dec _ _); [|done].
      destruct (simulateNewNotification_adds (after_draws 1 h) s) as (h' & n' & -> & _).
      by apply Hadd.
    + by split.
    + split; [|done]. cbn [fst]. unfold setTimeout, add_toast_hiding. simpl.
      apply no_unguarded_removal_app; [done|]. by repeat constructor.
    + destruct (contains t (page s)) eqn:E; [|by split].
      unfold removeChild. rewrite E. by split.
    + by destruct (Htm t).
  - destruct (contains t (page st)); [|by split]. cbn [fst snd]. split; [|done].
    unfold click_toast. cbn [page on_page with_page toasts with_clock].
    destruct (toasts (page st) !! t); [|done].
    unfold setTimeout, add_toast_hiding.
    cbn [page on_page with_page timers with_timers with_toasts].
    rewrite timers_handleNotificationClick. simpl.
    apply no_unguarded_removal_app; [done|]. by repeat constructor.
  - split; [|done]. unfold click_icon, toggleNotificationDropdown, markNotificationsAsSeen.
    repeat case_match; simpl; by rewrite ?timers_updateNotificationBadge.
  - split; [|done]. unfold click_mark_all_read, markAllAsRead.
    repeat case_match; simpl;
      by rewrite ?timers_renderNotifications, ?timers_updateNotificationBadge.
  - split; [|done]. unfold click_document, closeNotificationDropdown. by case_match.
  - split; [|done]. by rewrite timers_markAsRead.
  - split; [|done]. by rewrite timers_handleNotificationClick.
  - by apply Hadd.
Qed.

Lemma no_unguarded_removal_run inputs st :
  Forall (fun i => is_close_click i = false) inputs ->
  no_unguarded_removal (timers (page st)) ->
  Forall (fun c => returns c = true) (snd (run inputs st)).
Proof.
  revert st. induction inputs as [|i inputs IH]; intros st Hi H; [constructor|].
  apply Forall_cons_1 in Hi as [Hi Hinputs].
  destruct (no_unguarded_removal_step i st Hi H) as [H1 Hr].
  simpl. destruct (step i st) as [st1 c]. specialize (IH st1 Hinputs H1).
  destruct (run inputs st1) as [st2 cs]. by constructor.
Qed.

Lemma timers_constructor pg :
  timers (page (constructor pg))
  = timers pg ++ [{| due := clock pg + 30000; callback := PollTick; every := Some 30000 |}].
Proof.
  unfold constructor, initNotificationSystem, startNotificationPolling, addEventListeners,
    setInterval.
  cbn [page on_page with_page timers with_timers clock].
  rewrite timers_updateNotificationBadge.
  unfold createNotificationElements. simpl.
  assert (forall s, clock (page (updateNotificationBadge s)) = clock (page s)) as ->.
  { intros s. unfold updateNotificationBadge. by destruct (widget (page s)). }
  by repeat case_match.
Qed.


(** X3. A page loaded with no unguarded toast removal pending never sees
    an exception as long as the close button of a toast is not used: every
    timer callback and every other listener returns, and so does every call
    of [addNotification]. *)
Theorem only_the_close_button_throws pg inputs :
  no_unguarded_removal (timers pg) ->
  Forall (fun i => is_close_click i = false) inputs ->
  Forall (fun c => returns c = true) (snd (run inputs (constructor pg))).
Proof.
  intros Hpg Hinputs. apply no_unguarded_removal_run; [done|].
  rewrite timers_constructor. apply no_unguarded_removal_app; [done|].
  by repeat constructor.
Qed.

Lemma only_the_close_button_throws_witness :
  let pg := Scenario.fresh_page (Some Scenario.ann) in
  let h := Scenario.host_at 1000 in
  let inputs := [Add h (Scenario.system_note "hi"); ClickToast 2000 0; Fire h; Fire h;
                 Fire h; Fire h] in
  no_unguarded_removal (timers pg)
  /\ Forall (fun i => is_close_click i = false) inputs
  /\ Forall (fun c => returns c = true) (snd (run inputs (constructor pg))).
Proof.
  intros pg h inputs.
  assert (no_unguarded_removal (timers pg)) as H1 by constructor.
  assert (Forall (fun i => is_close_click i = false) inputs) as H2
    by (repeat constructor).
  exact (conj H1 (conj H2 (only_the_close_button_throws pg inputs H1 H2))).
Defined.

(** *** A click on a toast *)

Lemma toasts_updateNotificationBadge st :
  toasts (page (updateNotificationBadge st)) = toasts (page st)
  /\ toast_container (page (updateNotificationBadge st)) = toast_container (page st).
Proof. unfold updateNotificationBadge. by destruct (widget (page st)). Qed.

Lemma toasts_renderNotifications st :
  toasts (page (renderNotifications st)) = toasts (page st)
  /\ toast_container (page (renderNotifications st)) = toast_container (page st).
Proof.
  unfold renderNotifications. destruct (widget (page st)); [|done].
  by destruct (notifications st).
Qed.

(** The toast [addNotification] shows is a new element, the last child of
    the container, and carries the new notification. *)
Lemma new_toast_addNotification h notification st u :
  currentUser st = Some u ->
  let st1 := fst (addNotification h notification st) in
  let t := length (toasts (page st)) in
  toasts (page st1) !! t
  = Some {| toast_notification := newNotification h notification;
            toast_hiding := false; toast_visible := false |}
  /\ contains t (page st1) = true.
Proof.
  intros Hu st1 t.
  assert (toasts (page st1)
          = toasts (page st) ++ [{| toast_notification := newNotification h notification;
                                    toast_hiding := false; toast_visible := false |}]
          /\ toast_container (page st1) = Some (toast_children (page st) ++ [t]))
    as [Ht Hc].
  { unfold st1, addNotification. rewrite Hu. cbn [fst]. unfold showToastNotification.
    cbn [page with_page toasts toast_container setTimeout with_timers with_toasts
         with_toast_container]. unfold toast_children.
    destruct (toasts_renderNotifications
                (updateNotificationBadge
                   (saveNotificationsToStorage
                      (with_notifications (newNotification h notification :: notifications st)
                         st)))) as [-> ->].
    destruct (toasts_updateNotificationBadge
                (saveNotificationsToStorage
                   (with_notifications (newNotification h notification :: notifications st)
                      st))) as [-> ->].
    done. }
  split.
  - rewrite Ht. unfold t. by rewrite lookup_app_r, Nat.sub_diag by done.
  - unfold contains, toast_children. rewrite Hc. apply bool_decide_eq_true.
    apply elem_of_app. right. apply list_elem_of_here.
Qed.

(** A click on a toast that carries the notification at the head of the
    list. *)
Lemma click_toast_of_head time t st new ns el :
  notifications st = new :: ns ->
  toasts (page st) !! t = Some el -> toast_notification el = new ->
  contains t (page st) = true ->
  let st' := fst (step (ClickToast time t) st) in
  notifications st' = set_read new :: ns
  /\ loadNotificationsFromStorage (page st') = Some (set_read new :: ns)
  /\ (forall l, truthy (n_link new) = Some l -> location_href (page st') = l).
Proof.
  intros Hn Ht Hel Hin st'.
  assert (list_find (fun n => n_id n = n_id new) (new :: ns) = Some (0%nat, new)) as Hfind.
  { apply list_find_Some. split; [done|]. split; [done|]. intros j m _ Hj. lia. }
  assert (st' = on_page (fun pg => setTimeout (ToastRemoveIfContained t) 300
                                     (add_toast_hiding t pg))
                  (handleNotificationClick new
                     (on_page (fun pg => with_clock (Z.max (clock pg) time) pg) st))) as ->.
  { unfold st', step. rewrite Hin. cbn [fst]. unfold click_toast.
    cbn [page on_page with_page toasts with_clock]. by rewrite Ht, Hel. }
  set (s := on_page (fun pg => with_clock (Z.max (clock pg) time) pg) st).
  assert (notifications s = new :: ns) as Hs by done.
  assert (markAsRead (n_id new) s
          = renderNotifications (updateNotificationBadge (saveNotificationsToStorage
              (with_notifications (set_read new :: ns) s)))) as Hm.
  { unfold markAsRead. by rewrite Hs, Hfind. }
  split; [|split].
  - cbn [notifications on_page with_page].
    rewrite notifications_handleNotificationClick, Hm.
    by rewrite notifications_renderNotifications, notifications_updateNotificationBadge.
  - assert (loadNotificationsFromStorage (page (markAsRead (n_id new) s))
            = Some (set_read new :: ns)) as Hl.
    { rewrite Hm. unfold loadNotificationsFromStorage.
      by rewrite localStorage_renderNotifications, localStorage_updateNotificationBadge. }
    unfold handleNotificationClick, closeNotificationDropdown.
    repeat case_match; exact Hl.
  - intros l Hl. unfold handleNotificationClick. by rewrite Hl.
Qed.

Lemma truthy_truthy s : truthy (truthy s) = truthy s.
Proof. by destruct s as [[|]|]. Qed.

(** X4. A click on the toast of a notification just added reads that
    notification and nothing else: it was put at the head of the list
    unread, its toast is in the document, and after the click it is read, in
    the list and in storage, the unread count is what it was before the
    addition, and the window goes to the notification's link when it has
    one. *)
Theorem toast_click_reads_its_notification h time notification st u :
  currentUser st = Some u ->
  let new := newNotification h notification in
  let t := length (toasts (page st)) in
  let st1 := fst (addNotification h notification st) in
  let st2 := fst (step (ClickToast time t) st1) in
  notifications st1 = new :: notifications st
  /\ contains t (page st1) = true
  /\ notifications st2 = set_read new :: notifications st
  /\ loadNotificationsFromStorage (page st2) = Some (set_read new :: notifications st)
  /\ getUnreadCount st1 = S (getUnreadCount st)
  /\ getUnreadCount st2 = getUnreadCount st
  /\ (forall l, n_link new = Some l -> location_href (page st2) = l).
Proof.
  intros Hu new t st1 st2.
  assert (notifications st1 = new :: notifications st) as Hn1
    by apply (notifications_addNotification _ _ _ _ Hu).
  destruct (new_toast_addNotification h notification st u Hu) as [Ht Hin].
  destruct (click_toast_of_head time t st1 new (notifications st) _ Hn1 Ht eq_refl Hin)
    as (Hn2 & Hl2 & Hloc).
  fold st2 in Hn2, Hl2, Hloc.
  repeat split; try done.
  - rewrite !getUnreadCount_length, Hn1. by rewrite filter_cons_True.
  - rewrite !getUnreadCount_length, Hn2. by rewrite filter_cons_False by done.
  - intros l Hl. apply Hloc. rewrite Hl. unfold new, newNotification in Hl. simpl in Hl.
    rewrite <- Hl. apply truthy_truthy.
Qed.

Lemma toast_click_reads_its_notification_witness :
  let h := Scenario.host_at 1000 in
  let notification :=
    {| type := MESSAGE; message := "New message from Alice"; data := None;
       link := Some "messages.html" |} in
  let st := Scenario.logged_in in
  let st2 := fst (step (ClickToast 2000 0) (fst (addNotification h notification st))) in
  currentUser st = Some Scenario.ann
  /\ n_read <$> notifications st2 = [true]
  /\ getUnreadCount st2 = 0%nat
  /\ location_href (page st2) = "messages.html".
Proof.
  intros h notification st st2.
  assert (currentUser st = Some Scenario.ann) as Hu by reflexivity.
  destruct (toast_click_reads_its_notification h 2000 notification st Scenario.ann Hu)
    as (_ & _ & Hn & _ & _ & Hc & Hl).
  split; [exact Hu|]. split; [|split].
  - change (n_read <$> notifications st2) with
      (n_read <$> notifications
         (fst (step (ClickToast 2000 (length (toasts (page st))))
                 (fst (addNotification h notification st))))).
    rewrite Hn. reflexivity.
  - exact Hc.
  - apply Hl. reflexivity.
Defined.

(** *** What the dropdown shows after a page load *)

Lemma notification_list_updateNotificationBadge st :
  notification_list <$> widget (page (updateNotificationBadge st))
  = notification_list <$> widget (page st).
Proof.
  unfold updateNotificationBadge.
  destruct (widget (page st)) as [w|] eqn:Hw; simpl; by rewrite ?Hw.
Qed.

Lemma notification_list_constructor pg :
  widget pg = None -> navbar pg = true ->
  notification_list <$> widget (page (constructor pg)) = Some EmptyNotification.
Proof.
  intros Hw Hn.
  unfold constructor, initNotificationSystem, startNotificationPolling, addEventListeners.
  cbn [page on_page with_page widget setInterval with_timers].
  rewrite notification_list_updateNotificationBadge.
  unfold createNotificationElements. simpl. by rewrite Hw, Hn.
Qed.

Lemma notification_list_bell i st :
  i = ClickIcon \/ i = ClickDocument ->
  notification_list <$> widget (page (fst (step i st)))
  = notification_list <$> widget (page st).
Proof.
  intros [->| ->]; unfold step; cbn [fst].
  - unfold click_icon. destruct (widget (page st)) as [w|] eqn:Hw; [|by rewrite Hw].
    destruct (onDashboard st); [simpl; by rewrite Hw|].
    unfold toggleNotificationDropdown. rewrite Hw.
    destruct (menu_show w); simpl; [done|].
    unfold markNotificationsAsSeen. cbn [notifications on_page with_page].
    destruct (notifications st); [done|].
    by rewrite notification_list_updateNotificationBadge.
  - unfold click_document, closeNotificationDropdown.
    destruct (widget (page st)) as [w|] eqn:Hw; [done|by rewrite Hw].
Qed.

(** X5. The dropdown is not rendered when the page is loaded, and opening
    or closing it does not render it either: on a page whose markup the
    constructor creates, after any clicks on the bell and outside the
    dropdown, the list of the dropdown is the "No notifications yet"
    placeholder, whatever notifications storage held at load, and the
    instance holds all of them. *)
Theorem dropdown_is_not_rendered_at_load pg inputs :
  widget pg = None -> navbar pg = true ->
  Forall (fun i => i = ClickIcon \/ i = ClickDocument) inputs ->
  let st := fst (run inputs (constructor pg)) in
  notification_list <$> widget (page st) = Some EmptyNotification
  /\ n_id <$> notifications st = n_id <$> default [] (loadNotificationsFromStorage pg).
Proof.
  intros Hw Hn Hi st.
  assert (forall s,
            notification_list <$> widget (page (fst (run inputs s)))
            = notification_list <$> widget (page s)
            /\ n_id <$> notifications (fst (run inputs s)) = n_id <$> notifications s) as H.
  { induction Hi as [|i inputs Hi _ IH]; intros s; [done|].
    simpl. pose proof (notification_list_bell i s Hi) as H1.
    assert (n_id <$> notifications (fst (step i s)) = n_id <$> notifications s) as H2.
    { destruct Hi as [-> | ->]; unfold step; cbn [fst].
      - unfold click_icon, toggleNotificationDropdown.
        destruct (widget (page s)) as [w|]; [|done].
        destruct (onDashboard s); [done|]. destruct (menu_show w); simpl; [done|].
        rewrite notifications_markNotificationsAsSeen. cbn [notifications on_page with_page].
        rewrite <- list_fmap_compose. done.
      - unfold click_document, closeNotificationDropdown. by case_match. }
    destruct (step i s) as [s1 c]. destruct (IH s1) as [IH1 IH2].
    destruct (run inputs s1) as [s2 cs]. simpl in *. split; congruence. }
  destruct (H (constructor pg)) as [H1 H2]. unfold st. rewrite H1, H2. split.
  - by apply notification_list_constructor.
  - by rewrite notifications_constructor.
Qed.

Lemma dropdown_is_not_rendered_at_load_witness :
  let pg := Cases.page_with_five in
  let inputs := [ClickIcon; ClickDocument; ClickIcon] in
  let st := fst (run inputs (constructor pg)) in
  widget pg = None /\ navbar pg = true
  /\ Forall (fun i => i = ClickIcon \/ i = ClickDocument) inputs
  /\ notification_list <$> widget (page st) = Some EmptyNotification
  /\ n_id <$> notifications st = ["n5"; "n4"; "n3"; "n2"; "n1"].
Proof.
  intros pg inputs st.
  assert (Forall (fun i => i = ClickIcon \/ i = ClickDocument) inputs) as Hi
    by (repeat constructor; auto).
  destruct (dropdown_is_not_rendered_at_load pg inputs eq_refl eq_refl Hi) as [Hl Hn].
  split; [reflexivity|]. split; [reflexivity|]. split; [exact Hi|].
  split; [exact Hl|]. fold st in Hn. rewrite Hn. reflexivity.
Defined.

(** *** The simulated event source *)

Lemma random_index_lt h k len :
  random_in_range h -> (0 < len)%nat -> (random_index h k len < len)%nat.
Proof.
  intros Hr Hlen. destruct (Hr k) as [H0 H1]. unfold random_index.
  set (r := Math_random h k) in *.
  assert (0 <= Qfloor (r * inject_Z (Z.of_nat len)))%Z as Hlo.
  { change 0%Z with (Qfloor 0). apply Qfloor_resp_le.
    apply Qmult_le_0_compat; [done|]. change 0%Q with (inject_Z 0).
    rewrite <- Zle_Qle. lia. }
  assert (Qfloor (r * inject_Z (Z.of_nat len)) < Z.of_nat len)%Z as Hhi.
  { rewrite Zlt_Qlt. eapply Qle_lt_trans; [apply Qfloor_le|].
    rewrite <- (Qmult_1_l (inject_Z (Z.of_nat len))) at 2.
    apply Qmult_lt_compat_r; [|done]. change 0%Q with (inject_Z 0).
    rewrite <- Zlt_Qlt. lia. }
  lia.
Qed.

Lemma simulateNewNotification_logged_in h st u :
  currentUser st = Some u ->
  simulateNewNotification h st
  = (let randomType :=
       at_index notificationTypes (random_index h 0 (length notificationTypes)) in
     (fst (addNotification (after_draws (S (fst (simulated h randomType))) h)
             (snd (simulated h randomType)) st),
      Return VUndefined)).
Proof.
  intros Hu. unfold simulateNewNotification.
  destruct (simulated h _) as [draws notification]. cbn [fst snd].
  unfold addNotification. by rewrite Hu.
Qed.

(** X6. With [Math.random()] in its range, [simulateNewNotification]
    adds, for a logged-in user, exactly one notification; it is unread, its
    type is one of the five of [notificationTypes], and it carries the link
    of its type (none for a system notification), so that a click on it
    never takes the type-specific addresses of [handleNotificationClick].
    The method returns [undefined]: the [true] of [addNotification] is
    dropped. *)
Theorem simulated_notification_has_a_known_type h st u :
  random_in_range h -> currentUser st = Some u ->
  exists n,
    notifications (fst (simulateNewNotification h st)) = n :: notifications st
    /\ n_type n ∈ notificationTypes
    /\ n_read n = false
    /\ n_link n = simulated_link (n_type n)
    /\ snd (simulateNewNotification h st) = Return VUndefined.
Proof.
  intros Hr Hu.
  pose proof (random_index_lt h 0 (length notificationTypes) Hr) as Hlt.
  rewrite (simulateNewNotification_logged_in h st u Hu). cbv zeta. cbn [fst snd].
  eexists. split; [by apply (notifications_addNotification _ _ _ _ Hu)|].
  split; [|split; [done|split; [|done]]].
  - destruct (random_index h 0 (length notificationTypes)) as [|[|[|[|[|k]]]]];
      [..|simpl in Hlt; lia]; by apply (bool_decide_unpack _).
  - destruct (random_index h 0 (length notificationTypes)) as [|[|[|[|[|k]]]]];
      [..|simpl in Hlt; lia]; reflexivity.
Qed.

Lemma simulated_notification_has_a_known_type_witness :
  let h := Scenario.host_at 1000 in
  let st := Scenario.logged_in in
  random_in_range h /\ currentUser st = Some Scenario.ann
  /\ exists n,
       notifications (fst (simulateNewNotification h st)) = n :: notifications st
       /\ n_type n ∈ notificationTypes
       /\ n_read n = false
       /\ n_link n = simulated_link (n_type n)
       /\ snd (simulateNewNotification h st) = Return VUndefined.
Proof.
  intros h st.
  assert (random_in_range h) as Hr by (intros k; split; reflexivity || discriminate).
  assert (currentUser st = Some Scenario.ann) as Hu by reflexivity.
  exact (conj Hr (conj Hu
           (simulated_notification_has_a_known_type h st Scenario.ann Hr Hu))).
Defined.

(** *** The bell on the dashboard *)

Lemma menu_show_updateNotificationBadge st :
  menu_show <$> widget (page (updateNotificationBadge st)) = menu_show <$> widget (page st).
Proof.
  unfold updateNotificationBadge.
  destruct (widget (page st)) as [w|] eqn:Hw; simpl; by rewrite ?Hw.
Qed.

Lemma menu_show_renderNotifications st :
  menu_show <$> widget (page (renderNotifications st)) = menu_show <$> widget (page st).
Proof.
  unfold renderNotifications.
  destruct (widget (page st)) as [w|] eqn:Hw; [|by rewrite Hw].
  destruct (notifications st); simpl; by rewrite ?Hw.
Qed.

Lemma onDashboard_updateNotificationBadge st :
  onDashboard (updateNotificationBadge st) = onDashboard st.
Proof. unfold updateNotificationBadge. by destruct (widget (page st)). Qed.

Lemma onDashboard_renderNotifications st :
  onDashboard (renderNotifications st) = onDashboard st.
Proof.
  unfold renderNotifications. destruct (widget (page st)); [|done].
  by destruct (notifications st).
Qed.

Lemma bell_leads_away_frame st st' :
  onDashboard st' = onDashboard st ->
  Forall (fun n => n_seen n = false) (notifications st') ->
  menu_show <$> widget (page st') = menu_show <$> widget (page st) ->
  bell_leads_away st -> bell_leads_away st'.
Proof.
  intros Hd Hn Hm (H1 & H2 & H3). split; [congruence|]. split; [done|].
  intros w' Hw'. rewrite Hw' in Hm. destruct (widget (page st)) as [w|]; [|done].
  injection Hm as ->. by apply H3.
Qed.

Lemma bell_leads_away_on_page f st :
  (forall pg, menu_show <$> widget (f pg) = menu_show <$> widget pg) ->
  bell_leads_away st -> bell_leads_away (on_page f st).
Proof. intros Hf H. apply (bell_leads_away_frame st); [done|apply H|apply Hf|done]. Qed.

Lemma bell_leads_away_rendered st ns :
  Forall (fun n => n_seen n = false) ns ->
  bell_leads_away st ->
  bell_leads_away (renderNotifications (updateNotificationBadge
                     (saveNotificationsToStorage (with_notifications ns st)))).
Proof.
  intros Hns H. apply (bell_leads_away_frame st); [| | |done].
  - by rewrite onDashboard_renderNotifications, onDashboard_updateNotificationBadge.
  - by rewrite notifications_renderNotifications, notifications_updateNotificationBadge.
  - by rewrite menu_show_renderNotifications, menu_show_updateNotificationBadge.
Qed.

Lemma bell_leads_away_markAsRead notificationId st :
  bell_leads_away st -> bell_leads_away (markAsRead notificationId st).
Proof.
  intros H. unfold markAsRead. destruct (list_find _ _) as [[i n]|] eqn:Hf; [|done].
  apply bell_leads_away_rendered; [|done].
  apply list_find_Some in Hf as (Hi & _).
  destruct H as (_ & H2 & _). apply Forall_insert; [done|].
  by apply (proj1 (Forall_lookup _ _) H2 i n).
Qed.

Lemma bell_leads_away_closeNotificationDropdown st :
  bell_leads_away st -> bell_leads_away (closeNotificationDropdown st).
Proof.
  intros H. unfold closeNotificationDropdown.
  destruct (widget (page st)) as [w|] eqn:Hw; [|done].
  apply (bell_leads_away_frame st); [done|apply H| |done].
  simpl. rewrite Hw. simpl. f_equal. symmetry. by apply H.
Qed.

Lemma bell_leads_away_handleNotificationClick n st :
  bell_leads_away st -> bell_leads_away (handleNotificationClick n st).
Proof.
  intros H. unfold handleNotificationClick.
  pose proof (bell_leads_away_markAsRead (n_id n) st H) as H'.
  repeat case_match;
    first [by apply bell_leads_away_on_page | by apply bell_leads_away_closeNotificationDropdown].
Qed.

Lemma bell_leads_away_addNotification h notification st :
  bell_leads_away st -> bell_leads_away (fst (addNotification h notification st)).
Proof.
  intros H. unfold addNotification. destruct (currentUser st); [|done]. cbn [fst].
  apply (bell_leads_away_frame
           (renderNotifications (updateNotificationBadge (saveNotificationsToStorage
              (with_notifications (newNotification h notification :: notifications st) st)))));
    [done|by rewrite notifications_showToastNotification; apply bell_leads_away_rendered;
          [constructor; [done|apply H]|]
         |done|].
  apply bell_leads_away_rendered; [|done]. constructor; [done|apply H].
Qed.

Lemma bell_leads_away_step i st : bell_leads_away st -> bell_leads_away (fst (step i st)).
Proof.
  intros H. destruct i as [h|time t|time t| | | |id|n|h n]; unfold step; cbn [fst];
    [| | | | |by apply bell_leads_away_closeNotificationDropdown
     |by apply bell_leads_away_markAsRead
     |by apply bell_leads_away_handleNotificationClick
     |by apply bell_leads_away_addNotification].
  - unfold fire. destruct (next_timer _) as [[i tm]|]; [|done].
    match goal with |- bell_leads_away (fst (run_callback _ _ ?s)) =>
      assert (bell_leads_away s) as Hs by (by apply bell_leads_away_on_page); revert Hs;
      generalize s end.
    intros s Hs. destruct (callback tm); unfold run_callback.
    + unfold poll_tick. destruct (currentUser s); [|done].
      destruct (Qlt_le_dec _ _); [|done]. cbn [fst].
      destruct (simulateNewNotification_adds (after_draws 1 h) s) as (h' & n' & -> & _).
      by apply bell_leads_away_addNotification.
    + by apply bell_leads_away_on_page.
    + by apply bell_leads_away_on_page.
    + destruct (contains t (page s)) eqn:E; [|done].
      unfold removeChild. rewrite E. cbn [fst]. by apply (bell_leads_away_on_page _ s).
    + unfold removeChild. destruct (contains t (page s)); cbn [fst].
      * by apply (bell_leads_away_on_page _ s).
      * by destruct s.
  - destruct (contains t (page st)); [|done]. cbn [fst].
    unfold click_toast_close. apply bell_leads_away_on_page; [done|].
    by apply bell_leads_away_on_page.
  - destruct (contains t (page st)); [|done]. cbn [fst].
    unfold click_toast. cbn [page on_page with_page toasts with_clock].
    destruct (toasts (page st) !! t); [|by apply bell_leads_away_on_page].
    apply bell_leads_away_on_page; [done|].
    apply bell_leads_away_handleNotificationClick. by apply bell_leads_away_on_page.
  - unfold click_icon. destruct (widget (page st)); [|done].
    destruct H as (Hd & H2 & H3). rewrite Hd. by apply bell_leads_away_on_page.
  - unfold click_mark_all_read. destruct (widget (page st)); [|done].
    unfold markAllAsRead. destruct (notifications st) as [|n ns] eqn:E; [done|].
    apply bell_leads_away_rendered; [|done]. rewrite <- E.
    apply Forall_fmap. eapply list.Forall_impl; [apply H|]. done.
Qed.

Lemma bell_leads_away_run inputs st :
  bell_leads_away st -> bell_leads_away (fst (run inputs st)).
Proof.
  revert st. induction inputs as [|i inputs IH]; intros st H; [done|].
  simpl. pose proof (bell_leads_away_step i st H) as H1.
  destruct (step i st) as [st1 c]. specialize (IH st1 H1).
  by destruct (run inputs st1).
Qed.

Lemma bell_leads_away_constructor pg :
  includes "dashboard.html" (location_href pg) = true ->
  (forall w, widget pg = Some w -> menu_show w = false) ->
  Forall (fun n => n_seen n = false) (default [] (loadNotificationsFromStorage pg)) ->
  bell_leads_away (constructor pg).
Proof.
  intros Hd Hw Hn. split; [|split].
  - unfold constructor, initNotificationSystem, startNotificationPolling, addEventListeners.
    cbn [onDashboard on_page with_page page].
    assert (forall s, location_href (page (updateNotificationBadge s)) = location_href (page s))
      as ->.
    { intros s. unfold updateNotificationBadge. by destruct (widget (page s)). }
    unfold createNotificationElements. simpl.
    destruct (widget pg); [done|]. by destruct (navbar pg).
  - by rewrite notifications_constructor.
  - unfold constructor, initNotificationSystem, startNotificationPolling, addEventListeners.
    cbn [page on_page with_page widget setInterval with_timers].
    intros w Hw'.
    apply (f_equal (fmap menu_show)) in Hw'.
    rewrite menu_show_updateNotificationBadge in Hw'.
    unfold createNotificationElements in Hw'. cbn [page widget] in Hw'.
    destruct (widget pg) as [w0|] eqn:Hw0.
    + simpl in Hw'. rewrite Hw0 in Hw'. injection Hw' as <-. by apply Hw.
    + destruct (navbar pg); simpl in Hw'; [|by rewrite Hw0 in Hw'].
      by injection Hw' as <-.
Qed.

(** X24. On the dashboard the bell leads to the notifications page and
    never opens the dropdown, so nothing is ever marked as seen there: when
    the page's address holds [dashboard.html] at load, the dropdown is
    closed and no stored notification is seen, then after any run of timers,
    clicks and additions the dropdown is still closed and no notification,
    in the instance or in storage, is seen. *)
Theorem on_the_dashboard_nothing_is_ever_seen pg inputs :
  includes "dashboard.html" (location_href pg) = true ->
  (forall w, widget pg = Some w -> menu_show w = false) ->
  Forall (fun n => n_seen n = false) (default [] (loadNotificationsFromStorage pg)) ->
  let st := fst (run inputs (constructor pg)) in
  Forall (fun n => n_seen n = false) (notifications st)
  /\ Forall (fun n => n_seen n = false) (default [] (loadNotificationsFromStorage (page st)))
  /\ (forall w, widget (page st) = Some w -> menu_show w = false).
Proof.
  intros Hd Hw Hn st.
  assert (bell_leads_away st) as (_ & H2 & H3)
    by (by apply bell_leads_away_run, bell_leads_away_constructor).
  split; [done|]. split; [|done].
  pose proof (stored_in_step_run inputs (constructor pg) (stored_in_step_constructor pg))
    as Hs.
  unfold stored_in_step in Hs. fold st in Hs. by rewrite <- Hs.
Qed.

Lemma on_the_dashboard_nothing_is_ever_seen_witness :
  let pg := with_location_href "dashboard.html#messages" Cases.page_with_five in
  let inputs := [ClickIcon; Add (Scenario.host_at 1000) (Scenario.system_note "hi");
                 ClickIcon; ClickMarkAllRead] in
  let st := fst (run inputs (constructor pg)) in
  includes "dashboard.html" (location_href pg) = true
  /\ length (notifications st) = 6%nat
  /\ Forall (fun n => n_seen n = false) (notifications st)
  /\ location_href (page st) = "notifications.html".
Proof.
  intros pg inputs st.
  assert (forall w, widget pg = Some w -> menu_show w = false) as Hw by (intros w [=]).
  assert (Forall (fun n => n_seen n = false) (default [] (loadNotificationsFromStorage pg)))
    as Hn by (repeat constructor).
  destruct (on_the_dashboard_nothing_is_ever_seen pg inputs eq_refl Hw Hn) as (H & _).
  split; [reflexivity|]. split; [reflexivity|]. split; [exact H|reflexivity].
Defined.

(** *** Reading one notification and the count *)

Lemma unread_after_insert (ns : list Notification) i n :
  ns !! i = Some n ->
  length (filter (fun m => n_read m = false) ns)
  = ((if n_read n then 0 else 1)
     + length (filter (fun m => n_read m = false) (<[i := set_read n]> ns)))%nat.
Proof.
  intros Hi. rewrite <- (take_drop_middle ns i n Hi) at 1.
  rewrite insert_take_drop by (by eapply lookup_lt_Some).
  rewrite !list.filter_app, !length_app, !list.filter_cons. simpl.
  assert (Hs : n_read (set_read n) = true) by done.
  destruct (n_read n) eqn:Hr; repeat case_decide; simpl; try congruence; lia.
Qed.

(** X26. [markAsRead] takes exactly one off the unread count when the
    first notification carrying the id was unread, and leaves the count as
    it was when that notification was read already or no notification
    carries the id. *)
Theorem markAsRead_takes_one_off_the_count notificationId st :
  match list_find (fun n => n_id n = notificationId) (notifications st) with
  | Some (_, n) =>
      getUnreadCount st
      = ((if n_read n then 0 else 1) + getUnreadCount (markAsRead notificationId st))%nat
  | None => getUnreadCount (markAsRead notificationId st) = getUnreadCount st
  end.
Proof.
  destruct (list_find _ _) as [[i n]|] eqn:Hf.
  - rewrite !getUnreadCount_length, notifications_markAsRead, Hf.
    apply unread_after_insert. by apply list_find_Some in Hf as (? & _).
  - unfold markAsRead. by rewrite Hf.
Qed.

End NotificationsInvariants.

(** ** Properties of the relative times and of the notifications page *)

Module NotificationsPageFacts.
Import Notifications NotificationsPage NotificationsFacts.

(** *** Relative times *)

(** X7. [formatTimestamp] by the age [d] of the timestamp in
    milliseconds: "Just now" below one minute, and for every timestamp in
    the future; whole minutes below one hour; whole hours below one day;
    whole days below seven days; the locale's date from seven days on.  The
    unit is in the singular exactly for one minute, one hour, one day. *)
Theorem formatTimestamp_bands toLocaleDateString h timestamp :
  let d := Date_now h - timestamp in
  formatTimestamp toLocaleDateString h timestamp
  = if decide (d < 60000) then "Just now"
    else if decide (d < 3600000)
    then pretty (d / 60000) +:+ " minute" +:+ (if decide (d < 120000) then "" else "s")
         +:+ " ago"
    else if decide (d < 86400000)
    then pretty (d / 3600000) +:+ " hour" +:+ (if decide (d < 7200000) then "" else "s")
         +:+ " ago"
    else if decide (d < 604800000)
    then pretty (d / 86400000) +:+ " day" +:+ (if decide (d < 172800000) then "" else "s")
         +:+ " ago"
    else toLocaleDateString timestamp.
Proof.
  intros d. unfold formatTimestamp. fold d.
  assert (d / 1000 / 60 = d / 60000) as Hmin by (rewrite Z.div_div by lia; done).
  assert (d / 1000 / 60 / 60 = d / 3600000) as Hhour
    by (rewrite !Z.div_div by lia; done).
  assert (d / 1000 / 60 / 60 / 24 = d / 86400000) as Hday
    by (rewrite !Z.div_div by lia; done).
  cbv zeta. rewrite Hday, Hhour, Hmin. unfold plural.
  pose proof (Z.div_mod d 1000 ltac:(lia)) as E1.
  pose proof (Z.mod_pos_bound d 1000 ltac:(lia)) as B1.
  pose proof (Z.div_mod d 60000 ltac:(lia)) as E2.
  pose proof (Z.mod_pos_bound d 60000 ltac:(lia)) as B2.
  pose proof (Z.div_mod d 3600000 ltac:(lia)) as E3.
  pose proof (Z.mod_pos_bound d 3600000 ltac:(lia)) as B3.
  pose proof (Z.div_mod d 86400000 ltac:(lia)) as E4.
  pose proof (Z.mod_pos_bound d 86400000 ltac:(lia)) as B4.
  repeat case_decide; try done; lia.
Qed.

Example formatTimestamp_examples :
  let f := formatTimestamp (fun _ => "1/1/2024") (Scenario.host_at 1000000000) in
  f 1000000001 = "Just now" /\ f 999940001 = "Just now"
  /\ f 999940000 = "1 minute ago" /\ f 999880000 = "2 minutes ago"
  /\ f 996400000 = "1 hour ago" /\ f 913600000 = "1 day ago"
  /\ f 395200001 = "6 days ago" /\ f 395200000 = "1/1/2024".
Proof. by vm_compute. Qed.

(** *** Filters of the notifications page *)

Lemma newest_first_bounds a l :
  Spec.is_newest_first (a :: l) = true ->
  Forall (fun b => n_timestamp b <= n_timestamp a) l.
Proof.
  revert a. induction l as [|b l IH]; intros a H; [constructor|].
  apply is_newest_first_cons in H as [Hab Hl]. specialize (Hab b eq_refl).
  constructor; [done|]. eapply list.Forall_impl; [by apply IH|].
  intros c Hc. simpl in Hc. lia.
Qed.

Lemma sort_insert_bounded x l :
  Forall (fun b => n_timestamp b <= n_timestamp x) l ->
  sort_insert newest_first x l = x :: l.
Proof.
  intros H. apply sort_insert_newest. intros y Hy.
  destruct l as [|b l]; [done|]. injection Hy as ->. by apply Forall_cons_1 in H as [? _].
Qed.

Lemma Forall_filter_list {A} (P Q : A -> Prop) `{!forall x, Decision (P x)} l :
  Forall Q l -> Forall Q (filter P l).
Proof.
  induction 1 as [|x l Hx _ IH]; [constructor|].
  rewrite filter_cons. case_decide; [by constructor|done].
Qed.

Lemma filter_sort_insert (P : Notification -> Prop) `{!forall n, Decision (P n)} x l :
  Spec.is_newest_first l = true ->
  filter P (sort_insert newest_first x l)
  = if decide (P x) then sort_insert newest_first x (filter P l) else filter P l.
Proof.
  induction l as [|y l IH]; intros Hl.
  - simpl. rewrite filter_cons, filter_nil. by case_decide.
  - cbn [sort_insert]. destruct (decide (0 < newest_first x y)) as [Hxy|Hxy].
    + rewrite !(filter_cons _ y), IH by (by apply is_newest_first_cons in Hl as [_ ?]).
      destruct (decide (P x)), (decide (P y)); try done.
      cbn [sort_insert]. by rewrite decide_True by done.
    + rewrite (filter_cons _ x). destruct (decide (P x)) as [HPx|HPx]; [|done].
      rewrite sort_insert_bounded; [done|].
      apply Forall_filter_list. unfold newest_first in Hxy. constructor; [lia|].
      eapply list.Forall_impl; [by apply newest_first_bounds|].
      intros c Hc. simpl in Hc. lia.
Qed.

(** Filtering the sorted list is sorting the filtered list. *)
Lemma filter_Array_sort (P : Notification -> Prop) `{!forall n, Decision (P n)} l :
  filter P (Array_sort newest_first l) = Array_sort newest_first (filter P l).
Proof.
  induction l as [|x l IH]; [done|].
  cbn [Array_sort foldr]. fold (Array_sort newest_first l).
  rewrite filter_sort_insert by apply Array_sort_is_newest_first.
  rewrite filter_cons, IH. by case_decide.
Qed.

Lemma filtered_selected toLocaleDateString h filter n :
  selected filter n ->
  filter_item filter (item_of toLocaleDateString h n)
  = with_style_display "flex" (item_of toLocaleDateString h n).
Proof.
  unfold filter_item, selected. intros [->|[[-> Hr]|(Hall & Hunread & Ht)]].
  - done.
  - simpl. by rewrite Hr.
  - rewrite !decide_False by done. simpl. by rewrite decide_True by done.
Qed.

Lemma filtered_not_selected toLocaleDateString h filter n :
  ~ selected filter n ->
  style_display (filter_item filter (item_of toLocaleDateString h n)) = "none".
Proof.
  unfold filter_item, selected. intros Hn.
  destruct (decide (filter = "all")) as [->|Hall]; [by destruct Hn; left|].
  destruct (decide (filter = "unread")) as [->|Hunread].
  - simpl. destruct (n_read n) eqn:Hr; [done|]. destruct Hn. by right; left.
  - simpl. destruct (decide (n_type n = filter)) as [Ht|Ht]; [|done].
    destruct Hn. by right; right.
Qed.

Lemma shown_filterNotifications toLocaleDateString h filter (l : list Notification) :
  shown (filterNotifications filter (item_of toLocaleDateString h <$> l))
  = with_style_display "flex" ∘ item_of toLocaleDateString h
    <$> base.filter (selected filter) l.
Proof.
  unfold shown, filterNotifications.
  induction l as [|n l IH]; [done|].
  rewrite !fmap_cons, (filter_cons _ n), (filter_cons _ (filter_item _ _)), IH.
  destruct (decide (selected filter n)) as [Hs|Hs].
  - rewrite (filtered_selected _ _ _ _ Hs). by rewrite decide_True by done.
  - rewrite decide_False; [done|]. rewrite (filtered_not_selected _ _ _ _ Hs). by intros [].
Qed.

Lemma shown_filter_generated toLocaleDateString h filter st :
  shown (filterNotifications filter
           (NotificationsPage.generateNotificationsPage toLocaleDateString h st))
  = with_style_display "flex" ∘ item_of toLocaleDateString h
    <$> Array_sort newest_first (base.filter (selected filter) (notifications st)).
Proof.
  unfold NotificationsPage.generateNotificationsPage, Notifications.generateNotificationsPage.
  destruct (notifications st) as [|n ns] eqn:E; [done|].
  by rewrite shown_filterNotifications, filter_Array_sort.
Qed.

(** X8. On the notifications page as [generateNotificationsPage] wrote
    it, a filter leaves on screen exactly the items of the notifications it
    selects (all; the unread ones; those of the type named), one item each,
    newest first, notifications of one time in the order of the list. *)
Theorem filtered_page_lists_the_selected toLocaleDateString h filter st :
  shown (filterNotifications filter
           (NotificationsPage.generateNotificationsPage toLocaleDateString h st))
  = with_style_display "flex" ∘ item_of toLocaleDateString h
    <$> Array_sort newest_first (base.filter (selected filter) (notifications st)).
Proof.
  unfold NotificationsPage.generateNotificationsPage, Notifications.generateNotificationsPage.
  destruct (notifications st) as [|n ns] eqn:E; [done|].
  by rewrite shown_filterNotifications, filter_Array_sort.
Qed.

Example unread_filter_on_five :
  data_id <$> shown (filterNotifications "unread"
                       (NotificationsPage.generateNotificationsPage (fun _ => "")
                          (Scenario.host_at 100) Scenario.three_unread_two_read))
  = ["n5"; "n3"; "n1"].
Proof. reflexivity. Qed.

(** *** The page after its buttons are used *)

Lemma selected_unread (l : list Notification) :
  base.filter (selected "unread") l = base.filter (fun n => n_read n = false) l.
Proof.
  apply list_filter_iff. intros n. unfold selected.
  split; [intros [?|[[_ ?]|(_ & ? & _)]]; done|intros; right; left; done].
Qed.

(** X23. The notifications page is not written again when its "Mark all
    as read" button is used: the instance has no unread notification left,
    but under the "unread" filter the page still shows as many items as
    there were unread notifications when it was generated; a page generated
    anew shows none. *)
Theorem notifications_page_is_not_refreshed toLocaleDateString h st :
  let items := NotificationsPage.generateNotificationsPage toLocaleDateString h st in
  let after := page_step ClickPageMarkAllRead (st, items) in
  getUnreadCount (fst after) = 0%nat
  /\ length (shown (filterNotifications "unread" (snd after))) = getUnreadCount st
  /\ shown (filterNotifications "unread"
              (NotificationsPage.generateNotificationsPage toLocaleDateString h (fst after)))
     = [].
Proof.
  intros items after. cbn [after page_step fst snd].
  split; [|split].
  - by rewrite getUnreadCount_length, notifications_markAllAsRead, filter_unread_set_read.
  - unfold items. rewrite shown_filter_generated.
    rewrite length_fmap, selected_unread, getUnreadCount_length.
    by rewrite (Permutation_length (Array_sort_Permutation _ _)).
  - rewrite shown_filter_generated.
    by rewrite selected_unread, notifications_markAllAsRead, filter_unread_set_read.
Qed.

End NotificationsPageFacts.

(** ** Properties of the sidebar, the chat area and the session *)

Module MessagingViewFacts.
Import Messaging MessagingView Session Spec MessagingFacts.


(** *** The unread indicator *)

Lemma hasUnread_mark u c :
  hasUnread u (with_messages (mark_if_from_other u <$> c_messages c) c) = false.
Proof.
  unfold hasUnread. cbn [c_messages with_messages].
  apply not_true_is_false. intros H. apply existsb_exists in H as (m' & Hin & Hm').
  apply list_elem_of_In, list_elem_of_fmap in Hin as (m & -> & _).
  unfold mark_if_from_other in Hm'. case_decide as Hs.
  - by simpl in Hm'.
  - apply andb_prop in Hm' as [_ Hm']. apply bool_decide_eq_true in Hm'. done.
Qed.

Lemma hasUnread_push u m c :
  m_senderId m = u_id u -> hasUnread u (push_message m c) = hasUnread u c.
Proof.
  intros Hm. unfold hasUnread. cbn [c_messages push_message].
  rewrite existsb_app. simpl. rewrite bool_decide_eq_false_2 by (by intros []).
  by rewrite andb_false_r, !orb_false_r.
Qed.

Lemma markMessagesAsRead_found conversationId st u i c :
  currentUser st = Some u ->
  list_find (fun c => c_id c = conversationId) (conversations st) = Some (i, c) ->
  conversations (fst (markMessagesAsRead conversationId st))
  = <[i := with_messages (mark_if_from_other u <$> c_messages c) c]> (conversations st)
  /\ ls_bookswap_conversations (localStorage (fst (markMessagesAsRead conversationId st)))
     = Some (conversations (fst (markMessagesAsRead conversationId st))).
Proof.
  intros Hu Hf. unfold markMessagesAsRead. rewrite Hf, Hu. done.
Qed.

(** X9. Reading a conversation clears its unread indicator: after
    [markMessagesAsRead] for a logged-in user, the conversation found has no
    unread message from anybody else, so [createConversationItem] shows no
    indicator for it; its messages are as they were but for [read] set on
    those the user did not send, the other conversations are untouched, and
    the list is in storage. *)
Theorem reading_clears_the_unread_indicator conversationId st u i c :
  currentUser st = Some u ->
  list_find (fun c => c_id c = conversationId) (conversations st) = Some (i, c) ->
  let st' := fst (markMessagesAsRead conversationId st) in
  (exists c', conversations st' !! i = Some c'
              /\ hasUnread u c' = false
              /\ c_id c' = conversationId
              /\ Forall2 (fun m m' => m' = m \/ (m_senderId m <> u_id u /\ m' = set_read m))
                         (c_messages c) (c_messages c'))
  /\ (forall j, j <> i -> conversations st' !! j = conversations st !! j)
  /\ ls_bookswap_conversations (localStorage st') = Some (conversations st').
Proof.
  intros Hu Hf st'.
  destruct (markMessagesAsRead_found conversationId st u i c Hu Hf) as [Hc Hs].
  fold st' in Hc, Hs. apply list_find_Some in Hf as (Hi & Hid & _).
  split; [|split; [|done]].
  - exists (with_messages (mark_if_from_other u <$> c_messages c) c).
    split; [rewrite Hc; apply list_lookup_insert_eq; by eapply lookup_lt_Some|].
    split; [apply hasUnread_mark|]. split; [done|].
    cbn [c_messages with_messages]. apply Forall2_fmap_r, Forall2_same_length_lookup_2; [done|].
    intros k m m' H1 H2. assert (m' = m) as -> by congruence.
    unfold mark_if_from_other, compose. case_decide; auto.
  - intros j Hj. rewrite Hc. by apply list_lookup_insert_ne.
Qed.

(** *** The preview after a message is sent *)

Lemma sendMessage_found h st u value active i c :
  chatInput st = Some value -> trim value <> "" ->
  activeConversationId st = Some active -> active <> "" ->
  list_find (fun c => c_id c = active) (conversations st) = Some (i, c) ->
  currentUser st = Some u ->
  conversations (fst (sendMessage h st))
  = <[i := push_message {| m_id := pretty (Date_now h); m_senderId := u_id u;
                           m_text := trim value; m_timestamp := Date_now h;
                           m_read := false |} c]> (conversations st).
Proof.
  intros Hv Ht Ha Hne Hf Hu. unfold sendMessage. rewrite Hv.
  rewrite decide_False by done. rewrite Ha.
  assert (Notifications.truthy (Some active) = Some active) as ->
    by (by destruct active).
  rewrite Hf, Hu. by destruct (displayConversations _).
Qed.

(** X10. After a message is sent, the item of the active conversation in
    the sidebar shows the text sent, trimmed, as its preview; the unread
    indicator is as before, a user's own message never counting as unread
    for that user; and the message is shown as sent.  The other fields of
    the item are those of the first participant other than the user. *)
Theorem sent_message_becomes_the_preview toUpperCase h st u value active i c j p :
  chatInput st = Some value -> trim value <> "" ->
  activeConversationId st = Some active -> active <> "" ->
  list_find (fun c => c_id c = active) (conversations st) = Some (i, c) ->
  currentUser st = Some u ->
  list_find (fun p => p_id p <> u_id u) (c_participants c) = Some (j, p) ->
  exists c',
    conversations (fst (sendMessage h st)) !! i = Some c'
    /\ createConversationItem toUpperCase u c'
       = Some {| dataset_conversationId := active;
                 conversation_avatar := getInitials toUpperCase (p_name p);
                 conversation_name := p_name p;
                 conversation_preview := trim value;
                 unread_indicator := hasUnread u c |}
    /\ (forall m, list.last (c_messages c') = Some m -> isSent u m = true).
Proof.
  intros Hv Ht Ha Hne Hf Hu Hp.
  rewrite (sendMessage_found h st u value active i c Hv Ht Ha Hne Hf Hu).
  apply list_find_Some in Hf as (Hi & Hid & _).
  eexists. split; [apply list_lookup_insert_eq; by eapply lookup_lt_Some|].
  unfold createConversationItem. cbn [c_participants c_messages push_message c_id].
  rewrite Hp, last_snoc. split.
  - rewrite hasUnread_push by done. by rewrite Hid.
  - intros m [= <-]. unfold isSent. by apply bool_decide_eq_true.
Qed.

Lemma reading_clears_the_unread_indicator_witness :
  let st := Cases.bob_on_anns_browser in
  hasUnread Scenario.bob Cases.anns_conversation = true
  /\ exists c', conversations (fst (markMessagesAsRead "1000" st)) !! 0%nat = Some c'
                /\ hasUnread Scenario.bob c' = false.
Proof.
  intros st. split; [reflexivity|].
  destruct (reading_clears_the_unread_indicator "1000" st Scenario.bob 0
              Cases.anns_conversation eq_refl eq_refl) as ((c' & Hc & Hu & _) & _).
  exists c'. split; [exact Hc|exact Hu].
Defined.

Lemma sent_message_becomes_the_preview_witness :
  let st := Scenario.ready_to_send in
  exists c',
    conversations (fst (sendMessage (Scenario.host_at 3000) st)) !! 0%nat = Some c'
    /\ conversation_preview <$> createConversationItem (fun s => s) Scenario.ann c'
       = Some "see you at 3".
Proof.
  intros st.
  destruct (sent_message_becomes_the_preview (fun s => s) (Scenario.host_at 3000) st
              Scenario.ann " see you at 3 " "1000" 0 Cases.anns_conversation 1
              {| p_id := "u2"; p_name := "Bob"; p_whatsappNumber := Some "" |}
              eq_refl ltac:(discriminate) eq_refl ltac:(discriminate) eq_refl eq_refl eq_refl)
    as (c' & Hc & Hitem & _).
  exists c'. split; [exact Hc|]. rewrite Hitem. reflexivity.
Defined.

(** *** Initials *)

Lemma split_chars_cons_free sep a l :
  a <> sep ->
  split_chars sep (a :: l)
  = match split_chars sep l with p :: ps => (a :: p) :: ps | [] => [[a]] end.
Proof. intros H. simpl. by rewrite decide_False. Qed.

Lemma split_chars_sep sep l : split_chars sep (sep :: l) = [] :: split_chars sep l.
Proof. simpl. by rewrite decide_True. Qed.

Lemma split_chars_nonempty sep l : split_chars sep l <> [].
Proof.
  induction l as [|a l IH]; [done|]. simpl. case_decide; [done|].
  by destruct (split_chars sep l).
Qed.

Lemma split_chars_app_free sep p l :
  sep ∉ p ->
  split_chars sep (p ++ l)
  = match split_chars sep l with q :: qs => (p ++ q) :: qs | [] => [p] end.
Proof.
  induction p as [|a p IH]; intros Hp.
  - simpl. destruct (split_chars sep l) eqn:E; [|done]. by apply split_chars_nonempty in E.
  - apply not_elem_of_cons in Hp as [Ha Hp]. cbn [app].
    rewrite split_chars_cons_free by done. rewrite (IH Hp).
    by destruct (split_chars sep l).
Qed.

Lemma split_chars_free sep p : sep ∉ p -> split_chars sep p = [p].
Proof.
  intros Hp. rewrite <- (app_nil_r p) at 1. rewrite split_chars_app_free by done.
  simpl. by rewrite app_nil_r.
Qed.

(** [split] undoes [join] on pieces free of the separator. *)
Lemma split_join_chars sep ps :
  ps <> [] -> Forall (fun p => sep ∉ p) ps -> split_chars sep (join_chars sep ps) = ps.
Proof.
  induction ps as [|p ps IH]; [done|]. intros _ Hps.
  apply Forall_cons_1 in Hps as [Hp Hps].
  destruct ps as [|q ps]; [by apply split_chars_free|].
  change (join_chars sep (p :: q :: ps)) with (p ++ sep :: join_chars sep (q :: ps)).
  rewrite split_chars_app_free by done.
  rewrite split_chars_sep, IH by done. by rewrite app_nil_r.
Qed.

Lemma split_join sep ws :
  ws <> [] -> Forall (fun w => sep ∉ String.list_ascii_of_string w) ws ->
  split sep (join sep ws) = ws.
Proof.
  intros Hne Hws. unfold split, join.
  rewrite String.list_ascii_of_string_of_list_ascii.
  rewrite split_join_chars.
  - rewrite <- list_fmap_compose. rewrite <- (list_fmap_id ws) at 2.
    apply list_fmap_ext. intros i w _. apply String.string_of_list_ascii_of_string.
  - by destruct ws.
  - by apply Forall_fmap.
Qed.

Lemma join_empty sep ws :
  join sep ws = "" -> filter (fun w => w <> "") ws = [].
Proof.
  unfold join. destruct ws as [|w ws]; [done|]. intros H.
  assert (join_chars sep (String.list_ascii_of_string <$> w :: ws) = []) as Hj.
  { rewrite <- (String.list_ascii_of_string_of_list_ascii (join_chars _ _)). by rewrite H. }
  destruct ws as [|w' ws]; simpl in Hj.
  - assert (w = "") as ->.
    { rewrite <- (String.string_of_list_ascii_of_string w). by rewrite Hj. }
    done.
  - by apply app_eq_nil in Hj as [_ ?].
Qed.

(** X11. [getInitials] on a name made of words with single spaces between
    them, some words possibly empty (which is any name, with its leading,
    trailing and repeated spaces): the result depends on the words that are
    not empty only; it is ["?"] when there is none, the first letter of the
    word when there is one, and the first letters of the first and of the
    last word otherwise, in upper case. *)
Theorem getInitials_of_words toUpperCase ws :
  Forall (fun w => space ∉ String.list_ascii_of_string w) ws ->
  getInitials toUpperCase (join space ws)
  = match filter (fun w => w <> "") ws with
    | [] => "?"
    | [w] => toUpperCase (charAt0 w)
    | w :: ws' => toUpperCase (charAt0 w +:+ charAt0 (default "" (list.last ws')))
    end.
Proof.
  intros Hws. unfold getInitials. case_decide as Hname.
  - by rewrite (join_empty _ _ Hname).
  - assert (ws <> []) as Hne by (by intros ->).
    rewrite split_join by done.
    assert (filter (fun part => (0 < String.length part)%nat) ws
            = filter (fun w => w <> "") ws) as ->.
    { apply list_filter_iff. intros w. destruct w; simpl; split; intros; try done; lia. }
    destruct (filter _ ws) as [|w [|w' ws']]; try done.
Qed.

Lemma getInitials_of_words_witness :
  let ws := [""; "alice"; ""; "b."; "smith"; ""] in
  Forall (fun w => space ∉ String.list_ascii_of_string w) ws
  /\ join space ws = " alice  b. smith "
  /\ getInitials (fun s => s) " alice  b. smith " = "as".
Proof.
  intros ws.
  assert (Forall (fun w => space ∉ String.list_ascii_of_string w) ws) as Hws.
  { repeat constructor; by apply (bool_decide_unpack _). }
  split; [exact Hws|]. split; [reflexivity|].
  exact (getInitials_of_words (fun s => s) ws Hws).
Defined.

(** *** The number in a WhatsApp address *)

Lemma chars_formatNumber number :
  String.list_ascii_of_string (formatNumber number)
  = filter (fun a => formatted_out a = false) (String.list_ascii_of_string number).
Proof. unfold formatNumber. apply String.list_ascii_of_string_of_list_ascii. Qed.

Lemma filter_all {A} (P : A -> Prop) `{!forall x, Decision (P x)} l :
  Forall P l -> filter P l = l.
Proof.
  induction 1 as [|x l Hx _ IH]; [done|]. by rewrite filter_cons_True, IH.
Qed.

(** X12. The number put into a WhatsApp address: no white space, dash or
    parenthesis is left in it, the characters kept are in the order they
    had, stripping twice is stripping once, and a number without such
    characters is unchanged. *)
Theorem formatNumber_strips_and_keeps number :
  Forall (fun a => formatted_out a = false) (String.list_ascii_of_string (formatNumber number))
  /\ String.list_ascii_of_string (formatNumber number)
     `sublist_of` String.list_ascii_of_string number
  /\ formatNumber (formatNumber number) = formatNumber number
  /\ (Forall (fun a => formatted_out a = false) (String.list_ascii_of_string number) ->
      formatNumber number = number).
Proof.
  rewrite chars_formatNumber.
  assert (Forall (fun a => formatted_out a = false)
            (filter (fun a => formatted_out a = false)
                    (String.list_ascii_of_string number))) as Hall.
  { apply list.Forall_forall. intros a Ha. by apply list_elem_of_filter in Ha as [? _]. }
  split; [done|]. split; [apply sublist_filter|]. split.
  - unfold formatNumber at 1. rewrite chars_formatNumber.
    by rewrite (filter_all _ _ Hall).
  - intros H. unfold formatNumber. rewrite (filter_all _ _ H).
    apply String.string_of_list_ascii_of_string.
Qed.

Example formatNumber_example : formatNumber "+1 (234) 567-890" = "+1234567890".
Proof. reflexivity. Qed.

(** *** The WhatsApp number of the other participant *)

Lemma truthy_Some s t : Notifications.truthy s = Some t -> s = Some t /\ t <> "".
Proof. destruct s as [[|a s]|]; simpl; intros [= <-]; by split. Qed.

Lemma truthy_of_nonempty t : t <> "" -> Notifications.truthy (Some t) = Some t.
Proof. by destruct t. Qed.

Lemma list_find_insert_same {A} (P : A -> Prop) `{!forall x, Decision (P x)}
    (l : list A) i x y :
  list_find P l = Some (i, x) -> P y -> list_find P (<[i := y]> l) = Some (i, y).
Proof.
  intros Hf Hy. apply list_find_Some in Hf as (Hi & Hx & Hbefore).
  apply list_find_Some. split; [|split; [done|]].
  - apply list_lookup_insert_eq. by eapply lookup_lt_Some.
  - intros j z Hj Hlt. rewrite list_lookup_insert_ne in Hj by lia. by eapply Hbefore.
Qed.

(** X22. The WhatsApp number is asked for once.  When [openWhatsAppChat]
    gets as far as opening a chat, it returns, and from then on the other
    participant has a number on record: a second call opens the same
    address, whatever is answered to a prompt, which is not shown, and
    changes nothing. *)
Theorem whatsapp_number_is_asked_once encodeURIComponent answer answer' st url :
  openWhatsAppChat_opens encodeURIComponent answer st = Some url ->
  let st' := fst (openWhatsAppChat answer st) in
  snd (openWhatsAppChat answer st) = Return VUndefined
  /\ openWhatsAppChat_opens encodeURIComponent answer' st' = Some url
  /\ openWhatsAppChat answer' st' = (st', Return VUndefined).
Proof.
  intros Ho st'. unfold st'. clear st'. revert Ho.
  unfold openWhatsAppChat_opens, openWhatsAppChat.
  destruct (Notifications.truthy (activeConversationId st)) as [active|] eqn:Ha; [|done].
  destruct (list_find _ (conversations st)) as [[i c]|] eqn:Hf; [|done].
  destruct (find_otherUser st c) as [[[j p]|]|] eqn:Hp; [|done|done].
  destruct (Notifications.truthy (p_whatsappNumber p)) as [number|] eqn:Hn.
  - intros [= <-]. cbn [fst snd]. rewrite Ha, Hf, Hp, Hn. done.
  - destruct (Notifications.truthy answer) as [whatsappNumber|] eqn:Hans; [|done].
    intros [= <-]. cbn [fst snd]. split; [done|].
    set (p' := with_whatsappNumber whatsappNumber p).
    set (c' := with_participants (<[j := p']> (c_participants c)) c).
    set (st1 := saveConversationsToStorage
                  (with_conversations (<[i := c']> (conversations st)) st)).
    change (activeConversationId st1) with (activeConversationId st).
    change (conversations st1) with (<[i := c']> (conversations st)).
    rewrite Ha.
    assert (list_find (fun c0 => c_id c0 = active) (<[i := c']> (conversations st))
            = Some (i, c')) as ->.
    { eapply list_find_insert_same; [exact Hf|]. by apply list_find_Some in Hf as (_ & ? & _). }
    assert (find_otherUser st1 c' = Some (Some (j, p'))) as ->.
    { unfold find_otherUser in *. change (currentUser st1) with (currentUser st).
      destruct (currentUser st) as [u|]; [|by destruct (c_participants c)].
      injection Hp as Hp. f_equal. cbn [c_participants c' with_participants].
      eapply list_find_insert_same; [exact Hp|].
      by apply list_find_Some in Hp as (_ & ? & _). }
    apply truthy_Some in Hans as [_ Hne].
    cbn [p_whatsappNumber p' with_whatsappNumber]. rewrite truthy_of_nonempty by done.
    done.
Qed.

Lemma whatsapp_number_is_asked_once_witness :
  let st := Scenario.ready_to_send in
  let url := "https://wa.me/+1234567890?text=Hi, I'm interested in your book: Calculus" in
  let st' := fst (openWhatsAppChat (Some "+1 234 567 890") st) in
  openWhatsAppChat_opens (fun s => s) (Some "+1 234 567 890") st = Some url
  /\ openWhatsAppChat_opens (fun s => s) None st' = Some url
  /\ openWhatsAppChat None st' = (st', Return VUndefined).
Proof.
  intros st url st'.
  destruct (whatsapp_number_is_asked_once (fun s => s) (Some "+1 234 567 890") None st url
              eq_refl) as (_ & H1 & H2).
  split; [reflexivity|]. split; [exact H1|exact H2].
Defined.

(** *** The session *)

(** X13. From a page load on, whatever the user does in the session, the
    list of conversations the instance holds is the stored one: every
    method that changes the list saves it. *)
Theorem instance_and_storage_agree ls st ops :
  conversations (run ops (load ls st))
  = default [] (ls_bookswap_conversations (localStorage (run ops (load ls st)))).
Proof. apply synced_run, synced_load. Qed.

(** X14. When storage holds at most one conversation for each book and
    pair of users at a page load, it still does after any session that does
    not call [createNewConversation]: sending, reading, the WhatsApp
    number, the demonstration data, messages from a book's page, reloads,
    logins and logouts all keep it so. *)
Theorem one_conversation_per_book_and_pair_is_kept ls st ops :
  Forall (fun op => creates_unconditionally op = false) ops ->
  one_conversation_per_item_and_pair (default [] (ls_bookswap_conversations ls)) ->
  one_conversation_per_item_and_pair (conversations (run ops (load ls st))).
Proof.
  intros Hops Hinv. apply identity_kept_by_run; [apply synced_load|done|].
  by rewrite conversations_load.
Qed.

Lemma one_conversation_per_book_and_pair_is_kept_witness :
  let ls := localStorage Scenario.ann_wrote_to_bob in
  let ops := [BookMessage (Scenario.host_at 2000) "book-42" "Calculus" "u2" "Bob" "hello?";
              Logout; Login Scenario.bob; Select "1000"; TypeText "yes"; Send (Scenario.host_at 3000)] in
  let st := run ops (load ls Scenario.ann_wrote_to_bob) in
  Forall (fun op => creates_unconditionally op = false) ops
  /\ one_conversation_per_item_and_pair (default [] (ls_bookswap_conversations ls))
  /\ one_conversation_per_item_and_pair (conversations st)
  /\ (fun c => length (c_messages c)) <$> conversations st = [3%nat].
Proof.
  intros ls ops st.
  assert (Forall (fun op => creates_unconditionally op = false) ops) as Hops
    by (repeat constructor).
  assert (one_conversation_per_item_and_pair (default [] (ls_bookswap_conversations ls)))
    as Hinv.
  { intros i j c1 c2 Hi Hj _. destruct i as [|i], j as [|j]; try done;
      try (by destruct i); by destruct j. }
  split; [exact Hops|]. split; [exact Hinv|]. split; [|reflexivity].
  exact (one_conversation_per_book_and_pair_is_kept ls Scenario.ann_wrote_to_bob ops
           Hops Hinv).
Defined.

(** *** A message from a book's page *)

Lemma total_messages_app cs cs' :
  total_messages (cs ++ cs') = (total_messages cs + total_messages cs')%nat.
Proof. unfold total_messages. by rewrite bind_app, length_app. Qed.

Lemma total_messages_push cs i c m :
  cs !! i = Some c ->
  total_messages (<[i := push_message m c]> cs) = S (total_messages cs).
Proof.
  intros Hi. rewrite <- (take_drop_middle cs i c Hi) at 2.
  rewrite insert_take_drop by (by eapply lookup_lt_Some).
  rewrite !total_messages_app.
  assert (forall d l, total_messages (d :: l)
                      = (length (c_messages d) + total_messages l)%nat) as Hcons.
  { intros d l. unfold total_messages. by rewrite bind_cons, length_app. }
  rewrite !Hcons. simpl. rewrite length_app. simpl. lia.
Qed.

(** X15. A message sent from a book's page by a logged-in user adds
    exactly one message to storage and takes nothing away: every stored
    message is still there, read if it was read; the new message is the last
    one of a conversation about that book between the seller and the user,
    unread and from the user; and the window is sent to the messages of the
    dashboard. *)
Theorem book_page_message_is_one_more_message h b t s n m (st : BookMessaging.State) u :
  BookMessaging.currentUser st = Some u ->
  let cs := default [] (ls_bookswap_conversations (BookMessaging.localStorage st)) in
  let st' := fst (BookMessaging.createOrUpdateConversation h b t s n m st) in
  let cs' := default [] (ls_bookswap_conversations (BookMessaging.localStorage st')) in
  total_messages cs' = S (total_messages cs)
  /\ read_monotone cs cs'
  /\ (exists c, c ∈ cs' /\ c_bookId c = b
                /\ Exists (fun p => p_id p = s) (c_participants c)
                /\ Exists (fun p => p_id p = u_id u) (c_participants c)
                /\ list.last (c_messages c)
                   = Some {| m_id := pretty (Date_now h); m_senderId := u_id u;
                             m_text := m; m_timestamp := Date_now h; m_read := false |})
  /\ BookMessaging.location_href st' = "dashboard.html#messages".
Proof.
  intros Hu cs st' cs'. unfold cs', st', BookMessaging.createOrUpdateConversation.
  rewrite Hu. cbn [fst BookMessaging.localStorage BookMessaging.location_href
                   ls_bookswap_conversations setItem_conversations default].
  fold cs. destruct (list_find _ cs) as [[i c]|] eqn:Hf; unfold id.
  - apply list_find_Some in Hf as (Hi & (Hb & Hs & Hself) & _).
    split; [by apply total_messages_push|].
    split; [eapply read_monotone_insert; [done|apply conversation_kept_push]|].
    split; [|done]. eexists. split.
    { apply list_elem_of_lookup. exists i. apply list_lookup_insert_eq. by eapply lookup_lt_Some. }
    cbn [c_bookId c_participants c_messages push_message]. by rewrite last_snoc.
  - split.
    { rewrite total_messages_app. unfold total_messages at 2. simpl. lia. }
    split; [apply read_monotone_app|]. split; [|done].
    eexists. split; [apply elem_of_app; right; apply list_elem_of_here|].
    cbn [c_bookId c_participants c_messages]. split; [done|].
    split; [apply Exists_cons_tl, Exists_cons_hd; done|].
    split; [by apply Exists_cons_hd|done].
Qed.

Lemma book_page_message_is_one_more_message_witness :
  let bm := BookMessaging.constructor (localStorage Scenario.ann_wrote_to_bob) "browse.html" in
  let st' := fst (BookMessaging.createOrUpdateConversation (Scenario.host_at 2000)
                    "book-42" "Calculus" "u2" "Bob" "hello?" bm) in
  BookMessaging.currentUser bm = Some Scenario.ann
  /\ total_messages (default [] (ls_bookswap_conversations (BookMessaging.localStorage bm)))
     = 1%nat
  /\ total_messages (default [] (ls_bookswap_conversations (BookMessaging.localStorage st')))
     = 2%nat.
Proof.
  intros bm st'. split; [reflexivity|]. split; [reflexivity|].
  destruct (book_page_message_is_one_more_message (Scenario.host_at 2000)
              "book-42" "Calculus" "u2" "Bob" "hello?" bm Scenario.ann eq_refl)
    as (Ht & _).
  exact Ht.
Defined.

End MessagingViewFacts.

(** ** Properties of the message buttons and the modal *)

Module BookPageFacts.
Import BookMessaging BookPage Spec MessagingView.


Lemma parties_differ_insert cs i c c' :
  cs !! i = Some c -> p_id <$> c_participants c' = p_id <$> c_participants c ->
  parties_differ cs -> parties_differ (<[i := c']> cs).
Proof.
  intros Hi Hp H. apply Forall_insert; [done|]. rewrite Hp.
  by apply (proj1 (Forall_lookup _ _) H i c).
Qed.

Lemma createOrUpdateConversation_parties h b t s n m (bm : BookMessaging.State) u :
  currentUser bm = Some u -> s <> u_id u ->
  parties_differ (default [] (ls_bookswap_conversations (localStorage bm))) ->
  parties_differ (default [] (ls_bookswap_conversations (localStorage
                    (fst (createOrUpdateConversation h b t s n m bm)))))
  /\ currentUser (fst (createOrUpdateConversation h b t s n m bm)) = Some u.
Proof.
  intros Hu Hs H. unfold createOrUpdateConversation. rewrite Hu.
  cbn [fst localStorage currentUser ls_bookswap_conversations setItem_conversations default].
  unfold id. split; [|done].
  destruct (list_find _ _) as [[i c]|] eqn:Hf.
  - apply list_find_Some in Hf as (Hi & _ & _). by eapply parties_differ_insert.
  - apply Forall_app_2; [done|]. constructor; [|constructor].
    simpl. apply list.NoDup_cons. split; [|apply NoDup_singleton].
    intros Hin. apply list_elem_of_singleton in Hin. congruence.
Qed.

Lemma book_page_step enc i st :
  modals_for_others st -> parties_differ (stored_conversations st) ->
  modals_for_others (step enc i st) /\ parties_differ (stored_conversations (step enc i st)).
Proof.
  intros Hm Hp. destruct i as [card|h k text checked number|k]; unfold step.
  - unfold click_message_button. destruct (currentUser (messaging st)) as [u|] eqn:Hu.
    + destruct card as [card|]; [|done]. case_decide as Hs; [done|].
      split; [|done]. unfold modals_for_others, showMessageModal. cbn [modals with_modals messaging].
      apply Forall_app_2; [done|]. constructor; [|constructor]. by exists u.
    + split; [|done]. unfold modals_for_others in *. simpl.
      eapply list.Forall_impl; [exact Hm|]. intros md (u & Hu' & _). congruence.
  - unfold click_send. destruct (modals st !! k) as [md|] eqn:Hk; [|done].
    destruct (modal_open md); [|done]. cbn [negb].
    case_decide as Htext; [done|].
    assert (forall s, modals_for_others s -> modals_for_others (closeModal k s)) as Hclose.
    { intros s Hs. unfold modals_for_others, closeModal. cbn [modals with_modals messaging].
      apply Forall_alter; [done|]. by intros md' _ (u' & ? & ?); exists u'. }
    destruct checked.
    + case_decide; [done|]. cbn [fst]. split; [|done]. by apply Hclose.
    + destruct (proj1 (Forall_lookup _ _) Hm k md Hk) as (u & Hu & Hs).
      destruct (createOrUpdateConversation_parties h (modal_bookId md) (modal_bookTitle md)
                  (modal_sellerId md) (modal_sellerName md) (trim text) (messaging st) u
                  Hu Hs Hp) as [Hp' Hu'].
      destruct (createOrUpdateConversation _ _ _ _ _ _ _) as [bm c] eqn:E.
      simpl in Hp', Hu'.
      assert (modals_for_others (with_messaging bm st)) as Hm'.
      { unfold modals_for_others in *. simpl. eapply list.Forall_impl; [exact Hm|].
        intros md' (u' & Hu'' & Hs'). exists u'. split; [congruence|done]. }
      destruct c; cbn [fst]; [|done]. split; [by apply (Hclose (with_messaging bm st))|done].
  - unfold click_close. destruct (modals st !! k) as [md|] eqn:Hk; [|done].
    destruct (modal_open md); [|done]. split; [|done].
    unfold modals_for_others, closeModal. cbn [modals with_modals messaging].
    apply Forall_alter; [done|]. by intros md' _ (u' & ? & ?); exists u'.
Qed.

Lemma book_page_run enc inputs st :
  modals_for_others st -> parties_differ (stored_conversations st) ->
  modals_for_others (run enc inputs st)
  /\ parties_differ (stored_conversations (run enc inputs st)).
Proof.
  revert st. induction inputs as [|i inputs IH]; intros st Hm Hp; [done|].
  destruct (book_page_step enc i st Hm Hp) as [Hm' Hp']. by apply IH.
Qed.

(** X16. Nobody messages themselves from a book's page: on a page loaded
    from a storage in which no conversation has a participant twice, after
    any clicks on message buttons and in the modals, every modal that was
    opened is for a logged-in user and a seller other than that user, and
    still no stored conversation has a participant twice. *)
Theorem nobody_messages_themselves enc ls href inputs :
  parties_differ (default [] (ls_bookswap_conversations ls)) ->
  modals_for_others (run enc inputs (constructor ls href))
  /\ parties_differ (stored_conversations (run enc inputs (constructor ls href))).
Proof.
  intros Hp. apply book_page_run; [constructor|done].
Qed.

Lemma nobody_messages_themselves_witness :
  let ls := Scenario.storage_of (Some Scenario.ann) in
  let inputs := [ClickMessageButton (Some Cases.anns_own_card);
                 ClickMessageButton (Some Cases.bobs_card);
                 ClickSend (Scenario.host_at 1000) 0 "is this available?" false ""] in
  let st := run (fun s => s) inputs (constructor ls "browse.html") in
  parties_differ (default [] (ls_bookswap_conversations ls))
  /\ parties_differ (stored_conversations st)
  /\ alerts st = ["You cannot message yourself."; "Message sent successfully!"]
  /\ c_id <$> stored_conversations st = ["1000"].
Proof.
  intros ls inputs st.
  assert (parties_differ (default [] (ls_bookswap_conversations ls))) as Hp by constructor.
  split; [exact Hp|].
  split; [exact (proj2 (nobody_messages_themselves (fun s => s) ls "browse.html" inputs Hp))|].
  split; reflexivity.
Defined.

(** *** The send button *)


Lemma total_messages_createOrUpdateConversation h b t s n m (bm : BookMessaging.State) u :
  currentUser bm = Some u ->
  total_messages (default [] (ls_bookswap_conversations (localStorage
                    (fst (createOrUpdateConversation h b t s n m bm)))))
  = S (total_messages (default [] (ls_bookswap_conversations (localStorage bm)))).
Proof.
  intros Hu. unfold createOrUpdateConversation. rewrite Hu.
  cbn [fst localStorage ls_bookswap_conversations setItem_conversations default].
  unfold id. destruct (list_find _ _) as [[i c]|] eqn:Hf.
  - apply list_find_Some in Hf as (Hi & _ & _).
    by apply MessagingViewFacts.total_messages_push.
  - rewrite MessagingViewFacts.total_messages_app. unfold total_messages at 2. simpl. lia.
Qed.

(** X17. What a click on the send button of an open modal does.  With
    nothing but white space in the text area, an alert and nothing else.
    With the WhatsApp box checked and no number, an alert and nothing else.
    With the box checked and a number, a chat is opened at the address made
    of the number stripped of white space, dashes and parentheses and of the
    trimmed text; the message is not stored; the modal closes.  With the box
    unchecked, one message more is in storage, the window is sent to the
    dashboard, and the modal closes. *)
Theorem send_click_outcomes enc h k text checked number st md :
  modals st !! k = Some md -> modal_open md = true ->
  let st' := fst (click_send enc h k text checked number st) in
  (trim text = "" ->
   alerts st' = alerts st ++ ["Please enter a message."]
   /\ messaging st' = messaging st /\ modals st' = modals st /\ opened st' = opened st)
  /\ (trim text <> "" -> checked = true -> trim number = "" ->
      alerts st' = alerts st ++ ["Please enter a WhatsApp number."]
      /\ messaging st' = messaging st /\ modals st' = modals st /\ opened st' = opened st)
  /\ (trim text <> "" -> checked = true -> trim number <> "" ->
      alerts st' = alerts st ++ ["Message sent successfully!"]
      /\ messaging st' = messaging st
      /\ modal_open <$> modals st' !! k = Some false
      /\ opened st'
         = opened st ++ ["https://wa.me/" +:+ formatNumber (trim number) +:+ "?text="
                         +:+ enc (trim text)])
  /\ (trim text <> "" -> checked = false ->
      forall u, currentUser (messaging st) = Some u ->
      alerts st' = alerts st ++ ["Message sent successfully!"]
      /\ total_messages (stored_conversations st') = S (total_messages (stored_conversations st))
      /\ location_href (messaging st') = "dashboard.html#messages"
      /\ modal_open <$> modals st' !! k = Some false
      /\ opened st' = opened st).
Proof.
  intros Hk Ho st'. unfold st', click_send. rewrite Hk, Ho. cbn [negb].
  assert (forall s, modals s = modals st ->
            modal_open <$> modals (closeModal k s) !! k = Some false) as Hclose.
  { intros s Hs. unfold closeModal. cbn [modals with_modals].
    rewrite list_lookup_alter_eq, Hs, Hk. reflexivity. }
  split; [|split; [|split]].
  - intros Ht. rewrite decide_True by done. by repeat split.
  - intros Ht -> Hn. rewrite decide_False by done. rewrite decide_True by done.
    by repeat split.
  - intros Ht -> Hn. rewrite !decide_False by done. cbn [fst].
    split; [done|]. split; [done|]. split; [by apply Hclose|done].
  - intros Ht -> u Hu. rewrite decide_False by done.
    pose proof (total_messages_createOrUpdateConversation h (modal_bookId md)
                  (modal_bookTitle md) (modal_sellerId md) (modal_sellerName md)
                  (trim text) (messaging st) u Hu) as Htotal.
    assert (snd (createOrUpdateConversation h (modal_bookId md) (modal_bookTitle md)
                   (modal_sellerId md) (modal_sellerName md) (trim text) (messaging st))
            = Return VUndefined
            /\ location_href (fst (createOrUpdateConversation h (modal_bookId md)
                 (modal_bookTitle md) (modal_sellerId md) (modal_sellerName md) (trim text)
                 (messaging st))) = "dashboard.html#messages") as [Hr Hl].
    { unfold createOrUpdateConversation. by rewrite Hu. }
    destruct (createOrUpdateConversation _ _ _ _ _ _ _) as [bm c]. simpl in *. subst c.
    cbn [fst]. split; [done|]. split; [done|]. split; [done|]. split; [by apply Hclose|done].
Qed.

Lemma send_click_outcomes_witness :
  let st := run (fun s => s) [ClickMessageButton (Some Cases.bobs_card)]
              (constructor (Scenario.storage_of (Some Scenario.ann)) "browse.html") in
  let st' := fst (click_send (fun s => s) (Scenario.host_at 1000) 0 " hi " true
                    " +1 (234) 567-890 " st) in
  modals st !! 0%nat = Some Cases.modal_for_bob
  /\ stored_conversations st' = []
  /\ opened st' = ["https://wa.me/+1234567890?text=hi"]
  /\ alerts st' = ["Message sent successfully!"].
Proof.
  intros st st'. split; [reflexivity|].
  destruct (send_click_outcomes (fun s => s) (Scenario.host_at 1000) 0 " hi " true
              " +1 (234) 567-890 " st Cases.modal_for_bob eq_refl eq_refl)
    as (_ & _ & H & _).
  destruct (H ltac:(discriminate) eq_refl ltac:(discriminate)) as (Ha & Hm & _ & Ho).
  split; [|split].
  - unfold stored_conversations. fold st' in Hm. rewrite Hm. reflexivity.
  - fold st' in Ho. rewrite Ho. reflexivity.
  - fold st' in Ha. rewrite Ha. reflexivity.
Defined.

End BookPageFacts.

(** ** Properties of the transaction manager *)

Module TransactionManagerFacts.
Import TransactionManager.

Section WithOutside.
Context (o : Outside).
Implicit Types (w : Window o) (tm : State o) (saleData : SaleData o).

Lemma truthy_nonempty s : s <> "" -> Notifications.truthy (Some s) = Some s.
Proof. by destruct s. Qed.

Lemma transactionManager_notify h message id w :
  transactionManager (notify o h message id w) = transactionManager w.
Proof. unfold notify. by destruct (notificationSystem w). Qed.

(** Whatever the analytics dashboard does, the transaction is added. *)
Lemma transactionManager_handleBookSold h saleData w :
  transactionManager (fst (handleBookSold h saleData w))
  = addTransaction (createTransaction h saleData (transactionManager w))
                   (transactionManager w).
Proof.
  unfold handleBookSold. cbn zeta.
  destruct (analyticsDashboard _) as [a|]; cbn [fst].
  - cbn [with_transactionManager analyticsDashboard].
    destruct (recordBookSale o _ _ a) as [a' [v|e]]; cbn [fst];
      by rewrite ?transactionManager_notify.
  - by rewrite transactionManager_notify.
Qed.

(** [getUserTransactions] is one filter of the list. *)
Lemma getUserTransactions_listed filter tm u :
  currentUser tm = Some u ->
  getUserTransactions filter tm
  = base.filter (fun t => listed filter (u_id u) t = true) (transactions tm).
Proof.
  intros Hu. unfold getUserTransactions. rewrite Hu. cbv zeta.
  assert (forall (P Q : Transaction o -> Prop) `{!forall t, Decision (P t)}
            `{!forall t, Decision (Q t)} (l : list (Transaction o)),
            base.filter Q (base.filter P l)
            = base.filter (fun t => (bool_decide (P t) && bool_decide (Q t)) = true) l) as H2.
  { intros P Q ?? l. rewrite list_filter_filter. apply list_filter_iff. intros t.
    rewrite andb_true_iff, !bool_decide_eq_true. tauto. }
  unfold listed. repeat case_decide; rewrite ?H2; try done.
  apply list_filter_iff. intros t. rewrite andb_true_r, bool_decide_eq_true. done.
Qed.

(** X18. A book marked as sold by a logged-in user is recorded and
    listed: whatever the analytics dashboard and the notification system do,
    the new transaction is at the head of the list and of the stored list,
    with the user as seller and of type [Sale] unless the event says
    otherwise; and the user's transactions under any filter are those of
    before, with the new one in front when the filter lists it, which "all"
    does, "sales" does for a sale, and "swaps" does for a swap. *)
Theorem sale_is_recorded_and_listed h saleData w u :
  currentUser (transactionManager w) = Some u -> u_id u <> "" ->
  let t := createTransaction h saleData (transactionManager w) in
  let tm := transactionManager w in
  let tm' := transactionManager (fst (handleBookSold h saleData w)) in
  transactions tm' = t :: transactions tm
  /\ ls_bookswap_transactions tm' = Some (t :: transactions tm)
  /\ t_sellerId t = u_id u
  /\ (Notifications.truthy (sd_type o saleData) = None -> t_type t = "Sale")
  /\ (forall filter,
        getUserTransactions filter tm'
        = (if listed filter (u_id u) t then [t] else []) ++ getUserTransactions filter tm)
  /\ listed "all" (u_id u) t = true
  /\ listed "sales" (u_id u) t = bool_decide (t_type t = "Sale")
  /\ listed "swaps" (u_id u) t = bool_decide (t_type t = "Swap").
Proof.
  intros Hu Hid t tm tm'.
  assert (tm' = addTransaction t tm) as -> by apply transactionManager_handleBookSold.
  assert (t_sellerId t = u_id u) as Hs.
  { unfold t, createTransaction. cbn [t_sellerId]. rewrite Hu. simpl.
    unfold or_else. by rewrite truthy_nonempty. }
  split; [done|]. split; [done|]. split; [done|]. split.
  { intros Hty. unfold t, createTransaction, or_else. cbn [t_type]. by rewrite Hty. }
  split.
  { intros filter. rewrite !(getUserTransactions_listed _ _ u) by done.
    cbn [transactions addTransaction saveTransactions]. rewrite filter_cons.
    by destruct (listed filter (u_id u) t). }
  unfold listed. rewrite Hs. rewrite bool_decide_eq_true_2 by (by left).
  repeat split; simpl; apply bool_decide_ext; tauto.
Qed.

(** What [handleBookSold] does to the notification system. *)
Lemma notificationSystem_handleBookSold h saleData w :
  let t := createTransaction h saleData (transactionManager w) in
  let message := "Book " +:+ dquote +:+ bd_title (bookData saleData) +:+ dquote
                 +:+ " marked as sold for $" +:+ price_text o (price saleData) in
  let notified :=
    (fun ns => fst (Notifications.addNotification (after_draws 1 h)
                      {| Notifications.type := "transaction";
                         Notifications.message := message;
                         Notifications.data := Some [("transactionId", t_id t)];
                         Notifications.link := Some "dashboard.html?tab=transactions" |} ns))
    <$> notificationSystem w in
  match analyticsDashboard w with
  | None =>
      notificationSystem (fst (handleBookSold h saleData w)) = notified
      /\ snd (handleBookSold h saleData w) = Return VUndefined
  | Some a =>
      match snd (recordBookSale o (bookData saleData) (price saleData) a) with
      | Return _ =>
          notificationSystem (fst (handleBookSold h saleData w)) = notified
          /\ snd (handleBookSold h saleData w) = Return VUndefined
      | Throw e =>
          notificationSystem (fst (handleBookSold h saleData w)) = notificationSystem w
          /\ snd (handleBookSold h saleData w) = Throw e
      end
  end.
Proof.
  intros t message notified. unfold handleBookSold. cbv zeta.
  cbn [with_transactionManager analyticsDashboard].
  assert (forall w0 : Window o,
            notificationSystem w0 = notificationSystem w ->
            notificationSystem (notify o (after_draws 1 h) message (t_id t) w0) = notified)
    as Hn.
  { intros w0 Hw0. unfold notify, notified. rewrite <- Hw0.
    destruct (notificationSystem w0) eqn:E; [done|exact E]. }
  destruct (analyticsDashboard w) as [a|]; [|split; [by apply Hn|done]].
  destruct (recordBookSale o _ _ a) as [a' [v|e]]; cbn [fst snd]; [|done].
  split; [by apply Hn|done].
Qed.

(** X19. On a page loaded with no stored user, a book marked as sold is
    still recorded in storage, with seller ["unknown"], but it is listed
    under no filter, and the notification system is left as it was: no
    notification is added. *)
Theorem sale_while_logged_out h saleData pg stored a :
  Notifications.getCurrentUser pg = None ->
  let w := load pg stored a in
  let w' := fst (handleBookSold h saleData w) in
  let t := createTransaction h saleData (transactionManager w) in
  ls_bookswap_transactions (transactionManager w') = Some (t :: default [] stored)
  /\ t_sellerId t = "unknown" /\ t_sellerName t = "Unknown User"
  /\ (forall filter, getUserTransactions filter (transactionManager w') = [])
  /\ notificationSystem w' = notificationSystem w.
Proof.
  intros Hu w w' t.
  assert (transactionManager w' = addTransaction t (transactionManager w)) as ->
    by apply transactionManager_handleBookSold.
  split; [done|]. split; [by cbn; rewrite Hu|]. split; [by cbn; rewrite Hu|].
  split; [intros filter; unfold getUserTransactions; by cbn; rewrite Hu|].
  pose proof (notificationSystem_handleBookSold h saleData w) as H. cbv zeta in H.
  assert (forall n,
            (fun ns => fst (Notifications.addNotification (after_draws 1 h) n ns))
              <$> notificationSystem w = notificationSystem w) as Hsame.
  { intros n. cbn [notificationSystem w load fmap option_fmap option_map].
    rewrite NotificationsFacts.addNotification_without_user; [done|].
    by apply NotificationsFacts.constructor_without_stored_user. }
  fold w' in H. destruct (analyticsDashboard w) as [a0|].
  - destruct (snd (recordBookSale o _ _ a0)); destruct H as [-> _]; [apply Hsame|done].
  - destruct H as [-> _]. apply Hsame.
Qed.

(** X20. The notification of a sale.  The transaction is recorded first.
    When the analytics dashboard is absent or its [recordBookSale] returns,
    a notification system that holds a user gets one notification more, at
    the head of its list: unread, of type [transaction], carrying the
    identifier of the transaction just recorded, and a click on it leads to
    the transactions tab of the dashboard.  When [recordBookSale] throws,
    the notification system is left as it was. *)
Theorem sale_notifies_the_seller h saleData w ns u :
  notificationSystem w = Some ns -> Notifications.currentUser ns = Some u ->
  let t := createTransaction h saleData (transactionManager w) in
  let w' := fst (handleBookSold h saleData w) in
  let quiet := match analyticsDashboard w with
               | Some a => Invariant.returns
                             (snd (recordBookSale o (bookData saleData) (price saleData) a))
               | None => true
               end in
  head (transactions (transactionManager w')) = Some t
  /\ (quiet = true ->
      exists ns' n,
        notificationSystem w' = Some ns'
        /\ Notifications.notifications ns' = n :: Notifications.notifications ns
        /\ n_type n = Notifications.TRANSACTION /\ n_read n = false
        /\ n_data n = [("transactionId", t_id t)]
        /\ Notifications.getUnreadCount ns' = S (Notifications.getUnreadCount ns)
        /\ Notifications.location_href
             (Notifications.page (Notifications.handleNotificationClick n ns'))
           = "dashboard.html?tab=transactions")
  /\ (quiet = false -> notificationSystem w' = Some ns).
Proof.
  intros Hns Hu t w' quiet.
  split; [unfold w'; by rewrite transactionManager_handleBookSold|].
  pose proof (notificationSystem_handleBookSold h saleData w) as H. cbv zeta in H.
  fold w' t in H. rewrite Hns in H. cbn [fmap option_fmap option_map] in H.
  unfold quiet. split.
  - intros Hq.
    assert (notificationSystem w'
            = Some (fst (Notifications.addNotification (after_draws 1 h)
                {| Notifications.type := "transaction";
                   Notifications.message :=
                     "Book " +:+ dquote +:+ bd_title (bookData saleData) +:+ dquote
                     +:+ " marked as sold for $" +:+ price_text o (price saleData);
                   Notifications.data := Some [("transactionId", t_id t)];
                   Notifications.link := Some "dashboard.html?tab=transactions" |} ns)))
      as Hw'.
    { destruct (analyticsDashboard w) as [a|]; [|by destruct H].
      destruct (snd (recordBookSale o _ _ a)); [by destruct H|done]. }
    eexists _, _. split; [exact Hw'|].
    split; [by apply (NotificationsFacts.notifications_addNotification _ _ _ _ Hu)|].
    split; [done|]. split; [done|]. split; [done|]. split.
    + rewrite !NotificationsFacts.getUnreadCount_length.
      rewrite (NotificationsFacts.notifications_addNotification _ _ _ _ Hu).
      by rewrite filter_cons_True.
    + unfold Notifications.handleNotificationClick. done.
  - intros Hq. destruct (analyticsDashboard w) as [a|]; [|done].
    destruct (snd (recordBookSale o _ _ a)); [done|]. by destruct H.
Qed.

(** X21. The filters of the transactions table: what a filter lists is
    part of what "all" lists, which is part of the list, in the same order;
    every transaction listed has the user as seller or as buyer; a filter
    other than "sales", "purchases" and "swaps" lists what "all" lists; and
    without a user nothing is listed. *)
Theorem user_transaction_filters filter tm :
  getUserTransactions filter tm `sublist_of` getUserTransactions "all" tm
  /\ getUserTransactions "all" tm `sublist_of` transactions tm
  /\ (forall u, currentUser tm = Some u ->
        Forall (fun t => t_sellerId t = u_id u \/ t_buyerId t = u_id u)
               (getUserTransactions filter tm))
  /\ (filter <> "sales" -> filter <> "purchases" -> filter <> "swaps" ->
      getUserTransactions filter tm = getUserTransactions "all" tm)
  /\ (currentUser tm = None -> getUserTransactions filter tm = []).
Proof.
  unfold getUserTransactions. destruct (currentUser tm) as [u|]; cbv zeta;
    [|repeat split; try done; apply sublist_nil_l].
  rewrite (decide_False (P := "all" = "sales")) by done.
  rewrite (decide_False (P := "all" = "purchases")) by done.
  rewrite (decide_False (P := "all" = "swaps")) by done.
  split; [repeat case_decide; try done; apply sublist_filter|].
  split; [apply sublist_filter|]. split.
  - intros ? [= <-]. apply list.Forall_forall. intros t Ht.
    assert (t ∈ base.filter (fun t => t_sellerId t = u_id u \/ t_buyerId t = u_id u)
                  (transactions tm)) as Hin.
    { repeat case_decide; try done; by apply list_elem_of_filter in Ht as [_ ?]. }
    by apply list_elem_of_filter in Hin as [? _].
  - split; [|done]. intros. by rewrite !decide_False by done.
Qed.

(** X25. A simulated purchase by a logged-in user is recorded and listed
    as a purchase: the new transaction is at the head of the list and of the
    stored list, a sale with the user as buyer and the seller the book
    names (["other-user"] when it names none); "all" and "purchases" list it
    in front of what they listed, "swaps" does not list it, and "sales"
    lists it only when the user is the seller as well. *)
Theorem purchase_is_recorded_and_listed h book amount w u :
  currentUser (transactionManager w) = Some u -> u_id u <> "" ->
  let tm := transactionManager w in
  let tm' := transactionManager (fst (simulateBookPurchase h book amount w)) in
  exists t,
    transactions tm' = t :: transactions tm
    /\ ls_bookswap_transactions tm' = Some (t :: transactions tm)
    /\ t_buyerId t = u_id u /\ t_type t = "Sale"
    /\ t_sellerId t = default "other-user" (Notifications.truthy (bd_sellerId book))
    /\ (forall filter,
          getUserTransactions filter tm'
          = (if listed filter (u_id u) t then [t] else []) ++ getUserTransactions filter tm)
    /\ listed "all" (u_id u) t = true
    /\ listed "purchases" (u_id u) t = true
    /\ listed "swaps" (u_id u) t = false
    /\ listed "sales" (u_id u) t = bool_decide (t_sellerId t = u_id u).
Proof.
  intros Hu Hid tm tm'.
  set (t := {| t_id := generateTransactionId h; t_date := Date_now h;
               t_bookId := bd_id book; t_bookTitle := bd_title book;
               t_bookAuthor := bd_author book; t_type := "Sale";
               t_sellerId := or_else (bd_sellerId book) "other-user";
               t_sellerName := or_else (bd_sellerName book) "Other User";
               t_buyerId := or_else (u_id <$> currentUser tm) "unknown";
               t_buyerName := or_else (u_name <$> currentUser tm) "Unknown User";
               t_amount := amount; t_status := "Completed"; t_paymentMethod := "PayPal";
               t_meetingLocation := "Library"; t_notes := "Demo transaction" |}
         : Transaction o).
  assert (tm' = addTransaction t tm) as ->.
  { unfold tm', simulateBookPurchase. cbv zeta. fold tm t.
    destruct (analyticsDashboard _) as [a|]; cbn [fst].
    - cbn [with_transactionManager analyticsDashboard].
      destruct (recordBookPurchase o _ _ a) as [a' [v|e]]; cbn [fst];
        by rewrite ?transactionManager_notify.
    - by rewrite transactionManager_notify. }
  assert (t_buyerId t = u_id u) as Hb.
  { unfold t. cbn [t_buyerId]. unfold tm. rewrite Hu. simpl.
    unfold or_else. by rewrite truthy_nonempty. }
  exists t. split; [done|]. split; [done|]. split; [done|]. split; [done|].
  split; [done|]. split.
  { intros filter. rewrite !(getUserTransactions_listed _ _ u) by done.
    cbn [transactions addTransaction saveTransactions]. rewrite filter_cons.
    by destruct (listed filter (u_id u) t). }
  unfold listed. rewrite Hb. rewrite bool_decide_eq_true_2 by (by right).
  repeat split; simpl.
  - by apply bool_decide_eq_true_2.
  - apply bool_decide_ext. tauto.
Qed.

End WithOutside.

Lemma purchase_is_recorded_and_listed_witness :
  let w := Cases.anns_window in
  let tm' := transactionManager
               (fst (simulateBookPurchase (o := Cases.outside) (Scenario.host_at 1000)
                       (bookData Cases.calculus_sold) 30 w)) in
  currentUser (transactionManager w) = Some Scenario.ann
  /\ exists t, getUserTransactions "purchases" tm' = [t]
               /\ t_buyerId t = "u1" /\ t_sellerId t = "other-user".
Proof.
  intros w tm'. split; [reflexivity|].
  destruct (purchase_is_recorded_and_listed Cases.outside (Scenario.host_at 1000)
              (bookData Cases.calculus_sold) 30 w Scenario.ann eq_refl ltac:(discriminate))
    as (t & _ & _ & Hb & _ & Hs & Hl & _ & Hp & _).
  exists t. split; [|split; [exact Hb|exact Hs]].
  unfold tm'. rewrite Hl, Hp. reflexivity.
Defined.

Lemma sale_is_recorded_and_listed_witness :
  let w := Cases.anns_window in
  let tm' := transactionManager (fst (handleBookSold (Scenario.host_at 1000)
                                        Cases.calculus_sold w)) in
  currentUser (transactionManager w) = Some Scenario.ann
  /\ t_id (o := Cases.outside) <$> getUserTransactions "sales" tm' = ["TXN-1000-abcdefghi"]
  /\ t_id (o := Cases.outside) <$> getUserTransactions "swaps" tm' = []
  /\ t_id (o := Cases.outside) <$> default [] (ls_bookswap_transactions tm')
     = ["TXN-1000-abcdefghi"].
Proof.
  intros w tm'.
  destruct (sale_is_recorded_and_listed Cases.outside (Scenario.host_at 1000)
              Cases.calculus_sold w Scenario.ann eq_refl ltac:(discriminate))
    as (_ & Hs & _ & _ & Hl & _).
  split; [reflexivity|]. split; [|split].
  - unfold tm'. rewrite Hl. reflexivity.
  - unfold tm'. rewrite Hl. reflexivity.
  - unfold tm'. rewrite Hs. reflexivity.
Defined.

Lemma sale_while_logged_out_witness :
  let pg := Scenario.fresh_page None in
  let w' := fst (handleBookSold (Scenario.host_at 1000) Cases.calculus_sold
                   (load (o := Cases.outside) pg None (Some 0%nat))) in
  Notifications.getCurrentUser pg = None
  /\ t_sellerId (o := Cases.outside)
       <$> default [] (ls_bookswap_transactions (transactionManager w')) = ["unknown"]
  /\ getUserTransactions "all" (transactionManager w') = []
  /\ Notifications.notifications <$> notificationSystem w' = Some [].
Proof.
  intros pg w'.
  destruct (sale_while_logged_out Cases.outside (Scenario.host_at 1000) Cases.calculus_sold
              pg None (Some 0%nat) eq_refl) as (Hs & _ & _ & Hl & Hn).
  split; [reflexivity|]. split; [|split].
  - unfold w'. rewrite Hs. reflexivity.
  - apply Hl.
  - unfold w'. rewrite Hn. reflexivity.
Defined.

Lemma sale_notifies_the_seller_witness :
  let w := Cases.anns_window in
  let w' := fst (handleBookSold (Scenario.host_at 1000) Cases.calculus_sold w) in
  notificationSystem w = Some Scenario.logged_in
  /\ Notifications.currentUser Scenario.logged_in = Some Scenario.ann
  /\ exists ns' n,
       notificationSystem w' = Some ns'
       /\ Notifications.notifications ns' = [n]
       /\ n_data n = [("transactionId", "TXN-1000-abcdefghi")].
Proof.
  intros w w'. split; [reflexivity|]. split; [reflexivity|].
  destruct (sale_notifies_the_seller Cases.outside (Scenario.host_at 1000)
              Cases.calculus_sold w Scenario.logged_in Scenario.ann eq_refl eq_refl)
    as (_ & H & _).
  destruct (H eq_refl) as (ns' & n & Hw & Hn & _ & _ & Hd & _).
  exists ns', n. split; [exact Hw|]. split; [exact Hn|exact Hd].
Defined.

End TransactionManagerFacts.

(** ** Properties of a page with its notification systems *)

Module FeaturesFacts.
Import Notifications Features Invariant NotificationsFacts NotificationsInvariants.

(** *** The page name *)

Example getCurrentPage_examples :
  getCurrentPage "/notifications.html" = "notifications"
  /\ getCurrentPage "/bookswap/dashboard.html" = "dashboard"
  /\ getCurrentPage "/bookswap/" = "index"
  /\ getCurrentPage "/index.html" = "index"
  /\ getCurrentPage "/a.html.html" = "a.html".
Proof. by vm_compute. Qed.

(** *** Instances and their document *)

Lemma in_page_instance_of st : in_page (page st) (instance_of st) = st.
Proof. by destruct st. Qed.

Lemma instance_of_in_page pg i : instance_of (in_page pg i) = i.
Proof. by destruct i. Qed.

Lemma get_set k j i w :
  get j (set k i w) = if decide (j = k) then Some i else get j w.
Proof. by destruct k, j. Qed.

Lemma get_with_document j k pg w : get j (with_document k pg w) = get j w.
Proof. by destruct j. Qed.

Lemma get_with_container j items w : get j (with_container items w) = get j w.
Proof. by destruct j. Qed.

Lemma document_set k i w : document (set k i w) = document w.
Proof. by destruct k. Qed.

Lemma call_absent k f w : get k w = None -> call k f w = (w, []).
Proof. intros H. unfold call. by rewrite H. Qed.

Lemma call_present k f w i :
  get k w = Some i ->
  let st := fst (f (in_page (document w) i)) in
  get k (fst (call k f w)) = Some (instance_of st)
  /\ (forall j, j <> k -> get j (fst (call k f w)) = get j w)
  /\ document (fst (call k f w)) = page st
  /\ container (fst (call k f w)) = container w.
Proof.
  intros H st. unfold call. rewrite H. subst st.
  destruct (f (in_page (document w) i)) as [st c]. cbn [fst].
  split; [|split; [|split]].
  - rewrite get_set. by rewrite decide_True.
  - intros j Hj. rewrite get_set, decide_False by done. apply get_with_document.
  - by rewrite document_set.
  - by destruct k.
Qed.

(** A call of one instance leaves the other as it is, and what
    [f] does to a list it does to the list of the instance called. *)
Lemma call_lists (R : list Notification -> list Notification -> Prop) k f w :
  (forall l, R l l) ->
  (forall st, R (notifications st) (notifications (fst (f st)))) ->
  forall j i, get j w = Some i ->
    exists i', get j (fst (call k f w)) = Some i'
               /\ R (i_notifications i) (i_notifications i').
Proof.
  intros Hrefl Hf j i Hj.
  destruct (get k w) as [ik|] eqn:Hk; [|rewrite call_absent by done; eauto].
  destruct (call_present k f w ik Hk) as (Hsame & Hother & _).
  destruct (decide (j = k)) as [->|Hne].
  - rewrite Hsame. eexists; split; [done|].
    assert (i = ik) as -> by congruence. apply (Hf (in_page (document w) ik)).
  - rewrite (Hother j Hne). eauto.
Qed.

Lemma each_lists (R : list Notification -> list Notification -> Prop) f w :
  (forall l, R l l) -> (forall l1 l2 l3, R l1 l2 -> R l2 l3 -> R l1 l3) ->
  (forall st, R (notifications st) (notifications (fst (f st)))) ->
  forall j i, get j w = Some i ->
    exists i', get j (fst (each f w)) = Some i'
               /\ R (i_notifications i) (i_notifications i').
Proof.
  intros Hrefl Htrans Hf j i Hj. unfold each.
  destruct (call_lists R WindowSystem f w Hrefl Hf j i Hj) as (i1 & H1 & R1).
  destruct (call WindowSystem f w) as [w1 c1]. cbn [fst] in H1.
  destruct (call_lists R PageSystem f w1 Hrefl Hf j i1 H1) as (i2 & H2 & R2).
  destruct (call PageSystem f w1) as [w2 c2]. cbn [fst] in *. eauto.
Qed.

(** *** The lists of the instances *)

Lemma notifications_kept_page_step i st items :
  notifications_kept (notifications st)
    (notifications (fst (NotificationsPage.page_step i (st, items)))).
Proof.
  destruct i as [filter|k| |k]; cbn [NotificationsPage.page_step fst].
  - apply notifications_kept_refl.
  - repeat case_match; cbn [fst]; first [apply notifications_kept_refl|idtac].
    apply notifications_kept_markAsRead.
  - rewrite notifications_markAllAsRead. apply notifications_kept_fmap. by repeat split.
  - repeat case_match; cbn [fst]; first [apply notifications_kept_refl|idtac].
    apply (notifications_kept_step (ClickNotification _) st).
Qed.

Lemma kept_on_page_system i w :
  forall j a, get j w = Some a ->
    exists a', get j (fst (on_page_system i w)) = Some a'
               /\ notifications_kept (i_notifications a) (i_notifications a').
Proof.
  intros j a Hj. unfold on_page_system.
  destruct (pageSystem w) as [b|] eqn:Hb;
    [|eexists; split; [done|apply notifications_kept_refl]].
  pose proof (notifications_kept_page_step i (in_page (document w) b) (container w)) as H.
  destruct (NotificationsPage.page_step i _) as [st items]. cbn [fst] in *.
  rewrite get_with_container, get_set.
  case_decide as Hk.
  - subst j. cbn [get] in Hj. assert (a = b) as -> by congruence.
    eexists; split; [done|]. exact H.
  - rewrite get_with_document. eexists; split; [done|apply notifications_kept_refl].
Qed.

Lemma kept_step e w :
  forall j a, get j w = Some a ->
    exists a', get j (fst (step e w)) = Some a'
               /\ notifications_kept (i_notifications a) (i_notifications a').
Proof.
  destruct e; cbn [step];
    first [ apply call_lists; [apply notifications_kept_refl|apply notifications_kept_step]
          | apply each_lists;
              [apply notifications_kept_refl|apply notifications_kept_trans
              |apply notifications_kept_step]
          | apply kept_on_page_system ].
Qed.

Lemma kept_run events w :
  forall j a, get j w = Some a ->
    exists a', get j (fst (run events w)) = Some a'
               /\ notifications_kept (i_notifications a) (i_notifications a').
Proof.
  revert w. induction events as [|e events IH]; intros w j a Hj.
  - eexists; split; [done|apply notifications_kept_refl].
  - cbn [run]. destruct (kept_step e w j a Hj) as (a1 & H1 & K1).
    destruct (step e w) as [w1 c]. cbn [fst] in H1.
    destruct (IH w1 j a1 H1) as (a2 & H2 & K2).
    destruct (run events w1) as [w2 cs]. cbn [fst] in *.
    eexists; split; [done|]. by eapply notifications_kept_trans.
Qed.

(** *** A page with one instance *)

Lemma window_system_call f w :
  window_system (fst (call WindowSystem f w)) = fst (f (window_system w))
  /\ pageSystem (fst (call WindowSystem f w)) = pageSystem w.
Proof.
  unfold call, window_system. cbn [get].
  destruct (f (in_page (document w) (notificationSystem w))) as [st c]. cbn.
  split; [by destruct st|done].
Qed.

Lemma step_alone e w :
  pageSystem w = None ->
  pageSystem (fst (step e w)) = None
  /\ (window_system (fst (step e w)) = window_system w
      \/ exists i, window_system (fst (step e w)) = fst (Notifications.step i (window_system w))).
Proof.
  intros Hp.
  assert (forall f, call PageSystem f w = (w, [])) as Hnone
    by (intros f; by apply call_absent).
  assert (forall f, pageSystem (fst (call WindowSystem f w)) = None
                    /\ window_system (fst (call WindowSystem f w)) = fst (f (window_system w)))
    as Hcall.
  { intros f. destruct (window_system_call f w) as [H1 H2]. split; congruence. }
  assert (forall f, pageSystem (fst (each f w)) = None
                    /\ window_system (fst (each f w)) = fst (f (window_system w)))
    as Heach.
  { intros f. unfold each. destruct (Hcall f) as [H1 H2].
    destruct (call WindowSystem f w) as [w1 c1]. cbn [fst] in *.
    rewrite (call_absent PageSystem f w1) by done. done. }
  destruct e as [h|time t|time t| | | |k id|k n|h n|i]; cbn [step].
  - unfold timer_owner. rewrite Hp. destruct (Hcall (Notifications.step (Fire h))). eauto.
  - destruct (Hcall (Notifications.step (ClickToastClose time t))). eauto.
  - unfold owner_of_toast. rewrite Hp.
    destruct (Hcall (Notifications.step (ClickToast time t))). eauto.
  - destruct (Heach (Notifications.step ClickIcon)). eauto.
  - destruct (Heach (Notifications.step ClickMarkAllRead)). eauto.
  - destruct (Heach (Notifications.step ClickDocument)). eauto.
  - destruct k; [|rewrite Hnone; auto].
    destruct (Hcall (Notifications.step (ClickMarkRead id))). eauto.
  - destruct k; [|rewrite Hnone; auto].
    destruct (Hcall (Notifications.step (ClickNotification n))). eauto.
  - destruct (Hcall (Notifications.step (Add h n))). eauto.
  - unfold on_page_system. rewrite Hp. auto.
Qed.

Lemma run_alone events w :
  pageSystem w = None ->
  exists inputs,
    window_system (fst (run events w)) = fst (Notifications.run inputs (window_system w)).
Proof.
  revert w. induction events as [|e events IH]; intros w Hp; [by exists []|].
  cbn [run]. destruct (step_alone e w Hp) as [Hp1 H1].
  destruct (step e w) as [w1 c]. cbn [fst] in *.
  destruct (IH w1 Hp1) as [inputs Hi].
  destruct (run events w1) as [w2 cs]. cbn [fst] in *.
  destruct H1 as [H1|[i H1]].
  - exists inputs. by rewrite Hi, H1.
  - exists (i :: inputs). cbn [Notifications.run].
    rewrite Hi, H1. destruct (Notifications.step i (window_system w)) as [s1 c1].
    cbn [fst]. by destruct (Notifications.run inputs s1).
Qed.

Lemma initializeFeatures_alone toLocaleDateString h pathname pg :
  getCurrentPage pathname <> "notifications" ->
  pageSystem (initializeFeatures toLocaleDateString h pathname pg) = None
  /\ window_system (initializeFeatures toLocaleDateString h pathname pg) = constructor pg.
Proof.
  intros Hp. unfold initializeFeatures. rewrite decide_False by done.
  split; [done|]. unfold window_system, initializeNotifications.
  cbn [document notificationSystem]. apply in_page_instance_of.
Qed.

Lemma localStorage_constructor pg : localStorage (page (constructor pg)) = localStorage pg.
Proof.
  unfold constructor, initNotificationSystem, startNotificationPolling, addEventListeners.
  cbn [page on_page with_page setInterval with_timers localStorage].
  rewrite localStorage_updateNotificationBadge.
  unfold createNotificationElements. cbn. by repeat case_match.
Qed.

Lemma initializeFeatures_lists toLocaleDateString h pathname pg k a :
  get k (initializeFeatures toLocaleDateString h pathname pg) = Some a ->
  i_notifications a = default [] (loadNotificationsFromStorage pg).
Proof.
  assert (notifications (constructor (page (constructor pg)))
          = default [] (loadNotificationsFromStorage pg)) as Hsecond.
  { rewrite notifications_constructor. unfold loadNotificationsFromStorage.
    by rewrite localStorage_constructor. }
  unfold initializeFeatures, initializeNotifications, initializeNotificationsPage.
  case_decide; destruct k; cbn [get with_container set with_document notificationSystem
    pageSystem document]; intros [= <-]; cbn [i_notifications instance_of];
    try apply notifications_constructor; done.
Qed.

(** *** The count, the badge and storage *)

(** C5.  On the notifications page [initializeFeatures] constructs a
    second [NotificationSystem] beside [window.notificationSystem], where
    every other user of the notification system goes through
    [window.notificationSystem]; each of the two holds the list it read when
    it was constructed and writes it to storage without reading storage
    again.  One unread notification is stored and both instances count 1.
    The user clicks "Mark all as read" on the page: the page's instance
    marks its list and writes it, so that no stored notification is unread
    and the badge is hidden, and [window.notificationSystem] still counts 1
    where the claim has the count equal the number of stored unread
    notifications in every reachable state.  Or nothing is clicked and the
    interval of [window.notificationSystem] fires with a draw below 0.1:
    two unread notifications are stored and the page's instance counts
    1. *)
Theorem unread_count_differs_from_stored :
  let w0 := Cases.notifications_page_loaded in
  let w := fst (step (OnPage NotificationsPage.ClickPageMarkAllRead) w0) in
  let w' := fst (step (TimerFires (Scenario.host_at 30000)) w0) in
  getUnreadCount (window_system w0) = 1%nat
  /\ length (stored_unread w0) = 1%nat
  /\ getUnreadCount (window_system w) = 1%nat
  /\ length (stored_unread w) = 0%nat
  /\ (display ∘ badge) <$> widget (document w) = Some "none"
  /\ (fun b : Instance => getUnreadCount (in_page (document w') b)) <$> pageSystem w'
     = Some 1%nat
  /\ length (stored_unread w') = 2%nat.
Proof. by vm_compute. Qed.



(** X2.  No operation of an instance removes, reorders or rewrites a
    notification of its own list: after any run of timers, clicks and
    additions in a window, the list of [window.notificationSystem], and that
    of the page's instance on the notifications page, is the list that was
    stored when the page was loaded, behind the notifications the instance
    added since, each notification with its identifier, type, text, time,
    data and link, and with [read] and [seen] set if they were set.  On
    every page but the notifications page, where there is one instance, the
    same holds of the stored list. *)
Theorem notifications_are_never_removed toLocaleDateString h pathname pg events :
  let stored := default [] (loadNotificationsFromStorage pg) in
  let w := fst (run events (initializeFeatures toLocaleDateString h pathname pg)) in
  notifications_kept stored (i_notifications (notificationSystem w))
  /\ (forall b, pageSystem w = Some b -> notifications_kept stored (i_notifications b))
  /\ (getCurrentPage pathname <> "notifications" ->
      notifications_kept stored (default [] (loadNotificationsFromStorage (document w)))).
Proof.
  intros stored w.
  assert (forall k a, get k w = Some a -> notifications_kept stored (i_notifications a))
    as Hk.
  { intros k a Ha.
    destruct (get k (initializeFeatures toLocaleDateString h pathname pg)) as [a0|] eqn:H0.
    - destruct (kept_run events _ k a0 H0) as (a' & Ha' & K). fold w in Ha'.
      assert (a' = a) as -> by congruence.
      by rewrite (initializeFeatures_lists _ _ _ _ _ _ H0) in K.
    - exfalso. destruct k; [done|]. cbn [get] in *.
      unfold initializeFeatures in H0. case_decide as Hp; [done|].
      destruct (initializeFeatures_alone toLocaleDateString h pathname pg Hp) as [Hn _].
      clear -Hn Ha. unfold w in Ha. revert Hn Ha.
      generalize (initializeFeatures toLocaleDateString h pathname pg).
      induction events as [|e events IH]; intros w0 H0 Ha; [cbn in Ha; congruence|].
      cbn [run] in Ha. pose proof (proj1 (step_alone e w0 H0)) as H1.
      destruct (step e w0) as [w1 cs]. cbn [fst] in H1.
      apply (IH w1 H1). by destruct (run events w1). }
  split; [by apply (Hk WindowSystem)|]. split; [by apply (Hk PageSystem)|].
  intros Hp.
  destruct (initializeFeatures_alone toLocaleDateString h pathname pg Hp) as [Hnone Hinit].
  destruct (run_alone events _ Hnone) as [inputs Hrun]. fold w in Hrun.
  rewrite Hinit in Hrun.
  pose proof (proj2 one_instance_keeps_notifications pg inputs) as H.
  rewrite <- Hrun in H. exact H.
Qed.

(** *** The dropdown on the notifications page *)

Lemma menu_closed_frame pg pg' :
  menu_show <$> widget pg' = menu_show <$> widget pg -> menu_closed pg -> menu_closed pg'.
Proof.
  intros He H w' Hw'. rewrite Hw' in He.
  destruct (widget pg) as [w|] eqn:Hw; [|done]. injection He as ->. by apply H.
Qed.

Lemma menu_show_markAsRead notificationId st :
  menu_show <$> widget (page (markAsRead notificationId st)) = menu_show <$> widget (page st).
Proof.
  unfold markAsRead. destruct (list_find _ _) as [[i n]|]; [|done].
  by rewrite menu_show_renderNotifications, menu_show_updateNotificationBadge.
Qed.

Lemma menu_show_markAllAsRead st :
  menu_show <$> widget (page (markAllAsRead st)) = menu_show <$> widget (page st).
Proof.
  unfold markAllAsRead. destruct (notifications st); [done|].
  by rewrite menu_show_renderNotifications, menu_show_updateNotificationBadge.
Qed.

Lemma menu_show_markNotificationsAsSeen st :
  menu_show <$> widget (page (markNotificationsAsSeen st)) = menu_show <$> widget (page st).
Proof.
  unfold markNotificationsAsSeen. destruct (notifications st); [done|].
  by rewrite menu_show_updateNotificationBadge.
Qed.

Lemma menu_show_addNotification h notification st :
  menu_show <$> widget (page (fst (addNotification h notification st)))
  = menu_show <$> widget (page st).
Proof.
  unfold addNotification. destruct (currentUser st); [|done]. cbn [fst].
  unfold showToastNotification. cbn [page with_page widget setTimeout with_timers
    with_toast_container with_toasts].
  by rewrite menu_show_renderNotifications, menu_show_updateNotificationBadge.
Qed.

Lemma menu_closed_closeNotificationDropdown st :
  menu_closed (page (closeNotificationDropdown st)).
Proof.
  unfold closeNotificationDropdown. destruct (widget (page st)) as [w|] eqn:Hw.
  - intros w' [= <-]. done.
  - intros w' Hw'. congruence.
Qed.

Lemma menu_closed_handleNotificationClick n st :
  menu_closed (page st) -> menu_closed (page (handleNotificationClick n st)).
Proof.
  intros H. unfold handleNotificationClick.
  pose proof (menu_closed_frame _ _ (menu_show_markAsRead (n_id n) st) H) as H'.
  repeat case_match; first [exact H'|apply menu_closed_closeNotificationDropdown].
Qed.

(** Every listener and callback but the bell's leaves a closed dropdown
    closed. *)
Lemma menu_closed_step i st :
  i <> ClickIcon -> menu_closed (page st) -> menu_closed (page (fst (Notifications.step i st))).
Proof.
  intros Hi H. destruct i as [h|time t|time t| | | |id|n|h n]; unfold Notifications.step;
    cbn [fst]; [| | |done| | | | |].
  - unfold fire. destruct (next_timer _) as [[i tm]|]; [|done].
    match goal with |- menu_closed (page (fst (run_callback _ _ ?s))) =>
      assert (menu_closed (page s)) as Hs by done; revert Hs; generalize s end.
    intros s Hs. destruct (callback tm); unfold run_callback; cbn [fst]; try done.
    + unfold poll_tick. destruct (currentUser s); [|done].
      destruct (Qlt_le_dec _ _); [|done].
      destruct (simulateNewNotification_adds (after_draws 1 h) s) as (h' & n' & -> & _).
      by apply (menu_closed_frame _ _ (menu_show_addNotification h' n' s)).
    + destruct (contains t (page s)) eqn:E; [|done].
      unfold removeChild. by rewrite E.
    + unfold removeChild. by destruct (contains t (page s)).
  - by destruct (contains t (page st)).
  - destruct (contains t (page st)); [|done]. cbn [fst].
    unfold click_toast. cbn [page on_page with_page toasts with_clock].
    destruct (toasts (page st) !! t); [|done].
    by apply (menu_closed_handleNotificationClick _ (on_page _ st)).
  - unfold click_mark_all_read. destruct (widget (page st)) eqn:Hw; [|done].
    by apply (menu_closed_frame _ _ (menu_show_markAllAsRead st)).
  - apply menu_closed_closeNotificationDropdown.
  - by apply (menu_closed_frame _ _ (menu_show_markAsRead id st)).
  - by apply menu_closed_handleNotificationClick.
  - by apply (menu_closed_frame _ _ (menu_show_addNotification h n st)).
Qed.

Lemma menu_closed_page_step i st items :
  menu_closed (page st) ->
  menu_closed (page (fst (NotificationsPage.page_step i (st, items)))).
Proof.
  intros H. destruct i as [filter|k| |k]; cbn [NotificationsPage.page_step fst].
  - done.
  - repeat case_match; cbn [fst]; try done.
    by apply (menu_closed_frame _ _ (menu_show_markAsRead _ st)).
  - by apply (menu_closed_frame _ _ (menu_show_markAllAsRead st)).
  - repeat case_match; cbn [fst]; try done.
    by apply menu_closed_handleNotificationClick.
Qed.

(** Nothing changes the bell listener an instance registered. *)
Lemma onDashboard_markAsRead id st : onDashboard (markAsRead id st) = onDashboard st.
Proof.
  unfold markAsRead. destruct (list_find _ _) as [[i n]|]; [|done].
  by rewrite onDashboard_renderNotifications, onDashboard_updateNotificationBadge.
Qed.

Lemma onDashboard_handleNotificationClick n st :
  onDashboard (handleNotificationClick n st) = onDashboard st.
Proof.
  unfold handleNotificationClick, closeNotificationDropdown.
  repeat case_match; cbn [onDashboard on_page with_page]; apply onDashboard_markAsRead.
Qed.

Lemma onDashboard_markAllAsRead st : onDashboard (markAllAsRead st) = onDashboard st.
Proof.
  unfold markAllAsRead. destruct (notifications st); [done|].
  by rewrite onDashboard_renderNotifications, onDashboard_updateNotificationBadge.
Qed.

Lemma onDashboard_addNotification h n st :
  onDashboard (fst (addNotification h n st)) = onDashboard st.
Proof.
  unfold addNotification. destruct (currentUser st); [|done]. cbn [fst].
  unfold showToastNotification. cbn [onDashboard with_page].
  by rewrite onDashboard_renderNotifications, onDashboard_updateNotificationBadge.
Qed.

Lemma onDashboard_step i st : onDashboard (fst (Notifications.step i st)) = onDashboard st.
Proof.
  destruct i as [h|time t|time t| | | |id|n|h n]; unfold Notifications.step; cbn [fst].
  - unfold fire. destruct (next_timer _) as [[i tm]|]; [|done].
    match goal with |- onDashboard (fst (run_callback _ _ ?s)) = _ =>
      change (onDashboard st) with (onDashboard s); generalize s end.
    intros s. destruct (callback tm); unfold run_callback, removeChild; cbn [fst].
    + unfold poll_tick. destruct (currentUser s); [|done].
      destruct (Qlt_le_dec _ _); [|done].
      destruct (simulateNewNotification_adds (after_draws 1 h) s) as (h' & n' & -> & _).
      apply onDashboard_addNotification.
    + done.
    + done.
    + by repeat case_match.
    + by repeat case_match.
  - by destruct (contains t (page st)).
  - destruct (contains t (page st)); [|done]. unfold click_toast.
    cbn [page on_page with_page toasts with_clock fst].
    destruct (toasts (page st) !! t); [|done].
    cbn [onDashboard on_page with_page]. by rewrite onDashboard_handleNotificationClick.
  - unfold click_icon, toggleNotificationDropdown. destruct (widget (page st)); [|done].
    destruct (onDashboard st) eqn:E; [done|].
    destruct (negb _); [|by rewrite <- E].
    unfold markNotificationsAsSeen. cbn [notifications on_page with_page].
    destruct (notifications st); [by rewrite <- E|].
    by rewrite onDashboard_updateNotificationBadge.
  - unfold click_mark_all_read. destruct (widget (page st)); [|done].
    apply onDashboard_markAllAsRead.
  - unfold click_document, closeNotificationDropdown. by case_match.
  - apply onDashboard_markAsRead.
  - apply onDashboard_handleNotificationClick.
  - apply onDashboard_addNotification.
Qed.

Lemma onDashboard_page_step i st items :
  onDashboard (fst (NotificationsPage.page_step i (st, items))) = onDashboard st.
Proof.
  destruct i as [filter|k| |k]; cbn [NotificationsPage.page_step fst]; try done.
  - repeat case_match; cbn [fst]; try done. apply onDashboard_markAsRead.
  - apply onDashboard_markAllAsRead.
  - repeat case_match; cbn [fst]; try done. apply onDashboard_handleNotificationClick.
Qed.

(** The bell's listener on a closed dropdown: on the dashboard it leaves
    the dropdown closed; elsewhere it opens it, when there is one. *)
Lemma click_icon_closed st :
  menu_closed (page st) ->
  menu_show <$> widget (page (click_icon st))
  = (fun _ => negb (onDashboard st)) <$> widget (page st).
Proof.
  intros H. unfold click_icon. destruct (widget (page st)) as [w|] eqn:Hw; [|by rewrite Hw].
  destruct (onDashboard st).
  - cbn. rewrite Hw. cbn. f_equal. by apply H.
  - unfold toggleNotificationDropdown. rewrite Hw, (H w Hw). cbn [negb].
    rewrite menu_show_markNotificationsAsSeen. done.
Qed.

(** The bell's listener on an open dropdown, off the dashboard: it closes
    the dropdown. *)
Lemma click_icon_open st w :
  widget (page st) = Some w -> menu_show w = true -> onDashboard st = false ->
  menu_closed (page (click_icon st)).
Proof.
  intros Hw Hm Hd. unfold click_icon, toggleNotificationDropdown. rewrite Hw, Hd, Hm.
  cbn. intros w' [= <-]. done.
Qed.

Lemma call_same_bell_listener k f w :
  (forall st, onDashboard (fst (f st)) = onDashboard st) ->
  two_systems w /\ same_bell_listener w ->
  two_systems (fst (call k f w)) /\ same_bell_listener (fst (call k f w)).
Proof.
  intros Hf [[b Hb] Hsame]. specialize (Hsame b Hb).
  assert (exists a, get k w = Some a) as [a Ha] by (destruct k; cbn [get]; eauto).
  destruct (call_present k f w a Ha) as (Hk & Hother & _).
  pose proof (Hf (in_page (document w) a)) as Hd. cbn [onDashboard in_page] in Hd.
  destruct k; cbn [get] in *.
  - injection Ha as <-. pose proof (Hother PageSystem ltac:(done)) as Hp. cbn [get] in Hp.
    split; [by exists b; congruence|]. intros b' Hb'.
    assert (b' = b) as -> by congruence.
    injection Hk as ->. cbn [i_onDashboard instance_of]. congruence.
  - assert (a = b) as -> by congruence.
    pose proof (Hother WindowSystem ltac:(done)) as Hw. cbn [get] in Hw.
    injection Hw as Hw.
    split; [by eexists|]. intros b' Hb'. rewrite Hk in Hb'. injection Hb' as <-.
    rewrite Hw. cbn [i_onDashboard instance_of]. congruence.
Qed.

Lemma call_menu_closed k f w :
  (forall st, menu_closed (page st) -> menu_closed (page (fst (f st)))) ->
  menu_closed (document w) -> menu_closed (document (fst (call k f w))).
Proof.
  intros Hf H. destruct (get k w) as [a|] eqn:Ha; [|by rewrite call_absent].
  destruct (call_present k f w a Ha) as (_ & _ & -> & _). by apply Hf.
Qed.

Lemma each_same_bell_listener f w :
  (forall st, onDashboard (fst (f st)) = onDashboard st) ->
  two_systems w /\ same_bell_listener w ->
  two_systems (fst (each f w)) /\ same_bell_listener (fst (each f w)).
Proof.
  intros Hf H. unfold each.
  pose proof (call_same_bell_listener WindowSystem f w Hf H) as H1.
  destruct (call WindowSystem f w) as [w1 c1]. cbn [fst] in H1.
  pose proof (call_same_bell_listener PageSystem f w1 Hf H1) as H2.
  by destruct (call PageSystem f w1) as [w2 c2].
Qed.

Lemma each_menu_closed f w :
  (forall st, menu_closed (page st) -> menu_closed (page (fst (f st)))) ->
  menu_closed (document w) -> menu_closed (document (fst (each f w))).
Proof.
  intros Hf H. unfold each.
  pose proof (call_menu_closed WindowSystem f w Hf H) as H1.
  destruct (call WindowSystem f w) as [w1 c1]. cbn [fst] in H1.
  pose proof (call_menu_closed PageSystem f w1 Hf H1) as H2.
  by destruct (call PageSystem f w1) as [w2 c2].
Qed.

(** The bell with two listeners: what the first opens the second closes. *)
Lemma bell_menu_closed w :
  two_systems w /\ same_bell_listener w ->
  menu_closed (document w) ->
  menu_closed (document (fst (each (Notifications.step ClickIcon) w))).
Proof.
  intros [[b Hb] Hsame] H. specialize (Hsame b Hb). unfold each.
  destruct (call_present WindowSystem (Notifications.step ClickIcon) w
              (notificationSystem w) eq_refl) as (_ & Hother & Hdoc & _).
  specialize (Hother PageSystem ltac:(done)). cbn [get] in Hother.
  destruct (call WindowSystem (Notifications.step ClickIcon) w) as [w1 c1].
  cbn [fst Notifications.step] in *.
  rewrite Hb in Hother.
  destruct (call_present PageSystem (Notifications.step ClickIcon) w1 b Hother)
    as (_ & _ & Hdoc2 & _).
  destruct (call PageSystem (Notifications.step ClickIcon) w1) as [w2 c2].
  cbn [fst Notifications.step] in *. rewrite Hdoc2.
  pose proof (click_icon_closed (in_page (document w) (notificationSystem w)) H) as Hm.
  rewrite <- Hdoc in Hm. cbn [page in_page onDashboard] in Hm.
  destruct (widget (document w1)) as [w1'|] eqn:Hw1.
  - destruct (widget (document w)) as [w0|] eqn:Hw0; [|done].
    cbn in Hm. injection Hm as Hm.
    destruct (menu_show w1') eqn:Hopen.
    + apply (click_icon_open _ w1'); [done|done|].
      cbn [onDashboard in_page]. rewrite Hsame.
      destruct (i_onDashboard (notificationSystem w)); [|done].
      cbn in Hm. congruence.
    + assert (menu_closed (document w1)) as Hc by (intros ? ?; congruence).
      pose proof (click_icon_closed (in_page (document w1) b) Hc) as Hm2.
      cbn [page in_page onDashboard] in Hm2. rewrite Hw1 in Hm2. cbn in Hm2.
      intros w' Hw'. rewrite Hw' in Hm2. cbn in Hm2. injection Hm2 as ->.
      rewrite Hsame. destruct (i_onDashboard (notificationSystem w)); [done|].
      cbn in Hm. congruence.
  - unfold click_icon. cbn [page in_page]. rewrite Hw1. cbn [page in_page].
    intros w' Hw'. congruence.
Qed.

Lemma on_page_system_closed i w :
  two_systems w /\ same_bell_listener w -> menu_closed (document w) ->
  (two_systems (fst (on_page_system i w)) /\ same_bell_listener (fst (on_page_system i w)))
  /\ menu_closed (document (fst (on_page_system i w))).
Proof.
  intros [[b Hb] Hsame] H. specialize (Hsame b Hb). unfold on_page_system. rewrite Hb.
  pose proof (menu_closed_page_step i (in_page (document w) b) (container w) H) as Hm.
  pose proof (onDashboard_page_step i (in_page (document w) b) (container w)) as Hd.
  destruct (NotificationsPage.page_step i _) as [st items]. cbn [fst] in *.
  split; [split|].
  - by eexists.
  - intros b' [= <-]. cbn. cbn in Hd. congruence.
  - done.
Qed.

Lemma two_closed_step e w :
  two_systems w /\ same_bell_listener w -> menu_closed (document w) ->
  (two_systems (fst (step e w)) /\ same_bell_listener (fst (step e w)))
  /\ menu_closed (document (fst (step e w))).
Proof.
  intros H2 Hc.
  destruct e as [h|time t|time t| | | |k id|k n|h n|i]; cbn [step];
    [| | | | | | | | |by apply on_page_system_closed];
    (split; [first [apply call_same_bell_listener|apply each_same_bell_listener];
             [apply onDashboard_step|done]|]);
    first [by apply bell_menu_closed
          |apply call_menu_closed; [|done]; intros st; by apply menu_closed_step
          |apply each_menu_closed; [|done]; intros st; by apply menu_closed_step].
Qed.

Lemma two_closed_run events w :
  two_systems w /\ same_bell_listener w -> menu_closed (document w) ->
  menu_closed (document (fst (run events w))).
Proof.
  revert w. induction events as [|e events IH]; intros w H2 Hc; [done|].
  cbn [run]. destruct (two_closed_step e w H2 Hc) as [H2' Hc'].
  destruct (step e w) as [w1 c]. cbn [fst] in *.
  specialize (IH w1 H2' Hc'). by destruct (run events w1).
Qed.

Lemma location_href_constructor pg :
  location_href (page (constructor pg)) = location_href pg.
Proof.
  unfold constructor, initNotificationSystem, startNotificationPolling, addEventListeners.
  cbn [page on_page with_page setInterval with_timers location_href].
  assert (forall s, location_href (page (updateNotificationBadge s)) = location_href (page s))
    as ->.
  { intros s. unfold updateNotificationBadge. by destruct (widget (page s)). }
  unfold createNotificationElements. cbn. by repeat case_match.
Qed.

Lemma onDashboard_constructor pg :
  onDashboard (constructor pg) = includes "dashboard.html" (location_href pg).
Proof.
  unfold constructor, initNotificationSystem, startNotificationPolling, addEventListeners.
  cbn [onDashboard on_page with_page page].
  assert (forall s, location_href (page (updateNotificationBadge s)) = location_href (page s))
    as ->.
  { intros s. unfold updateNotificationBadge. by destruct (widget (page s)). }
  unfold createNotificationElements. cbn. by repeat case_match.
Qed.

Lemma menu_closed_constructor pg :
  menu_closed pg -> menu_closed (page (constructor pg)).
Proof.
  intros H. unfold constructor, initNotificationSystem, startNotificationPolling,
    addEventListeners.
  cbn [page on_page with_page widget setInterval with_timers].
  eapply menu_closed_frame; [apply menu_show_updateNotificationBadge|].
  unfold createNotificationElements. cbn [page widget].
  destruct (widget pg) as [w0|] eqn:Hw0; [done|].
  destruct (navbar pg); [|done]. cbn. intros w' [= <-]. done.
Qed.

Lemma initializeFeatures_on_the_notifications_page toLocaleDateString h pathname pg :
  getCurrentPage pathname = "notifications" ->
  let w := initializeFeatures toLocaleDateString h pathname pg in
  notificationSystem w = instance_of (constructor pg)
  /\ pageSystem w = Some (instance_of (constructor (page (constructor pg))))
  /\ document w = page (constructor (page (constructor pg))).
Proof.
  intros Hp. unfold initializeFeatures. rewrite decide_True by done. done.
Qed.

(** X27.  On the notifications page the bell carries the listeners of two
    instances, and what the first opens the second closes: when the dropdown
    is closed as the page is loaded, it is closed after every run of
    timers, clicks and additions. *)
Theorem dropdown_stays_closed_on_the_notifications_page
    toLocaleDateString h pathname pg events :
  getCurrentPage pathname = "notifications" ->
  menu_closed pg ->
  let w := fst (run events (initializeFeatures toLocaleDateString h pathname pg)) in
  menu_closed (document w).
Proof.
  intros Hp Hc w.
  destruct (initializeFeatures_on_the_notifications_page toLocaleDateString h pathname pg Hp)
    as (Ha & Hb & Hd).
  apply two_closed_run.
  - split; [by eexists|]. intros b Hb'. rewrite Hb in Hb'. injection Hb' as <-.
    rewrite Ha. change (onDashboard (constructor (page (constructor pg)))
                        = onDashboard (constructor pg)).
    rewrite !onDashboard_constructor. by rewrite location_href_constructor.
  - rewrite Hd. by apply menu_closed_constructor, menu_closed_constructor.
Qed.

(** One click on the bell of the notifications page: the dropdown is
    closed again, and the click has marked the notification as seen for
    [window.notificationSystem] and in storage, not for the page's
    instance.  On another page the same click leaves the dropdown open. *)
Lemma dropdown_stays_closed_on_the_notifications_page_witness :
  let w := fst (run [ClickBell] Cases.notifications_page_loaded) in
  let w1 := fst (run [ClickBell]
                   (initializeFeatures (fun _ => "") (Scenario.host_at 100) "/browse.html"
                      Cases.notifications_html)) in
  getCurrentPage "/notifications.html" = "notifications"
  /\ menu_closed Cases.notifications_html
  /\ menu_show <$> widget (document w) = Some false
  /\ n_seen <$> i_notifications (notificationSystem w) = [true]
  /\ (fun b : Instance => n_seen <$> i_notifications b) <$> pageSystem w = Some [false]
  /\ (fun l : list Notification => n_seen <$> l)
     <$> loadNotificationsFromStorage (document w) = Some [true]
  /\ menu_show <$> widget (document w1) = Some true.
Proof.
  intros w w1.
  assert (getCurrentPage "/notifications.html" = "notifications") as Hp by reflexivity.
  assert (menu_closed Cases.notifications_html) as Hc by (intros wd [=]).
  pose proof (dropdown_stays_closed_on_the_notifications_page (fun _ => "")
                (Scenario.host_at 100) "/notifications.html" Cases.notifications_html
                [ClickBell] Hp Hc) as H.
  split; [exact Hp|]. split; [exact Hc|]. split.
  - destruct (widget (document w)) as [wd|] eqn:Hw; [|by vm_compute in Hw].
    simpl. f_equal. by apply H.
  - by vm_compute.
Defined.

End FeaturesFacts.
